(** * IndoorClimateMonitor: the rotating segment writer and the windowed reader

    A shallow embedding of [collector/collect-dirigera.py] (the sampling
    loop, [read_sensor_values], [atomic_write_json], [append_reading]) and of
    [web/server.py] ([load_data], [get_readings]), with the parts of Python's
    [datetime], [json] and [os] modules that these functions call.

    Conventions of the model.
    - A Python [str] is a [string]; its order is the code-point order
      ([String.compare]).  The model covers ASCII strings ([Str.isascii]):
      Python's [strptime] also takes the decimal digits of other scripts
      for digits, so a statement about a string that does not parse
      carries the hypothesis that the string is ASCII.
    - A naive [datetime] is the record of its seven fields and is compared
      field by field, as Python compares them.
    - A file holds the complete [json.dump] of a value, a prefix of such a
      dump, or other bytes that [json.load] rejects, or cannot be opened;
      [json.load] of a complete dump gives the value back.
    - A path is the pair of its [os.path.dirname] and its base name.
    - Operating-system failures other than a missing file or directory (disk
      full, permissions) are outside the model.
    - What [matplotlib] does inside [plot_day] (whether it raises, what it
      leaves in the directory of the plot) and which time stamps
      [datetime.fromisoformat] accepts there are answers of the environment.
    - [KeyboardInterrupt] and its handler are not modelled: the loop is
      followed through whole iterations, up to the exception that ends it
      if one does. *)

From Stdlib Require Import ZArith Lia List String Ascii Bool PrimFloat Sorted Permutation.
From stdpp Require Import base option gmap strings sorting.

Import ListNotations.
Local Open Scope string_scope.
Local Open Scope list_scope.
Local Open Scope Z_scope.

(** ** Python exceptions and results *)

Inductive exn :=
| KeyError | IndexError | TypeError | ValueError | OverflowError | AttributeError
| FileExistsError | FileNotFoundError | OtherError.

Inductive except (A : Type) :=
| Return (a : A)
| Raise (e : exn).
Arguments Return {A} a.
Arguments Raise {A} e.

#[global] Instance except_fmap : FMap except := fun A B f m =>
  match m with
  | Return a => Return (f a)
  | Raise e => Raise e
  end.

(** ** Strings *)

Module Str.

Definition startswith (s p : string) : bool := String.prefix p s.

Definition endswith (s p : string) : bool :=
  let n := String.length s in
  let k := String.length p in
  (k <=? n)%nat && String.eqb (String.substring (n - k) k s) p.

(** [s.split(sep)] for a one-character separator. *)
Fixpoint split (sep : ascii) (s : string) : list string :=
  match s with
  | EmptyString => [EmptyString]
  | String c s' =>
      if Ascii.eqb c sep then EmptyString :: split sep s'
      else match split sep s' with
           | w :: ws => String c w :: ws
           | [] => [String c EmptyString]
           end
  end.

(** [l[i]], an [IndexError] out of range. *)
Definition index {A} (l : list A) (i : nat) : option A := nth_error l i.

(** [s.isascii()]. *)
Fixpoint isascii (s : string) : bool :=
  match s with
  | EmptyString => true
  | String c s' => (N_of_ascii c <? 128)%N && isascii s'
  end.

(** A decimal digit, among ASCII characters. *)
Definition is_digit (c : ascii) : bool :=
  let n := N_of_ascii c in (48 <=? n)%N && (n <=? 57)%N.

Definition digit_val (c : ascii) : Z := Z.of_N (N_of_ascii c) - 48.

Definition digit_char (k : Z) : ascii := ascii_of_N (Z.to_N (48 + k)).

(** [lower] on the ASCII letters, for case-insensitive matching. *)
Definition lower (c : ascii) : ascii :=
  let n := N_of_ascii c in
  if (65 <=? n)%N && (n <=? 90)%N then ascii_of_N (n + 32) else c.

(** ["%0<w>d" % n] for [0 <= n < 10^w]. *)
Fixpoint zpad (w : nat) (n : Z) : string :=
  match w with
  | O => EmptyString
  | S w' => zpad w' (n / 10) +:+ String (digit_char (n mod 10)) EmptyString
  end.

(** Stable insertion sort by a string key: the result of [list.sort(key=...)]
    and of [sorted], which are stable. *)
Section Sort.
Context {A : Type} (key : A -> string).

Fixpoint insert (x : A) (l : list A) : list A :=
  match l with
  | [] => [x]
  | y :: l' =>
      if String.leb (key x) (key y) then x :: y :: l' else y :: insert x l'
  end.

Fixpoint sort (l : list A) : list A :=
  match l with
  | [] => []
  | x :: l' => insert x (sort l')
  end.

(** The order a list sorted by [key] is in. *)
Definition key_le (a b : A) : Prop := String.le (key a) (key b).
End Sort.

End Str.

(** ** The [datetime] module *)

Module datetime.

Record date := mkdate { dyear : Z; dmonth : Z; dday : Z }.

Record t := mk {
  year : Z; month : Z; day : Z;
  hour : Z; minute : Z; second : Z; microsecond : Z
}.

Definition MINYEAR : Z := 1.
Definition MAXYEAR : Z := 9999.

Definition is_leap (y : Z) : bool :=
  (y mod 4 =? 0) && (negb (y mod 100 =? 0) || (y mod 400 =? 0)).

Definition days_in_month (y m : Z) : Z :=
  if m =? 2 then (if is_leap y then 29 else 28)
  else if (m =? 4) || (m =? 6) || (m =? 9) || (m =? 11) then 30
  else 31.

Definition days_before_year (y : Z) : Z :=
  let y' := y - 1 in y' * 365 + y' / 4 - y' / 100 + y' / 400.

Definition DAYS_BEFORE_MONTH (m : Z) : Z :=
  match m with
  | 1 => 0 | 2 => 31 | 3 => 59 | 4 => 90 | 5 => 120 | 6 => 151
  | 7 => 181 | 8 => 212 | 9 => 243 | 10 => 273 | 11 => 304 | 12 => 334
  | _ => 0
  end.

Definition days_before_month (y m : Z) : Z :=
  DAYS_BEFORE_MONTH m + (if (2 <? m) && is_leap y then 1 else 0).

(** [date.toordinal()]: 0001-01-01 is day 1. *)
Definition toordinal (d : date) : Z :=
  days_before_year (dyear d) + days_before_month (dyear d) (dmonth d) + dday d.

Definition valid_date (d : date) : bool :=
  (MINYEAR <=? dyear d) && (dyear d <=? MAXYEAR) &&
  (1 <=? dmonth d) && (dmonth d <=? 12) &&
  (1 <=? dday d) && (dday d <=? days_in_month (dyear d) (dmonth d)).

Definition get_date (x : t) : date := mkdate (year x) (month x) (day x).

Definition valid (x : t) : bool :=
  valid_date (get_date x) &&
  (0 <=? hour x) && (hour x <? 24) &&
  (0 <=? minute x) && (minute x <? 60) &&
  (0 <=? second x) && (second x <? 60) &&
  (0 <=? microsecond x) && (microsecond x <? 1000000).

(** Comparison of two dates, and of two naive datetimes: field by field. *)
Fixpoint lex (l1 l2 : list Z) : comparison :=
  match l1, l2 with
  | [], [] => Eq
  | [], _ :: _ => Lt
  | _ :: _, [] => Gt
  | a :: l1', b :: l2' =>
      match a ?= b with
      | Eq => lex l1' l2'
      | c => c
      end
  end.

Definition date_fields (d : date) : list Z := [dyear d; dmonth d; dday d].

Definition fields (x : t) : list Z :=
  [year x; month x; day x; hour x; minute x; second x; microsecond x].

Definition date_compare (a b : date) : comparison :=
  lex (date_fields a) (date_fields b).

Definition compare (a b : t) : comparison := lex (fields a) (fields b).

Definition date_leb (a b : date) : bool :=
  match date_compare a b with Gt => false | _ => true end.

Definition date_eqb (a b : date) : bool :=
  match date_compare a b with Eq => true | _ => false end.

Definition leb (a b : t) : bool :=
  match compare a b with Gt => false | _ => true end.

(** The day before [d]; [None] when it would precede 0001-01-01
    (Python raises [OverflowError]). *)
Definition date_pred (d : date) : option date :=
  if 1 <? dday d then Some (mkdate (dyear d) (dmonth d) (dday d - 1))
  else if 1 <? dmonth d then
    Some (mkdate (dyear d) (dmonth d - 1) (days_in_month (dyear d) (dmonth d - 1)))
  else if MINYEAR <? dyear d then Some (mkdate (dyear d - 1) 12 31)
  else None.

Fixpoint date_back (n : nat) (d : date) : option date :=
  match n with
  | O => Some d
  | S n' => match date_pred d with
            | Some d' => date_back n' d'
            | None => None
            end
  end.

(** [timedelta(days=..., hours=...)] with non-negative arguments. *)
Record timedelta := mkdelta { td_days : Z; td_hours : Z }.

Definition second_of_day (x : t) : Z := hour x * 3600 + minute x * 60 + second x.

(** [x - delta]: the time of day borrows whole days from the date; an
    [OverflowError] when the result would precede year 1. *)
Definition sub (x : t) (delta : timedelta) : except t :=
  let s := second_of_day x - td_hours delta * 3600 in
  let back := td_days delta - s / 86400 in
  let r := s mod 86400 in
  match date_back (Z.to_nat back) (get_date x) with
  | Some d =>
      Return (mk (dyear d) (dmonth d) (dday d)
                 (r / 3600) (r mod 3600 / 60) (r mod 60) (microsecond x))
  | None => Raise OverflowError
  end.

(** [(a - b).total_seconds() >= secs], in whole microseconds.  Python
    compares the correctly rounded quotient by [10**6] with [secs]; the
    rounding cannot change the outcome while [secs] is below [2**33] in
    absolute value (a double there is less than half a microsecond from its
    neighbours), and it can beyond: the statements about the rotation rule
    bound [seconds_per_cycle] accordingly. *)
Definition diff_microseconds (a b : t) : Z :=
  ((toordinal (get_date a) - toordinal (get_date b)) * 86400
   + (second_of_day a - second_of_day b)) * 1000000
  + (microsecond a - microsecond b).

Definition elapsed_at_least (a b : t) (secs : Z) : bool :=
  secs * 1000000 <=? diff_microseconds a b.

(** [x.replace(microsecond=0)] and [x.replace(hour=.., minute=.., second=..)]. *)
Definition replace_microsecond (x : t) (us : Z) : t :=
  mk (year x) (month x) (day x) (hour x) (minute x) (second x) us.

Definition replace_hms (x : t) (h m s : Z) : t :=
  mk (year x) (month x) (day x) h m s (microsecond x).

(** [x.isoformat()]. *)
Definition isoformat (x : t) : string :=
  Str.zpad 4 (year x) +:+ "-" +:+ Str.zpad 2 (month x) +:+ "-" +:+ Str.zpad 2 (day x)
  +:+ "T" +:+ Str.zpad 2 (hour x) +:+ ":" +:+ Str.zpad 2 (minute x) +:+ ":"
  +:+ Str.zpad 2 (second x)
  +:+ (if microsecond x =? 0 then "" else "." +:+ Str.zpad 6 (microsecond x)).

(** [x.strftime('%Y%m%d_%H%M%S')] with the year on four digits, as the C
    library prints every year from 1000 on; what it prints for an earlier
    year depends on the platform, and the statements about segment names
    suppose the year is 1000 or later. *)
Definition strftime_segment (x : t) : string :=
  Str.zpad 4 (year x) +:+ Str.zpad 2 (month x) +:+ Str.zpad 2 (day x) +:+ "_"
  +:+ Str.zpad 2 (hour x) +:+ Str.zpad 2 (minute x) +:+ Str.zpad 2 (second x).

End datetime.

(** ** [datetime.strptime]

    Python turns the format into a regular expression (one group of ordered
    alternatives per directive, the other characters literally, matched
    without regard to case), matches it at the start of the string, rejects
    unconverted trailing data, and builds the datetime, which validates its
    fields.  Every failure is a [ValueError], here [None]. *)

Module strptime.

Inductive directive := dY | dm | dd | dH | dM | dS.

Inductive item :=
| Dir (d : directive)
| Lit (c : ascii).

Definition directive_of (c : ascii) : option directive :=
  if Ascii.eqb c "Y" then Some dY
  else if Ascii.eqb c "m" then Some dm
  else if Ascii.eqb c "d" then Some dd
  else if Ascii.eqb c "H" then Some dH
  else if Ascii.eqb c "M" then Some dM
  else if Ascii.eqb c "S" then Some dS
  else None.

Fixpoint items (fmt : string) : list item :=
  match fmt with
  | EmptyString => []
  | String c rest =>
      match rest with
      | String c' rest' =>
          if Ascii.eqb c "%" then
            match directive_of c' with
            | Some d => Dir d :: items rest'
            | None => Lit c :: Lit c' :: items rest'
            end
          else Lit c :: items rest
      | EmptyString => [Lit c]
      end
  end.

(** A character class of the regular expression. *)
Definition cls := ascii -> bool.

Definition ch (c : ascii) : cls := Ascii.eqb c.

Definition rng (lo hi : ascii) : cls := fun c =>
  ((N_of_ascii lo <=? N_of_ascii c) && (N_of_ascii c <=? N_of_ascii hi))%N.

Definition digit : cls := Str.is_digit.

(** The alternatives of each directive, in the order the regular
    expression tries them. *)
Definition alternatives (d : directive) : list (list cls) :=
  match d with
  | dY => [[digit; digit; digit; digit]]
  | dm => [[ch "1"; rng "0" "2"]; [ch "0"; rng "1" "9"]; [rng "1" "9"]]
  | dd => [[ch "3"; rng "0" "1"]; [rng "1" "2"; digit]; [ch "0"; rng "1" "9"];
           [rng "1" "9"]; [ch " "; rng "1" "9"]]
  | dH => [[ch "2"; rng "0" "3"]; [rng "0" "1"; digit]; [digit]]
  | dM => [[rng "0" "5"; digit]; [digit]]
  | dS => [[ch "6"; rng "0" "1"]; [rng "0" "5"; digit]; [digit]]
  end.

(** Match one alternative at the start of [s]; the value is [int] of the
    matched text (a leading blank counts for nothing). *)
Fixpoint lexeme (cs : list cls) (acc : Z) (s : string) : option (Z * string) :=
  match cs with
  | [] => Some (acc, s)
  | k :: cs' =>
      match s with
      | String c s' =>
          if k c then
            lexeme cs' (if Str.is_digit c then acc * 10 + Str.digit_val c else acc) s'
          else None
      | EmptyString => None
      end
  end.

Fixpoint first_success {A B} (f : A -> option B) (l : list A) : option B :=
  match l with
  | [] => None
  | a :: l' => match f a with
               | Some b => Some b
               | None => first_success f l'
               end
  end.

Definition found := list (directive * Z).

(** A directive followed by the rest of the pattern [k]: the first of its
    alternatives after which the rest matches (the expression backtracks
    into the later alternatives when it does not). *)
Definition dir_step (d : directive) (k : string -> option (found * string))
    (s : string) : option (found * string) :=
  first_success
    (fun alt =>
       match lexeme alt 0 s with
       | Some (v, rest) =>
           match k rest with
           | Some (fs, r) => Some ((d, v) :: fs, r)
           | None => None
           end
       | None => None
       end)
    (alternatives d).

(** A literal character, matched without regard to case. *)
Definition lit_step (c : ascii) (k : string -> option (found * string))
    (s : string) : option (found * string) :=
  match s with
  | String x s' => if Ascii.eqb (Str.lower c) (Str.lower x) then k s' else None
  | EmptyString => None
  end.

(** The match of the whole pattern at the start of a string: what the
    directives found, and the text left over. *)
Fixpoint regex_match (fmt : list item) : string -> option (found * string) :=
  match fmt with
  | [] => fun s => Some ([], s)
  | Lit c :: fmt' => lit_step c (regex_match fmt')
  | Dir d :: fmt' => dir_step d (regex_match fmt')
  end.

(** The values a directive takes in a valid datetime. *)
Definition fits (d : directive) (v : Z) : Prop :=
  match d with
  | dY => 0 <= v < 10000
  | dm => 1 <= v <= 12
  | dd => 1 <= v <= 31
  | dH => 0 <= v <= 23
  | dM | dS => 0 <= v <= 59
  end.

Definition directive_eqb (a b : directive) : bool :=
  match a, b with
  | dY, dY | dm, dm | dd, dd | dH, dH | dM, dM | dS, dS => true
  | _, _ => false
  end.

Fixpoint get (d : directive) (fs : found) (default : Z) : Z :=
  match fs with
  | [] => default
  | (d', v) :: fs' => if directive_eqb d d' then v else get d fs' default
  end.

(** [datetime.strptime(data_string, format)]. *)
Definition strptime (data_string format : string) : option datetime.t :=
  match regex_match (items format) data_string with
  | Some (fs, EmptyString) =>
      let x := datetime.mk (get dY fs 1900) (get dm fs 1) (get dd fs 1)
                           (get dH fs 0) (get dM fs 0) (get dS fs 0) 0 in
      if datetime.valid x then Some x else None
  | _ => None
  end.

End strptime.

(** ** JSON values and files *)

#[warnings="-register-all"]
Inductive json :=
| JNull
| JBool (b : bool)
| JInt (n : Z)
| JFloat (f : float)
| JString (s : string)
| JArray (l : list json)
| JObject (kv : list (string * json)).

(** [d[k]] on a dict given by its items; [None] is a [KeyError]. *)
Fixpoint dict_get (k : string) (kv : list (string * json)) : option json :=
  match kv with
  | [] => None
  | (k', v) :: kv' => if String.eqb k k' then Some v else dict_get k kv'
  end.

(** The value a dict holds under [k]; [None] when there is none, or when
    [v] is no dict. *)
Definition field (k : string) (v : json) : option json :=
  match v with
  | JObject kv => dict_get k kv
  | _ => None
  end.

Fixpoint chars (s : string) : list json :=
  match s with
  | EmptyString => []
  | String c s' => JString (String c EmptyString) :: chars s'
  end.

(** The elements [list.extend] takes from a loaded value: those of a list,
    the keys of a dict, the characters of a string; [None] (a [TypeError])
    for a value that is not iterable. *)
Definition iterate (v : json) : option (list json) :=
  match v with
  | JArray l => Some l
  | JObject kv => Some (map (fun p => JString (fst p)) kv)
  | JString s => Some (chars s)
  | _ => None
  end.

Inductive contents :=
| Dumped (v : json)                 (* the complete [json.dump] of [v] *)
| Partial (v : json) (chunks : nat) (* only the first chunks of that dump *)
| Garbage                           (* other text [json.load] rejects *)
| Unreadable.                       (* a file [open] fails on *)

(** [open] the file and [json.load] it; [None] when either raises. *)
Definition json_load (c : contents) : option json :=
  match c with
  | Dumped v => Some v
  | _ => None
  end.

Record path := mkpath { dname : string; bname : string }.

Abbreviation directory := (gmap string contents).
Abbreviation filesystem := (gmap string directory).

(** The directory a path lies in: [dirname(path) or "."]. *)
Definition dir_of (p : path) : string :=
  if String.eqb (dname p) "" then "." else dname p.

Definition fs_lookup (fs : filesystem) (p : path) : option contents :=
  match fs !! dir_of p with
  | Some dir => dir !! bname p
  | None => None
  end.

(** [os.listdir]: the names in the directory, in the order the system lists them. *)
Definition listdir (dir : directory) : list string := (map_to_list dir).*1.

(** ** [web/server.py] *)

Module server.

Definition DATA_FOLDER : string := "data".

(** What [load_data] prints. *)
Inductive message :=
| WarnNoFolder
| SkipUnrecognized (e : exn) (filename : string)
| ErrorReading (filename : string)
| AddingEntry (entry_ts : datetime.t)
| InvalidTimestamp (entry : json).

(** Lines 38-39: the date in the file name. *)
Definition file_date (filename : string) : except datetime.date :=
  match Str.index (Str.split "_" filename) 1 with
  | None => Raise IndexError
  | Some date_part =>
      match strptime.strptime date_part "%Y%m%d" with
      | Some x => Return (datetime.get_date x)
      | None => Raise ValueError
      end
  end.

(** Lines 34-47, for one file name: what is printed, and whether the name
    is appended to [relevant_files]. *)
Definition candidate (search_start_date search_end_date : datetime.date)
    (filename : string) : list message * bool :=
  if Str.startswith filename "sensor_" && Str.endswith filename ".json" then
    match file_date filename with
    | Return d =>
        ([], datetime.date_leb search_start_date d
             && datetime.date_leb d search_end_date)
    | Raise e => ([SkipUnrecognized e filename], false)
    end
  else ([], false).

Definition relevant_files (search_start_date search_end_date : datetime.date)
    (all_files : list string) : list string :=
  List.filter (fun f => snd (candidate search_start_date search_end_date f))
              (Str.sort (fun f => f) all_files).

(** Lines 51-57, for one file: what is printed, and what
    [combined_data.extend] adds. *)
Definition load_file (dir : directory) (filename : string)
  : list message * list json :=
  match dir !! filename with
  | Some c =>
      match json_load c with
      | Some v =>
          match iterate v with
          | Some day_data => ([], day_data)
          | None => ([ErrorReading filename], [])
          end
      | None => ([ErrorReading filename], [])
      end
  | None => ([ErrorReading filename], [])
  end.

(** Line 64: [datetime.strptime(entry['ts'], "%Y-%m-%dT%H:%M:%SZ")]. *)
Definition entry_ts (entry : json) : except datetime.t :=
  match entry with
  | JObject kv =>
      match dict_get "ts" kv with
      | Some (JString ts) =>
          match strptime.strptime ts "%Y-%m-%dT%H:%M:%SZ" with
          | Some x => Return x
          | None => Raise ValueError
          end
      | Some _ => Raise TypeError
      | None => Raise KeyError
      end
  | _ => Raise TypeError
  end.

(** Lines 60-71: only a [ValueError] is caught. *)
Fixpoint filter_entries (start_dt end_dt : datetime.t) (combined_data : list json)
  : list message * except (list json) :=
  match combined_data with
  | [] => ([], Return [])
  | entry :: rest =>
      match entry_ts entry with
      | Return ts =>
          let (log, r) := filter_entries start_dt end_dt rest in
          if datetime.leb start_dt ts && datetime.leb ts end_dt then
            (AddingEntry ts :: log, cons entry <$> r)
          else (log, r)
      | Raise ValueError =>
          let (log, r) := filter_entries start_dt end_dt rest in
          (InvalidTimestamp entry :: log, r)
      | Raise e => ([], Raise e)
      end
  end.

(** Line 74: the sort key [x['ts']]; every entry that passed the filter
    has a string there. *)
Definition ts_key (x : json) : string :=
  match x with
  | JObject kv => match dict_get "ts" kv with
                  | Some (JString ts) => ts
                  | _ => EmptyString
                  end
  | _ => EmptyString
  end.

(** Lines 50-57: everything the relevant files hold, in the order of
    their names. *)
Definition combined_data (dir : directory) (relevant : list string) : list json :=
  flat_map (fun f => snd (load_file dir f)) relevant.

Definition load_data (fs : filesystem) (start_dt end_dt : datetime.t)
  : list message * except (list json) :=
  match fs !! DATA_FOLDER with
  | None => ([WarnNoFolder], Return [])
  | Some dir =>
      let all_files := listdir dir in
      match datetime.sub start_dt (datetime.mkdelta 1 0) with
      | Raise e => ([], Raise e)
      | Return before =>
          let search_start_date := datetime.get_date before in
          let search_end_date := datetime.get_date end_dt in
          let log2 :=
            flat_map (fun f => fst (candidate search_start_date search_end_date f))
                     (Str.sort (fun f => f) all_files) in
          let relevant := relevant_files search_start_date search_end_date all_files in
          let log3 := flat_map (fun f => fst (load_file dir f)) relevant in
          let (log4, filtered_data) :=
            filter_entries start_dt end_dt (combined_data dir relevant) in
          (log2 ++ log3 ++ log4, Str.sort ts_key <$> filtered_data)
      end
  end.

(** *** Notions the properties of [load_data] are stated with *)

(** The entry has a time stamp that parses, within [start_dt, end_dt]. *)
Definition in_range (start_dt end_dt : datetime.t) (entry : json) : bool :=
  match entry_ts entry with
  | Return ts => datetime.leb start_dt ts && datetime.leb ts end_dt
  | Raise _ => false
  end.

(** [a] is not later than [b], by their parsed time stamps. *)
Definition not_later (a b : json) : Prop :=
  match entry_ts a, entry_ts b with
  | Return ta, Return tb => datetime.leb ta tb = true
  | _, _ => False
  end.

Definition chronological (data : list json) : Prop := StronglySorted not_later data.

(** The time stamp has the zero-padded form the collector writes:
    it is the [isoformat] of the instant it parses to, followed by "Z". *)
Definition written_form (ts : string) : bool :=
  match strptime.strptime ts "%Y-%m-%dT%H:%M:%SZ" with
  | Some x => String.eqb (datetime.isoformat x +:+ "Z") ts
  | None => false
  end.

(** The name is that of a segment started on day [d]. *)
Definition segment_of_day (filename : string) (d : datetime.date) : Prop :=
  Str.startswith filename "sensor_" = true /\ Str.endswith filename ".json" = true
  /\ file_date filename = Return d.

(** What a readable file adds to [combined_data]. *)
Definition readable (dir : directory) (filename : string) (day_data : list json) : Prop :=
  exists c v, dir !! filename = Some c /\ json_load c = Some v /\ iterate v = Some day_data.

(** The records a file of the folder gives: the elements of the list it
    holds; none when it is absent or cannot be read. *)
Definition records (dir : directory) (filename : string) : list json :=
  match dir !! filename with
  | Some (Dumped v) => default [] (iterate v)
  | _ => []
  end.

(** A history as the collector writes it: every record of every segment
    file of the data folder that can be read has a time stamp in the
    written form. *)
Definition written_history (fs : filesystem) : Prop :=
  forall dir f rows x,
    fs !! DATA_FOLDER = Some dir -> Str.startswith f "sensor_" = true ->
    readable dir f rows -> In x rows -> written_form (ts_key x) = true.

(** The query string of a request to [/api/get_readings]. *)
Record request := mkrequest { arg_range : option string; arg_date : option string }.

Inductive response :=
| OK (body : list json)
| InternalServerError (e : exn).

(** The values of [range] lines 98-108 test for. *)
Definition RANGES : list string := ["6h"; "12h"; "24h"; "3d"; "7d"; "1m"].

(** Lines 98-111. *)
Definition window (time_range : string) : datetime.timedelta :=
  if String.eqb time_range "6h" then datetime.mkdelta 0 6
  else if String.eqb time_range "12h" then datetime.mkdelta 0 12
  else if String.eqb time_range "24h" then datetime.mkdelta 0 24
  else if String.eqb time_range "3d" then datetime.mkdelta 3 0
  else if String.eqb time_range "7d" then datetime.mkdelta 7 0
  else if String.eqb time_range "1m" then datetime.mkdelta 30 0
  else datetime.mkdelta 0 24.

(** Lines 88-95; [today] is [datetime.today()], [utcnow] is [datetime.utcnow()]. *)
Definition end_time (today utcnow : datetime.t) (ref_date_str : option string)
  : except datetime.t :=
  match ref_date_str with
  | Some (String c s) =>
      match strptime.strptime (String c s) "%Y-%m-%d" with
      | Some e =>
          if datetime.date_eqb (datetime.get_date e) (datetime.get_date today)
          then Return utcnow
          else Return (datetime.replace_hms e 23 59 59)
      | None => Raise ValueError
      end
  | _ => Return utcnow
  end.

Definition get_readings (fs : filesystem) (today utcnow : datetime.t) (req : request)
  : list message * response :=
  let time_range := default "24h" (arg_range req) in
  match end_time today utcnow (arg_date req) with
  | Raise e => ([], InternalServerError e)
  | Return end_dt =>
      match datetime.sub end_dt (window time_range) with
      | Raise e => ([], InternalServerError e)
      | Return start_dt =>
          match load_data fs start_dt end_dt with
          | (log, Return data) => (log, OK data)
          | (log, Raise e) => (log, InternalServerError e)
          end
      end
  end.

End server.

(** ** [collector/collect-dirigera.py] *)

Module collector.

(** A sensor object, seen through the four expressions the collector
    evaluates on it; each either yields its value or raises an
    [Exception]. *)
Record Sensor := mkSensor {
  custom_name : except (option string);  (* getattr(s.attributes, "custom_name", None) *)
  current_temperature : except float;    (* float(sensor.attributes.current_temperature) *)
  current_r_h : except float;            (* float(sensor.attributes.current_r_h) *)
  battery_percentage : except float      (* float(sensor.attributes.battery_percentage) *)
}.

(** What the collector logs and asks of its collaborators, in order; an
    exception that no handler of [main_loop] catches ends the trace with
    its traceback. *)
Inductive event :=
| LogException (msg : string)
| LogWarning (msg : string)
| LogInfo (msg : string)
| PlotDay (json_path png_path : path)  (* the call [plot_day(json_path, png_path)] *)
| Sleep (seconds : Z)
| Traceback (e : exn).

Fixpoint first_named (name : string) (sensors : list Sensor) : option Sensor :=
  match sensors with
  | [] => None
  | s :: rest =>
      match custom_name s with
      | Return (Some n) => if String.eqb n name then Some s else first_named name rest
      | _ => first_named name rest
      end
  end.

(** [hub] is the outcome of [hub.get_environment_sensors()]. *)
Definition find_sensor (hub : except (list Sensor)) (name : string)
  : list event * option Sensor :=
  match hub with
  | Raise _ => ([LogException "Failed to fetch environment sensors from hub"], None)
  | Return sensors => ([], first_named name sensors)
  end.

(** A [try: x = float(...) except Exception: x = None]. *)
Definition float_or_None (r : except float) : json :=
  match r with
  | Return f => JFloat f
  | Raise _ => JNull
  end.

Definition read_sensor_values (utcnow : datetime.t) (sensor : Sensor) : json :=
  let now := datetime.isoformat (datetime.replace_microsecond utcnow 0) +:+ "Z" in
  let temp := float_or_None (current_temperature sensor) in
  let rh := float_or_None (current_r_h sensor) in
  let pwr := float_or_None (battery_percentage sensor) in
  JObject [("ts", JString now); ("temperature_c", temp); ("humidity_rh", rh);
           ("battery_percentage", pwr)].

(** *** The file system calls of [atomic_write_json] *)

Definition makedirs (d : string) (fs : filesystem) : filesystem :=
  match fs !! d with
  | Some _ => fs
  | None => <[d := ∅]> fs
  end.

Definition write_file (d name : string) (c : contents) (fs : filesystem) : filesystem :=
  match fs !! d with
  | Some dir => <[d := <[name := c]> dir]> fs
  | None => fs
  end.

Definition remove (d name : string) (fs : filesystem) : filesystem :=
  match fs !! d with
  | Some dir => <[d := delete name dir]> fs
  | None => fs
  end.

Definition exists_in (d name : string) (fs : filesystem) : bool :=
  match fs !! d with
  | Some dir => bool_decide (is_Some (dir !! name))
  | None => false
  end.

(** [shutil.move] inside one directory: an [os.rename], which on POSIX
    replaces the destination in one step. *)
Definition move (d src dst : string) (fs : filesystem) : filesystem :=
  match fs !! d with
  | Some dir =>
      match dir !! src with
      | Some c => <[d := <[dst := c]> (delete src dir)]> fs
      | None => fs
      end
  | None => fs
  end.

Definition TMP_PREFIX : string := ".tmp_json_".

(** [tempfile.mkstemp(dir=d, prefix=".tmp_json_")]: the first of the random
    names that does not exist yet in [d]. *)
Definition mkstemp (d : string) (names : list string) (fs : filesystem) : except string :=
  match fs !! d with
  | None => Raise FileNotFoundError
  | Some dir =>
      match find (fun n => bool_decide (dir !! (TMP_PREFIX +:+ n) = None)) names with
      | Some n => Return (TMP_PREFIX +:+ n)
      | None => Raise FileExistsError
      end
  end.

(** [atomic_write_json(path, data)].  [names] are the random names
    [mkstemp] draws and [chunks] the number of writes [json.dump] makes.
    The result lists the state of the file system after each step, in
    order, and tells whether the call raised: a crash between two steps
    leaves the state the list holds at that point. *)
Definition atomic_write_json (names : list string) (chunks : nat)
    (p : path) (data : json) (fs : filesystem)
  : list filesystem * except unit :=
  let d := dir_of p in
  let fs1 := if String.eqb (dname p) "" then fs else makedirs (dname p) fs in
  match mkstemp d names fs1 with
  | Raise e => ([fs1], Raise e)
  | Return tmp =>
      let created := write_file d tmp (Partial data 0) fs1 in
      let dumping := map (fun k => write_file d tmp (Partial data k) fs1) (seq 1 chunks) in
      let closed := write_file d tmp (Dumped data) fs1 in
      let moved := move d tmp (bname p) closed in
      let final := if exists_in d tmp moved then remove d tmp moved else moved in
      ([fs1; created] ++ dumping ++ [closed; moved; final], Return tt)
  end.

(** Lines 94-102: the list to extend, and what is logged. *)
Definition load_payload (fs : filesystem) (p : path) : list event * json :=
  match fs_lookup fs p with
  | Some c =>
      match json_load c with
      | Some payload => ([], payload)
      | None => ([LogException "Failed to read existing JSON, starting fresh"], JArray [])
      end
  | None => ([], JArray [])
  end.

(** [payload.append(reading)]: an [AttributeError] on anything but a list. *)
Definition append (payload reading : json) : except json :=
  match payload with
  | JArray l => Return (JArray (l ++ [reading]))
  | _ => Raise AttributeError
  end.

(** [append_reading(path, reading)]: what is logged, the states of the
    file system after each step, and whether the call raised. *)
Definition append_reading (names : list string) (chunks : nat)
    (p : path) (reading : json) (fs : filesystem)
  : list event * list filesystem * except unit :=
  let (log, payload) := load_payload fs p in
  match append payload reading with
  | Raise e => (log, [], Raise e)
  | Return payload' =>
      let (steps, r) := atomic_write_json names chunks p payload' fs in
      (log, steps, r)
  end.

(** [q] is neither the file at [p] nor a temporary file in its directory. *)
Definition elsewhere (p q : path) : Prop :=
  dir_of q <> dir_of p
  \/ (bname q <> bname p /\ Str.startswith (bname q) TMP_PREFIX = false).

(** The file system once the steps are done. *)
Definition after (fs : filesystem) (steps : list filesystem) : filesystem :=
  List.last steps fs.

(** *** [plot_day] *)

(** The truth value of a loaded JSON value ([if not data]). *)
Definition truthy (v : json) : bool :=
  match v with
  | JNull => false
  | JBool b => b
  | JInt n => negb (n =? 0)
  | JFloat f => negb (PrimFloat.eqb f 0)
  | JString s => negb (String.eqb s "")
  | JArray l => match l with [] => false | _ :: _ => true end
  | JObject kv => match kv with [] => false | _ :: _ => true end
  end.

(** A row on which [row["ts"].replace("Z", "")] succeeds: a dict whose
    "ts" is a string. *)
Definition has_ts (row : json) : bool :=
  match field "ts" row with
  | Some (JString _) => true
  | _ => false
  end.

(** What happens once the rows are read (lines 125-180): no row has a time
    stamp that [datetime.fromisoformat] accepts; or [matplotlib] draws,
    with the messages logged, the directory of the plot as it is left
    ([None] when it is not touched) and whether an exception came out. *)
Inductive drawing :=
| NoTimes
| Drew (infos : list string) (plots : option directory) (r : except unit).

(** [plot_day(json_path, png_path)]: what is logged, the file system
    afterwards, and whether the call raised.  Nothing in it catches the
    [TypeError] of [for row in data] on a number or [true], nor what
    [matplotlib] raises. *)
Definition plot_day (d : drawing) (json_path png_path : path) (fs : filesystem)
  : list event * filesystem * except unit :=
  match fs_lookup fs json_path with
  | None => ([LogWarning "No data file to plot: %s"], fs, Return tt)
  | Some c =>
      match json_load c with
      | None => ([LogException "Failed to load JSON for plotting"], fs, Return tt)
      | Some data =>
          if negb (truthy data) then
            ([LogInfo "Data file empty, skipping plot: %s"], fs, Return tt)
          else
            match iterate data with
            | None => ([], fs, Raise TypeError)
            | Some rows =>
                match (if existsb has_ts rows then d else NoTimes) with
                | NoTimes =>
                    ([LogInfo "No valid timestamps in data, skipping plot"], fs, Return tt)
                | Drew infos plots r =>
                    (map LogInfo infos,
                     match plots with
                     | Some dir => <[dir_of png_path := dir]> fs
                     | None => fs
                     end, r)
                end
            end
      end
  end.

(** *** The sampling loop *)

Record config := mkconfig {
  sensor_name : string;
  interval_seconds : Z;
  seconds_per_cycle : Z;
  store_plots : bool
}.

(** The variables of the loop. *)
Record state := mkstate {
  cycle_start : datetime.t;
  json_path : path;
  sensor : option Sensor
}.

(** What the outside world answers during one iteration of the loop. *)
Record env := mkenv {
  now : datetime.t;                   (* utcnow() at the top of the iteration *)
  hub_resolve : except (list Sensor); (* the hub, when the sensor is looked up *)
  hub_refresh : except (list Sensor); (* the hub, when the sensor is re-queried *)
  read_clock : datetime.t;            (* utcnow() inside read_sensor_values *)
  tmp_names : list string;            (* the names mkstemp draws *)
  dump_chunks : nat;                  (* the writes json.dump makes *)
  plotting : drawing;                 (* matplotlib, if plot_day gets to it *)
  rotate_clock : datetime.t           (* utcnow() when a new cycle starts *)
}.

(** The naming scheme: [f"data/sensor_{cycle_start.strftime('%Y%m%d_%H%M%S')}.json"]. *)
Definition segment_path (cycle_start : datetime.t) : path :=
  mkpath "data" ("sensor_" +:+ datetime.strftime_segment cycle_start +:+ ".json").

Definition plot_path (cycle_start : datetime.t) (suffix : string) : path :=
  mkpath "plots" ("sensor_" +:+ datetime.strftime_segment cycle_start +:+ suffix +:+ ".png").

(** Line 220. *)
Definition should_rotate (c : config) (now cycle_start : datetime.t) : bool :=
  datetime.elapsed_at_least now cycle_start (seconds_per_cycle c).

(** Lines 210-217. *)
Definition sample (c : config) (e : env) (s : Sensor) (st : state) (fs : filesystem)
  : list event * option Sensor * filesystem :=
  let (log1, found) := find_sensor (hub_refresh e) (sensor_name c) in
  let s' := match found with Some x => x | None => s end in
  let reading := read_sensor_values (read_clock e) s' in
  match append_reading (tmp_names e) (dump_chunks e) (json_path st) reading fs with
  | (log2, steps, Return _) =>
      (log1 ++ log2 ++ [LogInfo "Appended reading: %s"], Some s', after fs steps)
  | (log2, steps, Raise _) =>
      (log1 ++ log2 ++ [LogException "Failed to read/append sensor data"],
       Some s', after fs steps)
  end.

(** Lines 223-224: the closed segment is plotted when plots are stored. *)
Definition hand_over (c : config) (e : env) (st : state) (fs : filesystem)
  : list event * filesystem * except unit :=
  if store_plots c then
    let png_path := plot_path (cycle_start st) "" in
    let '(log, fs', r) := plot_day (plotting e) (json_path st) png_path fs in
    (PlotDay (json_path st) png_path :: log, fs', r)
  else ([], fs, Return tt).

(** Lines 220-228, outside every [try]: an exception of [plot_day] leaves
    the loop before the cycle is reset. *)
Definition rotate (c : config) (e : env) (st : state) (s : option Sensor) (fs : filesystem)
  : list event * except state * filesystem :=
  if should_rotate c (now e) (cycle_start st) then
    let '(plot, fs', r) := hand_over c e st fs in
    match r with
    | Return _ =>
        let cycle_start' := rotate_clock e in
        ([LogInfo "Cycle complete (>= %s sec). Plotting to %s"] ++ plot
           ++ [LogInfo "Starting new cycle: %s"],
         Return (mkstate cycle_start' (segment_path cycle_start') s), fs')
    | Raise x =>
        ([LogInfo "Cycle complete (>= %s sec). Plotting to %s"] ++ plot, Raise x, fs')
    end
  else ([], Return (mkstate (cycle_start st) (json_path st) s), fs).

(** [time.sleep(secs)]: a [ValueError] for a negative length.  Lengths of
    [2**32] seconds and more, which a platform may refuse, are outside the
    model. *)
Definition sleep (secs : Z) : list event :=
  if secs <? 0 then [Traceback ValueError] else [Sleep secs].

(** Lines 203-204: the sensor the iteration works with. *)
Definition resolve (c : config) (e : env) (st : state) : list event * option Sensor :=
  match sensor st with
  | Some s => ([], Some s)
  | None => find_sensor (hub_resolve e) (sensor_name c)
  end.

(** One iteration of [while True] (lines 202-230): the trace, the
    variables and the file system when it ends, or when an exception
    leaves it. *)
Definition tick (c : config) (e : env) (st : state) (fs : filesystem)
  : list event * state * filesystem :=
  let (log0, resolved) := resolve c e st in
  match resolved with
  | None =>
      (log0 ++ [LogWarning "Sensor '%s' not found, retrying in %s seconds"]
         ++ sleep (interval_seconds c),
       mkstate (cycle_start st) (json_path st) None, fs)
  | Some s =>
      let '(log1, s', fs1) := sample c e s st fs in
      match rotate c e st s' fs1 with
      | (log2, Return st', fs2) =>
          (log0 ++ log1 ++ log2 ++ sleep (interval_seconds c), st', fs2)
      | (log2, Raise x, fs2) =>
          (log0 ++ log1 ++ log2 ++ [Traceback x],
           mkstate (cycle_start st) (json_path st) s', fs2)
      end
  end.


(** The trace ends with a traceback: the loop is over. *)
Definition ended (log : list event) : bool :=
  match List.last log (Sleep 0) with
  | Traceback _ => true
  | _ => false
  end.

(** The loop through the iterations [es], one per [env], or up to the one
    an exception leaves. *)
Fixpoint iterate_loop (c : config) (es : list env) (st : state) (fs : filesystem)
  : list event * state * filesystem :=
  match es with
  | [] => ([], st, fs)
  | e :: es' =>
      let '(log, st', fs') := tick c e st fs in
      if ended log then (log, st', fs')
      else
        let '(log', st'', fs'') := iterate_loop c es' st' fs' in
        (log ++ log', st'', fs'')
  end.

End collector.

(** ** Concrete stores, requests and iterations *)

Module Examples.

Definition reading (ts : string) (temp rh : json) : json :=
  JObject [("ts", JString ts); ("temperature_c", temp); ("humidity_rh", rh);
           ("battery_percentage", JNull)].

Definition at_time (h m s : Z) : datetime.t := datetime.mk 2025 11 20 h m s 0.

(** Three readings in the segment started at 09:59:59 on 2025-11-20. *)
Definition r1 : json := reading "2025-11-20T10:00:00Z" (JFloat 21.0) (JFloat 45.0).
Definition r2 : json := reading "2025-11-20T10:02:00Z" (JFloat 21.5) JNull.
Definition r3 : json := reading "2025-11-20T10:04:00Z" JNull (JFloat 44.5).

Definition scenario_store : filesystem :=
  {[ "data" := {[ "sensor_20251120_095959.json" := Dumped (JArray [r1; r2; r3]) ]} ]}.

(** A segment whose second time stamp has a one-digit hour. *)
Definition late : json := reading "2025-11-20T10:00:00Z" (JFloat 21.0) JNull.
Definition early : json := reading "2025-11-20T9:00:00Z" (JFloat 20.5) JNull.

Definition unpadded_store : filesystem :=
  {[ "data" := {[ "sensor_20251120_080000.json" := Dumped (JArray [late; early]) ]} ]}.

(** A segment started late on the 19th that holds a reading of the 20th,
    and a second file that does not parse. *)
Definition overnight : json := reading "2025-11-20T00:30:00Z" (JFloat 19.5) (JFloat 50.0).

Definition two_day_store : filesystem :=
  {[ "data" := {[ "sensor_20251119_233000.json" := Dumped (JArray [overnight]);
                  "sensor_20251120_095959.json" := Garbage ]} ]}.

(** A segment with an entry that has no "ts", and one whose "ts" is a number. *)
Definition no_ts : json := JObject [("temperature_c", JFloat 21.0)].
Definition numeric_ts : json := JObject [("ts", JInt 1763632800)].

Definition missing_ts_store : filesystem :=
  {[ "data" := {[ "sensor_20251120_095959.json" := Dumped (JArray [r1; no_ts]) ]} ]}.

Definition numeric_ts_store : filesystem :=
  {[ "data" := {[ "sensor_20251120_095959.json" := Dumped (JArray [r1; numeric_ts]) ]} ]}.

(** A segment with a record whose time stamp is no time stamp. *)
Definition garbled : json := reading "yesterday" (JFloat 21.0) JNull.

Definition garbled_store : filesystem :=
  {[ "data" := {[ "sensor_20251120_095959.json" := Dumped (JArray [r1; garbled]) ]} ]}.

(** The segment of the three readings, and a fourth reading for it. *)
Definition segment : path := collector.segment_path (at_time 9 59 59).
Definition r4 : json := reading "2025-11-20T10:06:00Z" (JFloat 21.0) (JFloat 44.0).

(** A sensor that reports a temperature of zero and a humidity, and has
    no battery level; one on which every access fails. *)
Definition zero_sensor : collector.Sensor :=
  collector.mkSensor (Return (Some "Schlafzimmersensor")) (Return 0%float)
    (Return 45.0%float) (Raise AttributeError).

Definition dead_sensor : collector.Sensor :=
  collector.mkSensor (Raise AttributeError) (Raise AttributeError)
    (Raise AttributeError) (Raise AttributeError).

(** An hourly cycle started at 09:00:00, plots not stored (the default);
    an iteration at 10:00:05 whose sample takes a second, with the sensor
    at hand; and one at the same instant while the hub lists no sensor. *)
Definition hourly : collector.config :=
  collector.mkconfig "Schlafzimmersensor" 600 3600 false.

(** The same cycle with plots stored. *)
Definition plotting_hourly : collector.config :=
  collector.mkconfig "Schlafzimmersensor" 600 3600 true.

Definition running : collector.state :=
  collector.mkstate (at_time 9 0 0) (collector.segment_path (at_time 9 0 0))
    (Some zero_sensor).

Definition searching : collector.state :=
  collector.mkstate (at_time 9 0 0) (collector.segment_path (at_time 9 0 0)) None.

Definition after_the_hour : collector.env :=
  collector.mkenv (at_time 10 0 5) (Return []) (Return [zero_sensor])
    (at_time 10 0 5) ["k3x9qv_a"] 3 collector.NoTimes (at_time 10 0 6).

(** An iteration during which the hub cannot be queried. *)
Definition hub_down : collector.env :=
  collector.mkenv (at_time 10 10 0) (Raise OtherError) (Raise OtherError)
    (at_time 10 10 0) ["k3x9qv_a"] 3 collector.NoTimes (at_time 10 10 1).

(** The segment of the 09:00:00 cycle holding a JSON object, not a list. *)
Definition object_store : filesystem :=
  {[ "data" := {[ "sensor_20251120_090000.json"
                  := Dumped (JObject [("ts", JString "2025-11-20T09:00:00Z")]) ]} ]}.

(** The same segment holding a number. *)
Definition number_store : filesystem :=
  {[ "data" := {[ "sensor_20251120_090000.json" := Dumped (JInt 5) ]} ]}.

End Examples.

(** * Properties *)

(** * Strings *)

Lemma string_app_cons c s t : String c s +:+ t = String c (s +:+ t).
Proof. reflexivity. Qed.

Lemma string_app_nil_l t : "" +:+ t = t.
Proof. reflexivity. Qed.

Lemma string_app_assoc s t u : (s +:+ t) +:+ u = s +:+ (t +:+ u).
Proof. induction s as [|c s IH]; [reflexivity|]. rewrite !string_app_cons. by rewrite IH. Qed.

Lemma string_app_nil_r s : s +:+ "" = s.
Proof. induction s as [|c s IH]; [reflexivity|]. by rewrite string_app_cons, IH. Qed.

Lemma string_length_app s t : String.length (s +:+ t) = (String.length s + String.length t)%nat.
Proof. induction s as [|c s IH]; [reflexivity|]. rewrite string_app_cons. simpl. by rewrite IH. Qed.

(** Ten cases on a decimal digit. *)
Ltac digit_cases k :=
  let H := fresh in
  assert (H : k = 0 \/ k = 1 \/ k = 2 \/ k = 3 \/ k = 4 \/ k = 5 \/ k = 6
              \/ k = 7 \/ k = 8 \/ k = 9) by lia;
  repeat (destruct H as [H | H]); first [subst k | rewrite H].

Lemma is_digit_digit_char k : 0 <= k < 10 -> Str.is_digit (Str.digit_char k) = true.
Proof. intros Hk. digit_cases k; reflexivity. Qed.

Lemma digit_val_digit_char k : 0 <= k < 10 -> Str.digit_val (Str.digit_char k) = k.
Proof. intros Hk. digit_cases k; reflexivity. Qed.

Lemma compare_digit_char i j :
  0 <= i < 10 -> 0 <= j < 10 ->
  Ascii.compare (Str.digit_char i) (Str.digit_char j) = (i ?= j).
Proof. intros Hi Hj. digit_cases i; digit_cases j; reflexivity. Qed.

Lemma length_zpad w n : String.length (Str.zpad w n) = w.
Proof.
  revert n. induction w as [|w IH]; intros n; [reflexivity|].
  simpl. rewrite string_length_app, IH. simpl. lia.
Qed.

Lemma zpad_S w n s :
  Str.zpad (S w) n +:+ s = Str.zpad w (n / 10) +:+ String (Str.digit_char (n mod 10)) s.
Proof. simpl. by rewrite string_app_assoc. Qed.

(** On zero-padded numbers of one width, the order of the strings is the
    order of the numbers. *)
Lemma compare_zpad w : forall a b s t,
  0 <= a < 10 ^ Z.of_nat w -> 0 <= b < 10 ^ Z.of_nat w ->
  String.compare (Str.zpad w a +:+ s) (Str.zpad w b +:+ t)
  = match a ?= b with Eq => String.compare s t | c => c end.
Proof.
  induction w as [|w IH]; intros a b s t Ha Hb.
  - simpl in Ha, Hb. assert (a = 0) by lia. assert (b = 0) by lia. subst. reflexivity.
  - rewrite Nat2Z.inj_succ, Z.pow_succ_r in Ha, Hb by lia.
    assert (0 <= a / 10 < 10 ^ Z.of_nat w /\ 0 <= a mod 10 < 10 /\ a = 10 * (a / 10) + a mod 10)
      as (Ha1 & Ha2 & Ha3).
    { pose proof (Z.div_mod a 10). pose proof (Z.mod_pos_bound a 10). nia. }
    assert (0 <= b / 10 < 10 ^ Z.of_nat w /\ 0 <= b mod 10 < 10 /\ b = 10 * (b / 10) + b mod 10)
      as (Hb1 & Hb2 & Hb3).
    { pose proof (Z.div_mod b 10). pose proof (Z.mod_pos_bound b 10). nia. }
    rewrite !zpad_S, IH by assumption. simpl.
    rewrite compare_digit_char by assumption.
    destruct (Z.compare_spec (a / 10) (b / 10)), (Z.compare_spec (a mod 10) (b mod 10)),
      (Z.compare_spec a b); try reflexivity; exfalso; lia.
Qed.

(** * [strptime] of what the collector prints *)

Import strptime.

Lemma lexeme_app cs1 cs2 : forall acc s,
  lexeme (cs1 ++ cs2) acc s
  = match lexeme cs1 acc s with
    | Some (v, r) => lexeme cs2 v r
    | None => None
    end.
Proof.
  induction cs1 as [|k cs1 IH]; intros acc s; [reflexivity|].
  simpl. destruct s as [|c s]; [reflexivity|].
  destruct (k c); [apply IH | reflexivity].
Qed.

Lemma lexeme_digits w : forall n acc s,
  0 <= n < 10 ^ Z.of_nat w ->
  lexeme (repeat digit w) acc (Str.zpad w n +:+ s) = Some (acc * 10 ^ Z.of_nat w + n, s).
Proof.
  induction w as [|w IH]; intros n acc s Hn.
  - simpl in *. f_equal. f_equal. lia.
  - rewrite Nat2Z.inj_succ, Z.pow_succ_r in * by lia.
    assert (0 <= n / 10 < 10 ^ Z.of_nat w /\ 0 <= n mod 10 < 10 /\ n = 10 * (n / 10) + n mod 10)
      as (H1 & H2 & H3).
    { pose proof (Z.div_mod n 10). pose proof (Z.mod_pos_bound n 10). nia. }
    replace (repeat digit (S w)) with (repeat digit w ++ [digit])
      by (symmetry; apply (repeat_cons w digit)).
    rewrite lexeme_app, zpad_S, IH by assumption. simpl.
    unfold digit. rewrite is_digit_digit_char, digit_val_digit_char by assumption.
    f_equal. f_equal. lia.
Qed.

Lemma dir_step_year k y s :
  0 <= y < 10000 ->
  dir_step dY k (Str.zpad 4 y +:+ s)
  = match k s with
    | Some (fs, r) => Some ((dY, y) :: fs, r)
    | None => None
    end.
Proof.
  intros Hy. unfold dir_step, alternatives, first_success.
  change [digit; digit; digit; digit] with (repeat digit 4).
  rewrite lexeme_digits by (simpl; lia). simpl. by destruct (k s) as [[??]|].
Qed.

Ltac enum_nat k tac :=
  first [ exfalso; lia | destruct k as [|k]; [ tac | enum_nat k tac ] ].

(** Cases on an integer between [lo] and [hi]. *)
Ltac enum_Z v lo tac :=
  let k := fresh "k" in
  let E := fresh "E" in
  remember (Z.to_nat (v - lo)) as k eqn:E;
  assert (v = lo + Z.of_nat k) by lia;
  clear E; subst v; enum_nat k tac.

Lemma dir_step_two_digits d c k v s :
  (d, c) = (dm, "-"%char) \/ (d, c) = (dd, "T"%char) \/ (d, c) = (dH, ":"%char)
  \/ (d, c) = (dM, ":"%char) \/ (d, c) = (dS, "Z"%char) ->
  fits d v ->
  dir_step d (lit_step c k) (Str.zpad 2 v +:+ String c s)
  = match k s with
    | Some (fs, r) => Some ((d, v) :: fs, r)
    | None => None
    end.
Proof.
  intros Hdc Hv.
  destruct Hdc as [E|[E|[E|[E|E]]]]; injection E as -> ->; unfold fits in Hv.
  - enum_Z v 1 ltac:(vm_compute; destruct (k s) as [[??]|]; reflexivity).
  - enum_Z v 1 ltac:(vm_compute; destruct (k s) as [[??]|]; reflexivity).
  - enum_Z v 0 ltac:(vm_compute; destruct (k s) as [[??]|]; reflexivity).
  - enum_Z v 0 ltac:(vm_compute; destruct (k s) as [[??]|]; reflexivity).
  - enum_Z v 0 ltac:(vm_compute; destruct (k s) as [[??]|]; reflexivity).
Qed.

Lemma valid_bounds x :
  datetime.valid x = true ->
  1 <= datetime.year x <= 9999 /\ 1 <= datetime.month x <= 12
  /\ 1 <= datetime.day x <= datetime.days_in_month (datetime.year x) (datetime.month x)
  /\ 0 <= datetime.hour x <= 23 /\ 0 <= datetime.minute x <= 59
  /\ 0 <= datetime.second x <= 59 /\ 0 <= datetime.microsecond x <= 999999.
Proof.
  unfold datetime.valid, datetime.valid_date, datetime.MINYEAR, datetime.MAXYEAR.
  simpl. rewrite !andb_true_iff. lia.
Qed.

Lemma days_in_month_le y m : datetime.days_in_month y m <= 31.
Proof.
  unfold datetime.days_in_month.
  repeat match goal with |- context [if ?b then _ else _] => destruct b end; lia.
Qed.

Lemma lit_step_same c k s :
  Ascii.eqb (Str.lower c) (Str.lower c) = true -> lit_step c k (String c s) = k s.
Proof. intros H. unfold lit_step. by rewrite H. Qed.

(** The time stamp the collector writes parses back to the instant it
    was printed from. *)
Lemma strptime_isoformat x :
  datetime.valid x = true -> datetime.microsecond x = 0 ->
  strptime (datetime.isoformat x +:+ "Z") "%Y-%m-%dT%H:%M:%SZ" = Some x.
Proof.
  intros Hv Hus. pose proof (valid_bounds x Hv) as (Hy & Hm & Hd & Hh & Hmi & Hs & _).
  pose proof (days_in_month_le (datetime.year x) (datetime.month x)).
  unfold strptime.
  change (items "%Y-%m-%dT%H:%M:%SZ")
    with [Dir dY; Lit "-"; Dir dm; Lit "-"; Dir dd; Lit "T"; Dir dH; Lit ":";
          Dir dM; Lit ":"; Dir dS; Lit "Z"]%char.
  unfold datetime.isoformat. rewrite Hus. change (0 =? 0) with true. cbv iota.
  rewrite !string_app_assoc, !string_app_cons, !string_app_nil_l.
  cbn [regex_match].
  rewrite dir_step_year by lia. rewrite lit_step_same by reflexivity.
  rewrite (dir_step_two_digits dm) by (unfold fits; auto 10 with lia).
  rewrite (dir_step_two_digits dd) by (unfold fits; auto 10 with lia).
  rewrite (dir_step_two_digits dH) by (unfold fits; auto 10 with lia).
  rewrite (dir_step_two_digits dM) by (unfold fits; auto 10 with lia).
  rewrite (dir_step_two_digits dS) by (unfold fits; auto 10 with lia).
  cbn [get directive_eqb].
  destruct x as [y m d h mi se us]. simpl in Hus. subst us. simpl. by rewrite Hv.
Qed.

Lemma compare_same_head c s t : String.compare (String c s) (String c t) = String.compare s t.
Proof.
  simpl. replace (Ascii.compare c c) with Eq; [reflexivity|].
  symmetry. unfold Ascii.compare. apply N.compare_refl.
Qed.

(** On the time stamps the collector writes, the order of the strings is
    the order of the instants. *)
Lemma compare_isoformat x y :
  datetime.valid x = true -> datetime.valid y = true ->
  datetime.microsecond x = 0 -> datetime.microsecond y = 0 ->
  String.compare (datetime.isoformat x +:+ "Z") (datetime.isoformat y +:+ "Z")
  = datetime.compare x y.
Proof.
  intros Hx Hy Hux Huy.
  pose proof (valid_bounds x Hx) as (? & ? & ? & ? & ? & ? & _).
  pose proof (valid_bounds y Hy) as (? & ? & ? & ? & ? & ? & _).
  pose proof (days_in_month_le (datetime.year x) (datetime.month x)).
  pose proof (days_in_month_le (datetime.year y) (datetime.month y)).
  unfold datetime.isoformat, datetime.compare, datetime.fields. rewrite Hux, Huy.
  change (0 =? 0) with true. cbv iota.
  rewrite !string_app_assoc, !string_app_cons, !string_app_nil_l.
  rewrite compare_zpad by (simpl; lia). rewrite compare_same_head.
  do 4 (rewrite compare_zpad by (simpl; lia); rewrite compare_same_head).
  rewrite compare_zpad by (simpl; lia).
  simpl.
  repeat match goal with |- context [?a ?= ?b] => destruct (a ?= b) end; reflexivity.
Qed.

(** * File names *)

Lemma split_nonempty sep s : Str.split sep s <> [].
Proof.
  destruct s as [|c s]; simpl; [discriminate|].
  destruct (Ascii.eqb c sep); [discriminate|]. by destruct (Str.split sep s).
Qed.

Lemma split_app_no_sep sep s u :
  Forall (fun c => Ascii.eqb c sep = false) (list_ascii_of_string s) ->
  Str.split sep (s +:+ String sep u) = s :: Str.split sep u.
Proof.
  induction s as [|c s IH]; intros Hs.
  - rewrite string_app_nil_l. simpl. by rewrite Ascii.eqb_refl.
  - simpl in Hs. inversion Hs as [|?? Hc Hs']; subst.
    rewrite string_app_cons. simpl. rewrite Hc, IH by assumption. reflexivity.
Qed.

Lemma list_ascii_app s t :
  list_ascii_of_string (s +:+ t) = list_ascii_of_string s ++ list_ascii_of_string t.
Proof. induction s as [|c s IHs]; [reflexivity|]. rewrite string_app_cons. simpl. by rewrite IHs. Qed.

Lemma zpad_no_underscore w : forall n,
  Forall (fun c => Ascii.eqb c "_" = false) (list_ascii_of_string (Str.zpad w n)).
Proof.
  induction w as [|w IH]; intros n; [constructor|].
  simpl. rewrite list_ascii_app. apply Forall_app. split; [apply IH|].
  constructor; [|constructor].
  pose proof (Z.mod_pos_bound n 10 ltac:(lia)) as Hk.
  digit_cases (n mod 10); reflexivity.
Qed.

Lemma substring_all p : String.substring 0 (String.length p) p = p.
Proof. induction p as [|c p IH]; [reflexivity|]. simpl. by rewrite IH. Qed.

Lemma substring_app a p :
  String.substring (String.length a) (String.length p) (a +:+ p) = p.
Proof.
  induction a as [|c a IH]; [apply substring_all|].
  rewrite string_app_cons. simpl. apply IH.
Qed.

Lemma endswith_app a p : Str.endswith (a +:+ p) p = true.
Proof.
  unfold Str.endswith. rewrite string_length_app.
  replace (String.length a + String.length p - String.length p)%nat
    with (String.length a) by lia.
  rewrite substring_app, String.eqb_refl, andb_true_r.
  apply Nat.leb_le. lia.
Qed.

Lemma dir_step_month_day m d :
  1 <= m <= 12 -> 1 <= d <= 31 ->
  dir_step dm (dir_step dd (fun s => Some ([], s))) (Str.zpad 2 m +:+ Str.zpad 2 d)
  = Some ([(dm, m); (dd, d)], "").
Proof.
  intros Hm Hd.
  enum_Z m 1 ltac:(enum_Z d 1 ltac:(vm_compute; reflexivity)).
Qed.

(** The date [load_data] reads in the name of a segment is the day the
    segment was started. *)
Lemma file_date_segment cs :
  datetime.valid cs = true ->
  server.file_date (bname (collector.segment_path cs)) = Return (datetime.get_date cs).
Proof.
  intros Hv. pose proof (valid_bounds cs Hv) as (Hy & Hm & Hd & Hh & Hmi & Hs & _).
  pose proof (days_in_month_le (datetime.year cs) (datetime.month cs)).
  unfold server.file_date, collector.segment_path, datetime.strftime_segment, bname.
  change ("sensor_" +:+ ?x) with ("sensor" +:+ String "_" x).
  rewrite split_app_no_sep by (repeat constructor).
  rewrite !string_app_assoc. change ("_" +:+ ?x) with (String "_" x).
  rewrite <- (string_app_assoc (Str.zpad 2 (datetime.month cs)) (Str.zpad 2 (datetime.day cs))).
  rewrite <- (string_app_assoc (Str.zpad 4 (datetime.year cs))).
  rewrite split_app_no_sep.
  2:{ rewrite !list_ascii_app, !Forall_app. auto using zpad_no_underscore. }
  unfold Str.index. cbn [nth_error]. unfold strptime.
  change (items "%Y%m%d") with [Dir dY; Dir dm; Dir dd]. cbn [regex_match].
  rewrite dir_step_year by lia. rewrite dir_step_month_day by lia.
  cbn [get directive_eqb].
  assert (datetime.valid (datetime.mk (datetime.year cs) (datetime.month cs)
            (datetime.day cs) 0 0 0 0) = true) as ->; [|reflexivity].
  unfold datetime.valid, datetime.valid_date in *. simpl in *.
  rewrite !andb_true_iff in *. intuition.
Qed.

Lemma segment_name_shape cs :
  Str.startswith (bname (collector.segment_path cs)) "sensor_" = true
  /\ Str.endswith (bname (collector.segment_path cs)) ".json" = true
  /\ Str.startswith (bname (collector.segment_path cs)) collector.TMP_PREFIX = false.
Proof.
  unfold collector.segment_path, bname. split; [reflexivity|]. split; [|reflexivity].
  rewrite <- string_app_assoc. apply endswith_app.
Qed.

(** * Dates and their order *)

Ltac lex_cases :=
  unfold datetime.leb, datetime.date_leb, datetime.date_eqb, datetime.compare,
    datetime.date_compare, datetime.fields, datetime.date_fields, datetime.get_date,
    datetime.lex in *;
  simpl in *;
  repeat match goal with
         | H : context [?a ?= ?b] |- _ => destruct (Z.compare_spec a b); simpl in H
         | |- context [?a ?= ?b] => destruct (Z.compare_spec a b); simpl
         end;
  try congruence; try lia.

Lemma leb_get_date x y :
  datetime.leb x y = true ->
  datetime.date_leb (datetime.get_date x) (datetime.get_date y) = true.
Proof. intros H. lex_cases. Qed.

Lemma date_leb_trans a b c :
  datetime.date_leb a b = true -> datetime.date_leb b c = true ->
  datetime.date_leb a c = true.
Proof. intros H1 H2. lex_cases. Qed.

Lemma leb_trans x y z :
  datetime.leb x y = true -> datetime.leb y z = true -> datetime.leb x z = true.
Proof. intros H1 H2. lex_cases. Qed.

Lemma leb_refl x : datetime.leb x x = true.
Proof. lex_cases. Qed.

Lemma date_pred_lt d d' :
  datetime.date_pred d = Some d' -> datetime.date_compare d' d = Lt.
Proof.
  unfold datetime.date_pred. intros H.
  repeat match type of H with
         | context [if ?b then _ else _] => destruct b eqn:?
         end; inversion H; subst; clear H; lex_cases.
Qed.

Lemma second_of_day_bounds x :
  datetime.valid x = true -> 0 <= datetime.second_of_day x < 86400.
Proof.
  intros Hv. pose proof (valid_bounds x Hv). unfold datetime.second_of_day. lia.
Qed.

(** [start_dt - timedelta(days=1)] is the same time on the day before. *)
Lemma sub_one_day x b :
  datetime.valid x = true ->
  datetime.sub x (datetime.mkdelta 1 0) = Return b ->
  datetime.date_pred (datetime.get_date x) = Some (datetime.get_date b).
Proof.
  intros Hv. pose proof (second_of_day_bounds x Hv) as Hs.
  unfold datetime.sub. simpl datetime.td_days. simpl datetime.td_hours.
  replace (datetime.second_of_day x - 0 * 3600) with (datetime.second_of_day x) by lia.
  rewrite Z.div_small by lia. simpl Z.to_nat. simpl datetime.date_back.
  destruct (datetime.date_pred (datetime.get_date x)) as [d|]; [|discriminate].
  intros [= <-]. by destruct d.
Qed.

Lemma sub_one_day_before x b y :
  datetime.valid x = true ->
  datetime.sub x (datetime.mkdelta 1 0) = Return b ->
  datetime.leb x y = true ->
  datetime.date_leb (datetime.get_date b) (datetime.get_date y) = true.
Proof.
  intros Hv Hb Hxy. apply sub_one_day in Hb; [|done]. apply date_pred_lt in Hb.
  apply leb_get_date in Hxy.
  apply date_leb_trans with (datetime.get_date x); [|done].
  unfold datetime.date_leb. by rewrite Hb.
Qed.

(** * Sorting *)

Section Sort.
Context {A : Type} (key : A -> string).

Lemma insert_perm x l : Permutation (Str.insert key x l) (x :: l).
Proof.
  induction l as [|y l IH]; simpl; [done|].
  destruct (String.leb (key x) (key y)); [done|].
  rewrite IH. apply perm_swap.
Qed.

Lemma sort_perm l : Permutation (Str.sort key l) l.
Proof.
  induction l as [|x l IH]; simpl; [done|].
  rewrite insert_perm. by constructor.
Qed.

Lemma in_sort x l : In x (Str.sort key l) <-> In x l.
Proof.
  split; apply Permutation_in; [apply sort_perm | symmetry; apply sort_perm].
Qed.

Lemma insert_sorted x l : Sorted (Str.key_le key) l -> Sorted (Str.key_le key) (Str.insert key x l).
Proof.
  induction 1 as [|y l Hl IH Hy]; simpl; [by repeat constructor|].
  destruct (String.leb (key x) (key y)) eqn:E.
  - constructor; [by constructor|]. constructor. unfold Str.key_le, String.le. by rewrite E.
  - constructor; [done|].
    assert (Str.key_le key y x) as Hyx.
    { unfold Str.key_le, String.le. destruct (String.leb_total (key x) (key y)) as [H|H].
      - congruence.
      - by rewrite H. }
    destruct Hy as [|z l Hz]; simpl; [by constructor|].
    destruct (String.leb (key x) (key z)); by constructor.
Qed.

Lemma sort_sorted l : Sorted (Str.key_le key) (Str.sort key l).
Proof. induction l as [|x l IH]; simpl; [constructor | by apply insert_sorted]. Qed.

(** The sort is stable: entries with one key keep their order. *)
Lemma insert_stable k x l :
  List.filter (fun y => String.eqb (key y) k) (Str.insert key x l)
  = List.filter (fun y => String.eqb (key y) k) (x :: l).
Proof.
  induction l as [|y l IH]; [done|]. cbn [Str.insert].
  destruct (String.leb (key x) (key y)) eqn:E; [done|].
  cbn [List.filter] in *. rewrite IH.
  destruct (String.eqb_spec (key x) k) as [Hx|_]; [|done].
  destruct (String.eqb_spec (key y) k) as [Hy|_]; [|done].
  rewrite Hx, <- Hy in E. unfold String.leb in E.
  assert (String.compare (key y) (key y) = Eq) as Hrefl.
  { generalize (key y). intros s. induction s as [|c s IHs]; [done|]. simpl.
    unfold Ascii.compare. by rewrite N.compare_refl. }
  by rewrite Hrefl in E.
Qed.

Lemma sort_stable k l :
  List.filter (fun y => String.eqb (key y) k) (Str.sort key l)
  = List.filter (fun y => String.eqb (key y) k) l.
Proof.
  induction l as [|x l IH]; [done|]. cbn [Str.sort]. rewrite insert_stable.
  cbn [List.filter]. by rewrite IH.
Qed.

#[local] Instance key_le_trans : Transitive (Str.key_le key).
Proof. intros a b c. unfold Str.key_le. apply (transitivity (R := String.le)). Qed.

Lemma sort_strongly_sorted l : StronglySorted (Str.key_le key) (Str.sort key l).
Proof. apply Sorted_StronglySorted; [apply _ | apply sort_sorted]. Qed.
End Sort.


(** * [load_data] *)

Lemma strptime_valid s fmt x :
  strptime s fmt = Some x -> datetime.valid x = true /\ datetime.microsecond x = 0.
Proof.
  unfold strptime. destruct (regex_match (items fmt) s) as [[fs [|??]]|]; try discriminate.
  destruct (datetime.valid _) eqn:Hv; [|discriminate]. intros [= <-]. by split.
Qed.

(** An entry with a time stamp that parses is a dict with a string under
    "ts", which is its sort key. *)
Lemma entry_ts_Return entry ts :
  server.entry_ts entry = Return ts ->
  strptime (server.ts_key entry) "%Y-%m-%dT%H:%M:%SZ" = Some ts.
Proof.
  unfold server.entry_ts, server.ts_key. destruct entry as [| | | | | |kv]; try discriminate.
  destruct (dict_get "ts" kv) as [[| | | |s| |]|]; try discriminate.
  destruct (strptime s _); [|discriminate]. by intros [= ->].
Qed.

Lemma in_range_spec start_dt end_dt entry :
  server.in_range start_dt end_dt entry = true <->
  exists ts, server.entry_ts entry = Return ts
             /\ datetime.leb start_dt ts = true /\ datetime.leb ts end_dt = true.
Proof.
  unfold server.in_range. destruct (server.entry_ts entry) as [ts|e].
  - rewrite andb_true_iff. split; [eauto|]. by intros (? & [= <-] & ?).
  - split; [discriminate|]. by intros (? & ? & _).
Qed.

(** When the filter loop ends without raising it has kept exactly the
    entries in range, in their order. *)
Lemma filter_entries_Return start_dt end_dt : forall combined log data,
  server.filter_entries start_dt end_dt combined = (log, Return data) ->
  data = List.filter (fun x => server.in_range start_dt end_dt x) combined.
Proof.
  induction combined as [|entry rest IH]; intros log data.
  - by intros [= <- <-].
  - change (List.filter ?f (entry :: rest))
      with (if f entry then entry :: List.filter f rest else List.filter f rest).
    cbn [server.filter_entries]. unfold server.in_range at 1.
    destruct (server.filter_entries start_dt end_dt rest) as [log' r].
    destruct (server.entry_ts entry) as [ts|e].
    + destruct (datetime.leb start_dt ts && datetime.leb ts end_dt).
      * destruct r as [data'|]; [|discriminate]. intros [= <- <-].
        f_equal. by eapply IH.
      * intros [= <- ->]. by eapply IH.
    + destruct e; try discriminate. intros [= <- ->]. by eapply IH.
Qed.

(** The loop raises only on an entry whose time stamp raises something
    other than a [ValueError]. *)
Lemma filter_entries_total start_dt end_dt combined :
  Forall (fun x => server.entry_ts x <> Raise KeyError
                   /\ server.entry_ts x <> Raise TypeError) combined ->
  exists log data, server.filter_entries start_dt end_dt combined = (log, Return data).
Proof.
  induction 1 as [|entry rest [Hk Ht] _ (log & data & IH)]; simpl; [by eauto|].
  rewrite IH. unfold server.entry_ts in *.
  destruct entry as [| | | | | |kv]; try done.
  destruct (dict_get "ts" kv) as [[| | | |s| |]|]; try done.
  destruct (strptime s _) as [ts|]; [|by eauto].
  destruct (_ && _); simpl; eauto.
Qed.

(** An entry whose time stamp is a string that does not parse is dropped
    and reported. *)
Lemma filter_entries_invalid start_dt end_dt combined log data entry :
  server.filter_entries start_dt end_dt combined = (log, Return data) ->
  In entry combined -> server.entry_ts entry = Raise ValueError ->
  In (server.InvalidTimestamp entry) log /\ ~ In entry data.
Proof.
  intros Hf Hin Hts. split.
  - revert log data Hf. induction combined as [|x rest IH]; intros log data; [done|].
    simpl. destruct (server.filter_entries start_dt end_dt rest) as [log' r].
    destruct Hin as [->|Hin].
    + rewrite Hts. intros [= <- _]. by left.
    + destruct (server.entry_ts x) as [ts|e].
      * destruct (_ && _); intros [= <- E]; [right|]; destruct r; try discriminate;
          eapply IH; eauto.
      * destruct e; try discriminate. intros [= <- ->]. right. eapply IH; eauto.
  - apply filter_entries_Return in Hf as ->. rewrite filter_In.
    unfold server.in_range. rewrite Hts. by intros [_ ?].
Qed.

Lemma load_data_unfold fs dir start_dt end_dt before :
  fs !! server.DATA_FOLDER = Some dir ->
  datetime.sub start_dt (datetime.mkdelta 1 0) = Return before ->
  let relevant := server.relevant_files (datetime.get_date before)
                    (datetime.get_date end_dt) (listdir dir) in
  (server.load_data fs start_dt end_dt).2
  = Str.sort server.ts_key
      <$> (server.filter_entries start_dt end_dt (server.combined_data dir relevant)).2.
Proof.
  intros Hdir Hsub. unfold server.load_data. rewrite Hdir, Hsub. simpl.
  by destruct (server.filter_entries _ _ _).
Qed.

(** What [load_data] returns, when it returns. *)
Lemma load_data_Return fs start_dt end_dt data :
  (server.load_data fs start_dt end_dt).2 = Return data ->
  (fs !! server.DATA_FOLDER = None /\ data = [])
  \/ exists dir before,
       fs !! server.DATA_FOLDER = Some dir
       /\ datetime.sub start_dt (datetime.mkdelta 1 0) = Return before
       /\ data = Str.sort server.ts_key
                   (List.filter (fun x => server.in_range start_dt end_dt x)
                      (server.combined_data dir
                         (server.relevant_files (datetime.get_date before)
                            (datetime.get_date end_dt) (listdir dir)))).
Proof.
  destruct (fs !! server.DATA_FOLDER) as [dir|] eqn:Hdir.
  2:{ unfold server.load_data. rewrite Hdir. simpl. intros [= <-]. by left. }
  destruct (datetime.sub start_dt (datetime.mkdelta 1 0)) as [before|e] eqn:Hsub.
  2:{ unfold server.load_data. rewrite Hdir, Hsub. discriminate. }
  rewrite (load_data_unfold _ _ _ _ _ Hdir Hsub). cbv zeta.
  destruct (server.filter_entries _ _ _) as [log [filtered|e]] eqn:Hf; [|discriminate].
  simpl. intros [= <-]. right. exists dir, before. repeat split; try done.
  f_equal. by eapply filter_entries_Return.
Qed.

Lemma candidate_true lo hi f :
  (server.candidate lo hi f).2 = true <->
  exists d, server.segment_of_day f d
            /\ datetime.date_leb lo d = true /\ datetime.date_leb d hi = true.
Proof.
  unfold server.candidate, server.segment_of_day.
  destruct (Str.startswith f "sensor_"), (Str.endswith f ".json"); simpl;
    try (split; [discriminate | by intros (? & (? & ? & ?) & _)]).
  destruct (server.file_date f) as [d|e]; simpl.
  - rewrite andb_true_iff. split; [by eauto 10|]. by intros (? & (_ & _ & [= <-]) & ?).
  - split; [discriminate|]. by intros (? & (_ & _ & ?) & _).
Qed.

Lemma relevant_files_In lo hi all_files f :
  In f (server.relevant_files lo hi all_files) <->
  In f all_files /\ (server.candidate lo hi f).2 = true.
Proof. unfold server.relevant_files. by rewrite filter_In, in_sort. Qed.

Lemma in_listdir (dir : directory) f : In f (listdir dir) <-> is_Some (dir !! f).
Proof.
  unfold listdir. rewrite <- list_elem_of_In, list_elem_of_fmap. split.
  - intros ([f' c] & -> & Hin). apply elem_of_map_to_list in Hin. by eexists.
  - intros [c Hc]. exists (f, c). split; [done|]. by apply elem_of_map_to_list.
Qed.

Lemma combined_data_In dir relevant entry :
  In entry (server.combined_data dir relevant) <->
  exists f day_data, In f relevant /\ server.readable dir f day_data /\ In entry day_data.
Proof.
  unfold server.combined_data, server.readable. rewrite in_flat_map. split.
  - intros (f & Hf & Hin). exists f. unfold server.load_file in Hin.
    destruct (dir !! f) as [c|]; [|done].
    destruct (json_load c) as [v|] eqn:Hv; [|done].
    destruct (iterate v) as [l|] eqn:Hl; [|done]. eauto 10.
  - intros (f & l & Hf & (c & v & Hc & Hv & Hl) & Hin). exists f. split; [done|].
    unfold server.load_file. by rewrite Hc, Hv, Hl.
Qed.

(** Every in-range entry of a selected file that can be read is in what
    the query returns. *)
Lemma load_data_keeps fs dir start_dt end_dt before f day_data entry data :
  fs !! server.DATA_FOLDER = Some dir ->
  datetime.sub start_dt (datetime.mkdelta 1 0) = Return before ->
  In f (server.relevant_files (datetime.get_date before) (datetime.get_date end_dt)
          (listdir dir)) ->
  server.readable dir f day_data -> In entry day_data ->
  server.in_range start_dt end_dt entry = true ->
  (server.load_data fs start_dt end_dt).2 = Return data ->
  In entry data.
Proof.
  intros Hdir Hsub Hf Hread Hin Hrange Hret.
  apply load_data_Return in Hret as [[E _]|(dir' & before' & Hdir' & Hsub' & ->)];
    [congruence|].
  rewrite Hdir in Hdir'. injection Hdir' as <-.
  rewrite Hsub in Hsub'. injection Hsub' as <-.
  apply in_sort, filter_In. split; [|done].
  apply combined_data_In. eauto.
Qed.


(** The loop raises as soon as the time stamp of an entry raises
    something other than a [ValueError]. *)
Lemma filter_entries_raises start_dt end_dt combined x e :
  In x combined -> server.entry_ts x = Raise e -> e <> ValueError ->
  exists e', (server.filter_entries start_dt end_dt combined).2 = Raise e'.
Proof.
  intros Hin Hx He. induction combined as [|y rest IH]; [done|]. simpl.
  destruct Hin as [->|Hin].
  - rewrite Hx. destruct e; try done; simpl; eauto.
  - destruct (IH Hin) as [e' IH'].
    destruct (server.filter_entries start_dt end_dt rest) as [log r]. simpl in IH'. subst r.
    destruct (server.entry_ts y) as [ts|[]]; simpl; eauto.
    destruct (_ && _); simpl; eauto.
Qed.

(** [load_data] returns whenever the day before [start_dt] exists and every
    entry of the files it loads is a dict whose "ts" is a string. *)
Lemma load_data_total fs start_dt end_dt :
  (forall dir, fs !! server.DATA_FOLDER = Some dir ->
     exists before,
       datetime.sub start_dt (datetime.mkdelta 1 0) = Return before
       /\ Forall (fun x => server.entry_ts x <> Raise KeyError
                           /\ server.entry_ts x <> Raise TypeError)
            (server.combined_data dir
               (server.relevant_files (datetime.get_date before)
                  (datetime.get_date end_dt) (listdir dir)))) ->
  exists data, (server.load_data fs start_dt end_dt).2 = Return data.
Proof.
  intros H. destruct (fs !! server.DATA_FOLDER) as [dir|] eqn:Hdir.
  - destruct (H dir eq_refl) as (before & Hsub & Hall).
    rewrite (load_data_unfold _ _ _ _ _ Hdir Hsub). cbv zeta.
    destruct (filter_entries_total start_dt end_dt _ Hall) as (log & data & ->).
    simpl. eauto.
  - unfold server.load_data. rewrite Hdir. simpl. eauto.
Qed.

Lemma candidate_segment_name lo hi f :
  (server.candidate lo hi f).2 = true -> Str.startswith f "sensor_" = true.
Proof.
  unfold server.candidate. destruct (Str.startswith f "sensor_"); [done|]. simpl. discriminate.
Qed.

Lemma listdir_empty : listdir ∅ = [].
Proof. unfold listdir. by rewrite map_to_list_empty. Qed.

(** With a start one can step a day back from, the result of [load_data]
    is that of the folder's directory, an absent folder counting as an
    empty one. *)
Lemma load_data_dir fs start_dt end_dt before :
  datetime.sub start_dt (datetime.mkdelta 1 0) = Return before ->
  let dir := default ∅ (fs !! server.DATA_FOLDER) in
  (server.load_data fs start_dt end_dt).2
  = Str.sort server.ts_key
      <$> (server.filter_entries start_dt end_dt
             (server.combined_data dir
                (server.relevant_files (datetime.get_date before)
                   (datetime.get_date end_dt) (listdir dir)))).2.
Proof.
  intros Hsub dir. destruct (fs !! server.DATA_FOLDER) as [d|] eqn:Hd.
  - by rewrite (load_data_unfold _ _ _ _ _ Hd Hsub).
  - unfold server.load_data, dir. rewrite Hd. simpl. by rewrite listdir_empty.
Qed.



Lemma StronglySorted_weaken {A} (R R' : A -> A -> Prop) (P : A -> Prop) l :
  (forall a b, P a -> P b -> R a b -> R' a b) ->
  Forall P l -> StronglySorted R l -> StronglySorted R' l.
Proof.
  intros HR HP Hs. induction Hs as [|x l Hs IH Hx]; [constructor|].
  inversion HP as [|?? Px Pl]; subst. constructor; [by apply IH|].
  rewrite Forall_forall in *. eauto.
Qed.

Lemma written_form_spec s :
  server.written_form s = true ->
  exists x, datetime.valid x = true /\ datetime.microsecond x = 0
            /\ strptime s "%Y-%m-%dT%H:%M:%SZ" = Some x
            /\ s = datetime.isoformat x +:+ "Z".
Proof.
  unfold server.written_form. destruct (strptime s _) as [x|] eqn:Hx; [|discriminate].
  intros E%String.eqb_eq. apply strptime_valid in Hx as Hv. destruct Hv. by exists x.
Qed.

(** Among entries in the written form, the order of the keys is the order
    of the instants. *)
Lemma key_le_not_later a b :
  server.written_form (server.ts_key a) = true ->
  server.written_form (server.ts_key b) = true ->
  (exists ta, server.entry_ts a = Return ta) -> (exists tb, server.entry_ts b = Return tb) ->
  Str.key_le server.ts_key a b -> server.not_later a b.
Proof.
  intros (xa & Hva & Hua & Hpa & Ea)%written_form_spec
         (xb & Hvb & Hub & Hpb & Eb)%written_form_spec [ta Ha] [tb Hb] Hle.
  unfold server.not_later. rewrite Ha, Hb.
  apply entry_ts_Return in Ha, Hb. rewrite Hpa in Ha. rewrite Hpb in Hb.
  injection Ha as <-. injection Hb as <-.
  unfold Str.key_le, String.le, String.leb in Hle. rewrite Ea, Eb in Hle.
  rewrite compare_isoformat in Hle by done.
  unfold datetime.leb. by destruct (datetime.compare xa xb).
Qed.

(** Whenever [load_data] returns, the sequence is sorted ascending by the
    stored "ts" string, every record in it has a time stamp that parses to
    an instant within [start_dt, end_dt], both ends included, and the
    sequence is in ascending order of these instants as soon as the strings
    have the written form. *)
Lemma load_data_key_sorted fs start_dt end_dt data :
  (server.load_data fs start_dt end_dt).2 = Return data ->
  StronglySorted (Str.key_le server.ts_key) data
  /\ Forall (fun x => server.in_range start_dt end_dt x = true) data
  /\ (Forall (fun x => server.written_form (server.ts_key x) = true) data ->
      server.chronological data).
Proof.
  intros Hret.
  assert (StronglySorted (Str.key_le server.ts_key) data
          /\ Forall (fun x => server.in_range start_dt end_dt x = true) data) as [Hs Hr].
  { apply load_data_Return in Hret as [[_ ->]|(dir & before & _ & _ & ->)].
    - split; constructor.
    - split; [apply sort_strongly_sorted|].
      apply List.Forall_forall. intros x Hx%in_sort. by apply filter_In in Hx as [_ ?]. }
  split; [done|]. split; [done|]. intros Hw. unfold server.chronological.
  eapply (StronglySorted_weaken _ _
            (fun x => server.in_range start_dt end_dt x = true
                      /\ server.written_form (server.ts_key x) = true));
    [|by apply Forall_and|exact Hs].
  intros a b [Ha Hwa] [Hb Hwb] Hle.
  apply in_range_spec in Ha as (ta & Ha & _). apply in_range_spec in Hb as (tb & Hb & _).
  apply key_le_not_later; eauto.
Qed.


(** * Histories in the written form *)

Lemma written_form_entry_ts x :
  server.written_form (server.ts_key x) = true -> exists ts, server.entry_ts x = Return ts.
Proof.
  intros (t & _ & _ & Hp & _)%written_form_spec.
  unfold server.ts_key, server.entry_ts in *.
  destruct x as [| | | | | |kv]; try discriminate Hp.
  destruct (dict_get "ts" kv) as [[| | | |s| |]|]; try discriminate Hp.
  rewrite Hp. by eexists.
Qed.

(** C1.  On a history as the collector writes it, every record stamped in
    the written form, a query over [start_dt, end_dt] returns; what it
    returns is in ascending order of the instants of its records, and every
    record in it has its instant within [start_dt, end_dt], both ends
    included. *)
Theorem load_data_sorted_in_range fs start_dt end_dt before :
  datetime.sub start_dt (datetime.mkdelta 1 0) = Return before ->
  server.written_history fs ->
  exists data,
    (server.load_data fs start_dt end_dt).2 = Return data
    /\ server.chronological data
    /\ Forall (fun x => server.in_range start_dt end_dt x = true) data.
Proof.
  intros Hsub Hw.
  pose proof (load_data_dir fs start_dt end_dt before Hsub) as Hld. cbv zeta in Hld.
  set (dir := default ∅ (fs !! server.DATA_FOLDER)) in *.
  set (stored := server.combined_data dir
                   (server.relevant_files (datetime.get_date before)
                      (datetime.get_date end_dt) (listdir dir))) in *.
  assert (Forall (fun x => server.written_form (server.ts_key x) = true) stored) as Hall.
  { apply List.Forall_forall. intros x (f & rows & Hf & Hread & Hx)%combined_data_In.
    apply relevant_files_In in Hf as [Hl Hc].
    destruct (fs !! server.DATA_FOLDER) as [d|] eqn:Hd.
    - apply (Hw d f rows x); [done | by eapply candidate_segment_name | done | done].
    - unfold dir in Hl. simpl in Hl. by rewrite listdir_empty in Hl. }
  destruct (filter_entries_total start_dt end_dt stored) as (log & d & Hf).
  { eapply List.Forall_impl; [|exact Hall]. intros x [ts Hts]%written_form_entry_ts.
    rewrite Hts. by split. }
  rewrite Hf in Hld. simpl in Hld. eexists. split; [exact Hld|].
  destruct (load_data_key_sorted fs start_dt end_dt _ Hld) as (_ & Hr & Hc).
  split; [|done]. apply Hc. apply List.Forall_forall. intros x Hx%in_sort.
  apply filter_entries_Return in Hf. subst d. apply filter_In in Hx as [Hx _].
  rewrite List.Forall_forall in Hall. by apply Hall.
Qed.

Lemma scenario_store_written : server.written_history Examples.scenario_store.
Proof.
  intros dir f rows x Hdir _ (c & v & Hf & Hl & Hit) Hx.
  unfold Examples.scenario_store, server.DATA_FOLDER in Hdir.
  rewrite lookup_singleton_eq in Hdir. injection Hdir as <-.
  apply lookup_singleton_Some in Hf as [<- <-].
  injection Hl as <-. injection Hit as <-.
  destruct Hx as [<-|[<-|[<-|[]]]]; vm_compute; reflexivity.
Qed.

(** The query of 10:02:00 to 10:04:00 over the three readings: the two at
    the ends of the window come back, in order. *)
Lemma load_data_sorted_in_range_witness :
  exists data,
    (server.load_data Examples.scenario_store
       (Examples.at_time 10 2 0) (Examples.at_time 10 4 0)).2 = Return data
    /\ server.chronological data
    /\ Forall (fun x => server.in_range (Examples.at_time 10 2 0) (Examples.at_time 10 4 0) x
                        = true) data.
Proof.
  apply (load_data_sorted_in_range Examples.scenario_store (Examples.at_time 10 2 0)
           (Examples.at_time 10 4 0) (datetime.mk 2025 11 19 10 2 0 0) eq_refl).
  exact scenario_store_written.
Defined.


(** * A segment that cannot be read *)

Lemma NoDup_listdir (dir : directory) : List.NoDup (listdir dir).
Proof. apply NoDup_ListNoDup, NoDup_fst_map_to_list. Qed.

Lemma StronglySorted_filter {A} (R : A -> A -> Prop) (p : A -> bool) l :
  StronglySorted R l -> StronglySorted R (List.filter p l).
Proof.
  induction 1 as [|x l Hs IH Hx]; simpl; [constructor|].
  destruct (p x); [|done]. constructor; [done|].
  apply List.Forall_forall. intros y [Hy _]%filter_In.
  rewrite List.Forall_forall in Hx. by apply Hx.
Qed.

(** The sorted listing of a directory without [f] is the sorted listing of
    the directory, without [f]. *)
Lemma sort_listdir_delete (dir : directory) f :
  Str.sort (fun g => g) (listdir (delete f dir))
  = List.filter (fun g => negb (String.eqb g f)) (Str.sort (fun g => g) (listdir dir)).
Proof.
  apply (StronglySorted_unique_strong (Str.key_le (fun g : string => g))).
  - intros a b _ _ Hab Hba. by apply (anti_symm String.le).
  - apply sort_strongly_sorted.
  - apply StronglySorted_filter, sort_strongly_sorted.
  - apply NoDup_Permutation.
    + apply NoDup_ListNoDup. eapply Permutation_NoDup; [symmetry; apply sort_perm|].
      apply NoDup_listdir.
    + apply NoDup_ListNoDup, List.NoDup_filter.
      eapply Permutation_NoDup; [symmetry; apply sort_perm|]. apply NoDup_listdir.
    + intros g. rewrite !list_elem_of_In, filter_In, !in_sort, !in_listdir.
      rewrite negb_true_iff, String.eqb_neq.
      destruct (decide (f = g)) as [->|Hne].
      * rewrite lookup_delete_eq. split; [by intros [??] | by intros [_ ?]].
      * rewrite lookup_delete_ne by done. split; [by intros ? | by intros [? _]].
Qed.

Lemma filter_filter_comm {A} (p q : A -> bool) l :
  List.filter p (List.filter q l) = List.filter q (List.filter p l).
Proof.
  induction l as [|x l IH]; [done|]. simpl.
  destruct (p x) eqn:Hp, (q x) eqn:Hq; simpl; rewrite ?Hp, ?Hq, IH; done.
Qed.

Lemma relevant_files_delete lo hi (dir : directory) f :
  server.relevant_files lo hi (listdir (delete f dir))
  = List.filter (fun g => negb (String.eqb g f)) (server.relevant_files lo hi (listdir dir)).
Proof.
  unfold server.relevant_files. by rewrite sort_listdir_delete, filter_filter_comm.
Qed.

Lemma load_file_delete (dir : directory) f g :
  g <> f -> server.load_file (delete f dir) g = server.load_file dir g.
Proof. intros Hne. unfold server.load_file. by rewrite lookup_delete_ne. Qed.

(** A file that adds nothing to [combined_data] can as well be absent. *)
Lemma combined_data_delete (dir : directory) f relevant :
  (server.load_file dir f).2 = [] ->
  server.combined_data (delete f dir)
    (List.filter (fun g => negb (String.eqb g f)) relevant)
  = server.combined_data dir relevant.
Proof.
  intros Hf. unfold server.combined_data.
  induction relevant as [|g rest IH]; [done|]. simpl.
  destruct (String.eqb_spec g f) as [->|Hne]; simpl.
  - by rewrite Hf, IH.
  - by rewrite load_file_delete, IH.
Qed.

Lemma load_file_unparsable (dir : directory) f c :
  dir !! f = Some c -> json_load c = None ->
  server.load_file dir f = ([server.ErrorReading f], []).
Proof. intros Hc Hl. unfold server.load_file. by rewrite Hc, Hl. Qed.

(** C6.  A file of the data folder that does not parse changes nothing in
    what a query returns: the result, or the exception raised on an entry
    of another file, is the one the same store gives without that file;
    when the file is among those selected the query prints the error for
    it; and the result holds every in-range entry of the selected files
    that can be read. *)
Theorem corrupt_segment_skipped fs dir f c start_dt end_dt :
  fs !! server.DATA_FOLDER = Some dir ->
  dir !! f = Some c -> json_load c = None ->
  (server.load_data fs start_dt end_dt).2
  = (server.load_data (<[server.DATA_FOLDER := delete f dir]> fs) start_dt end_dt).2
  /\ (forall before,
         datetime.sub start_dt (datetime.mkdelta 1 0) = Return before ->
         In f (server.relevant_files (datetime.get_date before) (datetime.get_date end_dt)
                 (listdir dir)) ->
         In (server.ErrorReading f) (server.load_data fs start_dt end_dt).1)
  /\ (forall before g day_data entry data,
         datetime.sub start_dt (datetime.mkdelta 1 0) = Return before ->
         In g (server.relevant_files (datetime.get_date before) (datetime.get_date end_dt)
                 (listdir dir)) ->
         server.readable dir g day_data -> In entry day_data ->
         server.in_range start_dt end_dt entry = true ->
         (server.load_data fs start_dt end_dt).2 = Return data ->
         In entry data).
Proof.
  intros Hdir Hc Hl. pose proof (load_file_unparsable dir f c Hc Hl) as Hf.
  split; [|split; [|intros; by eapply (load_data_keeps fs dir start_dt end_dt before g)]].
  - destruct (datetime.sub start_dt (datetime.mkdelta 1 0)) as [before|e] eqn:Hsub.
    + rewrite (load_data_unfold _ _ _ _ _ Hdir Hsub).
      rewrite (load_data_unfold (<[server.DATA_FOLDER := delete f dir]> fs)
                 (delete f dir) _ _ _ (lookup_insert_eq _ _ _) Hsub).
      cbv zeta. rewrite relevant_files_delete, combined_data_delete; [done|].
      by rewrite Hf.
    + unfold server.load_data. by rewrite Hdir, lookup_insert_eq, Hsub.
  - intros before Hsub Hin. unfold server.load_data. rewrite Hdir, Hsub.
    destruct (server.filter_entries _ _ _) as [log4 r]. simpl.
    apply in_or_app. right. apply in_or_app. left.
    apply in_flat_map. exists f. split; [done|]. rewrite Hf. by left.
Qed.

(** The same query with a second segment that does not parse: the reading
    of the first comes back and the error is printed. *)
Lemma corrupt_segment_skipped_witness :
  (server.load_data Examples.two_day_store (Examples.at_time 0 15 0) (Examples.at_time 1 0 0)).2
  = Return [Examples.overnight]
  /\ In (server.ErrorReading "sensor_20251120_095959.json")
        (server.load_data Examples.two_day_store
           (Examples.at_time 0 15 0) (Examples.at_time 1 0 0)).1.
Proof.
  pose (dir := ({[ "sensor_20251119_233000.json" := Dumped (JArray [Examples.overnight]);
                   "sensor_20251120_095959.json" := Garbage ]} : directory)).
  assert (Examples.two_day_store !! server.DATA_FOLDER = Some dir) as Hdir
    by (vm_compute; reflexivity).
  assert (dir !! "sensor_20251120_095959.json" = Some Garbage) as Hc
    by (vm_compute; reflexivity).
  destruct (corrupt_segment_skipped Examples.two_day_store dir
              "sensor_20251120_095959.json" Garbage
              (Examples.at_time 0 15 0) (Examples.at_time 1 0 0) Hdir Hc eq_refl)
    as (Heq & Hlog & _).
  split.
  - rewrite Heq. vm_compute. reflexivity.
  - apply (Hlog (datetime.mk 2025 11 19 0 15 0 0)); [reflexivity|].
    vm_compute. right. left. reflexivity.
Defined.


(** * The query interface *)

Lemma window_default r : ~ In r server.RANGES -> server.window r = server.window "24h".
Proof.
  intros Hr. unfold server.window.
  repeat match goal with
         | |- context [String.eqb r ?s] =>
             destruct (String.eqb_spec r s) as [->|_]; [exfalso; apply Hr; simpl; tauto|]
         end.
  reflexivity.
Qed.

(** C8 (as amended).  A request whose [range] is none of 6h, 12h, 24h, 3d,
    7d, 1m is served exactly as the same request with [range=24h] is, and
    so is a request without [range]: no error is signalled for the
    parameter. *)
Theorem unknown_range_served_as_24h fs today utcnow r d :
  ~ In r server.RANGES ->
  server.get_readings fs today utcnow (server.mkrequest (Some r) d)
  = server.get_readings fs today utcnow (server.mkrequest (Some "24h") d)
  /\ server.get_readings fs today utcnow (server.mkrequest None d)
     = server.get_readings fs today utcnow (server.mkrequest (Some "24h") d).
Proof.
  intros Hr. split; [|reflexivity].
  unfold server.get_readings. simpl. by rewrite (window_default r Hr).
Qed.

(** The request [range=2w] gets the answer of [range=24h]. *)
Lemma unknown_range_served_as_24h_witness :
  ~ In "2w" server.RANGES
  /\ server.get_readings Examples.scenario_store (Examples.at_time 12 0 0)
       (Examples.at_time 11 0 0) (server.mkrequest (Some "2w") None)
     = server.get_readings Examples.scenario_store (Examples.at_time 12 0 0)
         (Examples.at_time 11 0 0) (server.mkrequest (Some "24h") None).
Proof.
  assert (~ In "2w" server.RANGES) as H.
  { simpl. intros [E|[E|[E|[E|[E|[E|[]]]]]]]; discriminate E. }
  split; [exact H|].
  exact (proj1 (unknown_range_served_as_24h Examples.scenario_store (Examples.at_time 12 0 0)
                  (Examples.at_time 11 0 0) "2w" None H)).
Defined.

(** C8 as stated fails: the request [range=2w] is answered with the
    readings of the last 24 hours. *)
Lemma unknown_range_not_rejected :
  ~ (forall fs today utcnow r d,
        ~ In r server.RANGES ->
        exists e, (server.get_readings fs today utcnow (server.mkrequest (Some r) d)).2
                  = server.InternalServerError e).
Proof.
  intros H.
  destruct (H Examples.scenario_store (Examples.at_time 12 0 0) (Examples.at_time 11 0 0)
              "2w" None) as [e He].
  - simpl. intros [E|[E|[E|[E|[E|[E|[]]]]]]]; discriminate E.
  - vm_compute in He. discriminate He.
Qed.

(** C9, at the failing inputs.  A stored entry without "ts" makes
    [load_data] raise a [KeyError], one whose "ts" is a number a
    [TypeError], and the request gets an internal server error: only an
    entry whose "ts" is a string that does not parse is dropped. *)
Theorem load_data_missing_ts_raises :
  (server.load_data Examples.missing_ts_store
     (Examples.at_time 0 0 0) (Examples.at_time 23 59 59)).2 = Raise KeyError
  /\ (server.load_data Examples.numeric_ts_store
        (Examples.at_time 0 0 0) (Examples.at_time 23 59 59)).2 = Raise TypeError
  /\ (server.get_readings Examples.missing_ts_store (Examples.at_time 12 0 0)
        (Examples.at_time 11 0 0) (server.mkrequest (Some "24h") None)).2
     = server.InternalServerError KeyError.
Proof. repeat split; vm_compute; reflexivity. Qed.


(** * The atomic record store *)

Lemma startswith_tmp n : Str.startswith (collector.TMP_PREFIX +:+ n) collector.TMP_PREFIX = true.
Proof. by destruct n. Qed.

(** A segment is never named like a temporary file. *)
Lemma segment_not_tmp name :
  Str.startswith name "sensor_" = true -> Str.startswith name collector.TMP_PREFIX = false.
Proof.
  destruct name as [|c name]; [discriminate|].
  unfold Str.startswith, collector.TMP_PREFIX. cbn [String.prefix].
  destruct (ascii_dec "s" c) as [<-|]; [|discriminate]. intros _.
  by destruct (ascii_dec "." "s").
Qed.

Lemma mkstemp_Return d names fs tmp :
  collector.mkstemp d names fs = Return tmp ->
  exists dir, fs !! d = Some dir /\ dir !! tmp = None
              /\ Str.startswith tmp collector.TMP_PREFIX = true.
Proof.
  unfold collector.mkstemp. destruct (fs !! d) as [dir|]; [|discriminate].
  destruct (find _ names) as [n|] eqn:Hfind; [|discriminate]. intros [= <-].
  apply find_some in Hfind as [_ Hfree%bool_decide_eq_true]. eauto using startswith_tmp.
Qed.

Lemma mkstemp_free d names (dir : directory) fs n :
  fs !! d = Some dir -> In n names -> dir !! (collector.TMP_PREFIX +:+ n) = None ->
  exists tmp, collector.mkstemp d names fs = Return tmp.
Proof.
  intros Hd Hn Hfree. unfold collector.mkstemp. rewrite Hd.
  destruct (find _ names) as [m|] eqn:Hfind; [by eauto|].
  eapply find_none in Hfind; [|exact Hn]. simpl in Hfind.
  by rewrite bool_decide_eq_false in Hfind.
Qed.

(** [makedirs] changes no file. *)
Lemma fs_lookup_makedirs fs d q : fs_lookup (collector.makedirs d fs) q = fs_lookup fs q.
Proof.
  unfold fs_lookup, collector.makedirs.
  destruct (fs !! d) as [dir|] eqn:Hd; [done|].
  destruct (decide (d = dir_of q)) as [->|Hne].
  - by rewrite lookup_insert_eq, Hd, lookup_empty.
  - by rewrite lookup_insert_ne.
Qed.

(** Writing a file changes no other. *)
Lemma fs_lookup_write_other fs d name c q :
  dir_of q <> d \/ bname q <> name ->
  fs_lookup (collector.write_file d name c fs) q = fs_lookup fs q.
Proof.
  intros Hne. unfold fs_lookup, collector.write_file.
  destruct (fs !! d) as [dir|] eqn:Hd; [|done].
  destruct (decide (d = dir_of q)) as [->|Hd'].
  - rewrite lookup_insert_eq, Hd. destruct Hne as [?|?]; [done|]. by rewrite lookup_insert_ne.
  - by rewrite lookup_insert_ne.
Qed.

(** Moving [src] onto [dst] changes no third file, and puts at [dst] what
    [src] held. *)
Lemma fs_lookup_move_other fs d src dst q :
  dir_of q <> d \/ (bname q <> src /\ bname q <> dst) ->
  fs_lookup (collector.move d src dst fs) q = fs_lookup fs q.
Proof.
  intros Hne. unfold fs_lookup, collector.move.
  destruct (fs !! d) as [dir|] eqn:Hd; [|done].
  destruct (dir !! src) as [c|] eqn:Hc; [|done].
  destruct (decide (d = dir_of q)) as [->|Hd'].
  - rewrite lookup_insert_eq, Hd. destruct Hne as [?|[? ?]]; [done|].
    by rewrite lookup_insert_ne, lookup_delete_ne.
  - by rewrite lookup_insert_ne.
Qed.

(** The steps of [atomic_write_json]: before the move the file at [p] is
    what it was, from the move on it is the complete dump of [data]; and no
    step changes a file elsewhere. *)
Lemma atomic_write_json_steps names chunks p data fs steps r :
  Str.startswith (bname p) collector.TMP_PREFIX = false ->
  collector.atomic_write_json names chunks p data fs = (steps, r) ->
  Forall (fun s =>
            (fs_lookup s p = fs_lookup fs p \/ fs_lookup s p = Some (Dumped data))
            /\ forall q, collector.elsewhere p q -> fs_lookup s q = fs_lookup fs q) steps
  /\ (r = Return tt -> fs_lookup (collector.after fs steps) p = Some (Dumped data)).
Proof.
  intros Hp. unfold collector.atomic_write_json.
  set (fs1 := if String.eqb (dname p) "" then fs else collector.makedirs (dname p) fs).
  assert (forall q, fs_lookup fs1 q = fs_lookup fs q) as H1.
  { intros q. unfold fs1. destruct (String.eqb (dname p) ""); [done|].
    apply fs_lookup_makedirs. }
  destruct (collector.mkstemp (dir_of p) names fs1) as [tmp|e] eqn:Hmk.
  2:{ intros [= <- <-]. split; [|discriminate]. constructor; [|constructor].
      split; [by left | by intros]. }
  apply mkstemp_Return in Hmk as (dir & Hdir & Hfree & Htmp).
  assert (tmp <> bname p) as Hne by (intros ->; congruence).
  assert (forall q, collector.elsewhere p q -> dir_of q <> dir_of p \/ bname q <> tmp) as He.
  { intros q [?|[_ Hq]]; [by left|]. right. intros E. congruence. }
  assert (forall c,
            (fs_lookup (collector.write_file (dir_of p) tmp c fs1) p = fs_lookup fs p
             \/ fs_lookup (collector.write_file (dir_of p) tmp c fs1) p = Some (Dumped data))
            /\ forall q, collector.elsewhere p q ->
                 fs_lookup (collector.write_file (dir_of p) tmp c fs1) q = fs_lookup fs q)
    as Hw.
  { intros c. split.
    - left. rewrite fs_lookup_write_other by (by right). apply H1.
    - intros q Hq. rewrite fs_lookup_write_other by (by apply He). apply H1. }
  set (closed := collector.write_file (dir_of p) tmp (Dumped data) fs1).
  set (moved := collector.move (dir_of p) tmp (bname p) closed).
  assert (moved = <[dir_of p := <[bname p := Dumped data]>
                                  (delete tmp (<[tmp := Dumped data]> dir))]> closed)
    as Hmoved.
  { unfold moved, collector.move, closed, collector.write_file.
    by rewrite Hdir, !lookup_insert_eq. }
  assert (fs_lookup moved p = Some (Dumped data)) as Hpost.
  { rewrite Hmoved. unfold fs_lookup. by rewrite !lookup_insert_eq. }
  assert (forall q, collector.elsewhere p q -> fs_lookup moved q = fs_lookup fs q) as Hframe.
  { intros q Hq. unfold moved. rewrite fs_lookup_move_other.
    - by apply Hw.
    - destruct Hq as [?|[? Hq]]; [by left|]. right. split; [|done]. intros E. congruence. }
  assert (collector.exists_in (dir_of p) tmp moved = false) as Hex.
  { rewrite Hmoved. unfold collector.exists_in. rewrite lookup_insert_eq.
    apply bool_decide_eq_false. rewrite lookup_insert_ne, lookup_delete_eq by done.
    by intros [? ?]. }
  rewrite Hex. intros [= <- <-]. split.
  - cbn [app]. constructor; [split; [by left | by intros]|]. constructor; [apply Hw|].
    apply Forall_app. split.
    + apply List.Forall_forall. intros s (k & <- & _)%in_map_iff. apply Hw.
    + constructor; [apply Hw|]. constructor; [split; [by right | done]|].
      constructor; [split; [by right | done]|constructor].
  - intros _. unfold collector.after.
    change (?a :: ?b :: ?l) with ([a; b] ++ l).
    rewrite !List.app_assoc.
    change [closed; moved; moved] with ([closed; moved] ++ [moved]).
    rewrite List.app_assoc. by rewrite last_last.
Qed.

(** What [append_reading] leaves on disk, at every step and at the end. *)
Lemma append_reading_steps names chunks p reading fs log steps r :
  Str.startswith (bname p) collector.TMP_PREFIX = false ->
  collector.append_reading names chunks p reading fs = (log, steps, r) ->
  Forall (fun s =>
            (fs_lookup s p = fs_lookup fs p
             \/ exists old, (collector.load_payload fs p).2 = JArray old
                            /\ fs_lookup s p = Some (Dumped (JArray (old ++ [reading]))))
            /\ forall q, collector.elsewhere p q -> fs_lookup s q = fs_lookup fs q)
         (fs :: steps)
  /\ (r = Return tt ->
      exists old, (collector.load_payload fs p).2 = JArray old
                  /\ fs_lookup (collector.after fs steps) p
                     = Some (Dumped (JArray (old ++ [reading])))).
Proof.
  intros Hp. unfold collector.append_reading.
  destruct (collector.load_payload fs p) as [log0 payload]. simpl.
  destruct payload as [| | | | |old|]; simpl;
    try (intros [= <- <- <-]; split; [by repeat constructor | discriminate]).
  destruct (collector.atomic_write_json names chunks p (JArray (old ++ [reading])) fs)
    as [steps' r'] eqn:Hw.
  intros [= <- <- <-]. apply atomic_write_json_steps in Hw as [Hall Hlast]; [|done].
  split.
  - constructor; [split; [by left | done]|]. eapply List.Forall_impl; [|exact Hall].
    intros s [[?|?] ?]; (split; [|done]); [by left | right; by exists old].
  - intros Hr. exists old. split; [done | by apply Hlast].
Qed.


Lemma triple_eta {A B C} (x : A * B * C) : x = (x.1.1, x.1.2, x.2).
Proof. by destruct x as [[??]?]. Qed.

(** C2.  Whatever the step at which a call of [append_reading] on a segment
    file is cut short, the segment file then holds exactly what it held
    before the call (or is absent, if it was) or exactly the complete dump
    of the old list with the new reading appended, and every file other
    than the segment and the temporary files of its directory is as it was;
    when the call returns the segment holds the new list.  The partial
    writes only ever go to the temporary file. *)
Theorem append_reading_crash_atomic names chunks p reading fs log steps r :
  Str.startswith (bname p) "sensor_" = true ->
  collector.append_reading names chunks p reading fs = (log, steps, r) ->
  (forall crashed, In crashed (fs :: steps) ->
     (fs_lookup crashed p = fs_lookup fs p
      \/ exists old, (collector.load_payload fs p).2 = JArray old
                     /\ fs_lookup crashed p = Some (Dumped (JArray (old ++ [reading]))))
     /\ forall q, collector.elsewhere p q -> fs_lookup crashed q = fs_lookup fs q)
  /\ (r = Return tt ->
      exists old, (collector.load_payload fs p).2 = JArray old
                  /\ fs_lookup (collector.after fs steps) p
                     = Some (Dumped (JArray (old ++ [reading])))).
Proof.
  intros Hp%segment_not_tmp Happ.
  apply append_reading_steps in Happ as [Hall Hlast]; [|done].
  split; [|done]. by apply List.Forall_forall.
Qed.

(** A fourth reading appended to the three: the segment holds the three
    through the first seven states and the four from the move on. *)
Lemma append_reading_crash_atomic_witness :
  let res := collector.append_reading ["k3x9qv_a"] 3 Examples.segment Examples.r4
               Examples.scenario_store in
  map (fun s => fs_lookup s Examples.segment) (Examples.scenario_store :: res.1.2)
  = repeat (Some (Dumped (JArray [Examples.r1; Examples.r2; Examples.r3]))) 7
    ++ repeat (Some (Dumped (JArray [Examples.r1; Examples.r2; Examples.r3;
                                     Examples.r4]))) 2
  /\ exists old,
       (collector.load_payload Examples.scenario_store Examples.segment).2 = JArray old
       /\ fs_lookup (collector.after Examples.scenario_store res.1.2) Examples.segment
          = Some (Dumped (JArray (old ++ [Examples.r4]))).
Proof.
  intros res. split; [vm_compute; reflexivity|].
  assert (res.2 = Return tt) as Hr by (vm_compute; reflexivity).
  exact (proj2 (append_reading_crash_atomic ["k3x9qv_a"] 3 Examples.segment Examples.r4
                  Examples.scenario_store res.1.1 res.1.2 res.2 eq_refl (triple_eta res))
               Hr).
Defined.

(** C4.  When the segment file is there and cannot be read or does not
    parse, and one of the names [mkstemp] draws is free, [append_reading] logs the failure,
    returns normally, and leaves the segment holding the new reading
    alone. *)
Theorem append_reading_corrupt names chunks p reading fs c :
  Str.startswith (bname p) "sensor_" = true ->
  fs_lookup fs p = Some c -> json_load c = None ->
  (exists n, In n names
             /\ fs_lookup fs (mkpath (dname p) (collector.TMP_PREFIX +:+ n)) = None) ->
  exists steps,
    collector.append_reading names chunks p reading fs
    = ([collector.LogException "Failed to read existing JSON, starting fresh"],
       steps, Return tt)
    /\ fs_lookup (collector.after fs steps) p = Some (Dumped (JArray [reading])).
Proof.
  intros Hp%segment_not_tmp Hc Hload (n & Hn & Hfree).
  destruct (collector.append_reading names chunks p reading fs) as [[log steps] r] eqn:Happ.
  pose proof (append_reading_steps _ _ _ _ _ _ _ _ Hp Happ) as [_ Hlast].
  unfold collector.append_reading, collector.load_payload in *. rewrite Hc, Hload in *.
  simpl in *.
  destruct (collector.atomic_write_json names chunks p (JArray [reading]) fs)
    as [steps' r'] eqn:Hw.
  injection Happ as <- <- <-.
  assert (r' = Return tt) as ->.
  { unfold collector.atomic_write_json in Hw.
    unfold fs_lookup in Hc, Hfree.
    change (dir_of (mkpath (dname p) (collector.TMP_PREFIX +:+ n))) with (dir_of p) in Hfree.
    destruct (fs !! dir_of p) as [dir|] eqn:Hd; [|discriminate].
    cbn [bname] in Hfree.
    assert ((if String.eqb (dname p) "" then fs else collector.makedirs (dname p) fs)
              !! dir_of p = Some dir) as Hd1.
    { unfold dir_of, collector.makedirs in *.
      destruct (String.eqb (dname p) ""); [done|]. by rewrite Hd. }
    destruct (mkstemp_free _ names dir _ n Hd1 Hn Hfree) as [tmp Htmp].
    rewrite Htmp in Hw. by injection Hw as _ <-. }
  exists steps'. split; [done|].
  destruct (Hlast eq_refl) as (old & [= <-] & Hpost). exact Hpost.
Qed.

(** A reading appended to a segment that does not parse. *)
Lemma append_reading_corrupt_witness :
  exists steps,
    collector.append_reading ["k3x9qv_a"] 3 Examples.segment Examples.r4
      Examples.two_day_store
    = ([collector.LogException "Failed to read existing JSON, starting fresh"],
       steps, Return tt)
    /\ fs_lookup (collector.after Examples.two_day_store steps) Examples.segment
       = Some (Dumped (JArray [Examples.r4])).
Proof.
  apply (append_reading_corrupt ["k3x9qv_a"] 3 Examples.segment Examples.r4
           Examples.two_day_store Garbage).
  - reflexivity.
  - vm_compute. reflexivity.
  - reflexivity.
  - exists "k3x9qv_a". split; [by left|]. vm_compute. reflexivity.
Defined.


(** * Readings *)

Lemma valid_replace_microsecond x :
  datetime.valid x = true -> datetime.valid (datetime.replace_microsecond x 0) = true.
Proof.
  unfold datetime.valid. simpl. rewrite !andb_true_iff. intuition.
Qed.

Lemma length_stamp x :
  datetime.microsecond x = 0 -> String.length (datetime.isoformat x +:+ "Z") = 20%nat.
Proof.
  intros Hus. unfold datetime.isoformat. rewrite Hus. change (0 =? 0) with true. cbv iota.
  rewrite !string_length_app, !length_zpad. reflexivity.
Qed.

Lemma float_or_None_spec r :
  (collector.float_or_None r = JNull <-> exists e, r = Raise e)
  /\ (forall f, collector.float_or_None r = JFloat f <-> r = Return f)
  /\ (collector.float_or_None r = JNull \/ exists f, collector.float_or_None r = JFloat f).
Proof.
  destruct r as [f|e]; simpl; repeat split; try done; eauto.
  - by intros [? ?].
  - by intros [= ->].
  - by intros [= ->].
Qed.

(** Decide the comparisons of literal keys in the goal. *)
Ltac eval_keys :=
  cbn [dict_get];
  repeat match goal with
         | |- context [String.eqb ?a ?b] =>
             let v := eval vm_compute in (String.eqb a b) in
             change (String.eqb a b) with v
         end;
  cbv iota.

(** The reading parses to the instant it was taken at, cut to the second. *)
Lemma entry_ts_reading utcnow sensor :
  datetime.valid utcnow = true ->
  server.entry_ts (collector.read_sensor_values utcnow sensor)
  = Return (datetime.replace_microsecond utcnow 0).
Proof.
  intros Hv. unfold collector.read_sensor_values, server.entry_ts. eval_keys.
  by rewrite strptime_isoformat by (by apply valid_replace_microsecond || done).
Qed.

(** C10.  For every sensor object and every valid clock reading,
    [read_sensor_values] returns a dict with exactly the keys ts,
    temperature_c, humidity_rh and battery_percentage; ts is the clock
    reading cut to the second, in the twenty characters of
    YYYY-MM-DDTHH:MM:SS followed by "Z", and parses back to it; and each of
    the other three is a float, or None exactly when its access raised. *)
Theorem read_sensor_values_total utcnow sensor :
  datetime.valid utcnow = true ->
  let now := datetime.replace_microsecond utcnow 0 in
  let ts := datetime.isoformat now +:+ "Z" in
  exists temp rh pwr,
    collector.read_sensor_values utcnow sensor
    = JObject [("ts", JString ts); ("temperature_c", temp); ("humidity_rh", rh);
               ("battery_percentage", pwr)]
    /\ strptime ts "%Y-%m-%dT%H:%M:%SZ" = Some now
    /\ String.length ts = 20%nat /\ Str.endswith ts "Z" = true
    /\ (temp = JNull \/ exists f, temp = JFloat f)
    /\ (rh = JNull \/ exists f, rh = JFloat f)
    /\ (pwr = JNull \/ exists f, pwr = JFloat f)
    /\ (temp = JNull <-> exists e, collector.current_temperature sensor = Raise e)
    /\ (rh = JNull <-> exists e, collector.current_r_h sensor = Raise e)
    /\ (pwr = JNull <-> exists e, collector.battery_percentage sensor = Raise e).
Proof.
  intros Hv now ts.
  exists (collector.float_or_None (collector.current_temperature sensor)),
         (collector.float_or_None (collector.current_r_h sensor)),
         (collector.float_or_None (collector.battery_percentage sensor)).
  split; [reflexivity|].
  split; [by apply strptime_isoformat; [apply valid_replace_microsecond|]|].
  split; [by apply length_stamp|]. split; [apply endswith_app|].
  repeat split; apply float_or_None_spec.
Qed.

(** A sensor on which every access fails, and one without a battery level. *)
Lemma read_sensor_values_total_witness :
  datetime.valid (datetime.mk 2025 11 20 10 0 0 123456) = true
  /\ collector.read_sensor_values (datetime.mk 2025 11 20 10 0 0 123456) Examples.dead_sensor
     = JObject [("ts", JString "2025-11-20T10:00:00Z"); ("temperature_c", JNull);
                ("humidity_rh", JNull); ("battery_percentage", JNull)]
  /\ exists temp rh pwr,
       collector.read_sensor_values (datetime.mk 2025 11 20 10 0 0 123456) Examples.zero_sensor
       = JObject [("ts", JString "2025-11-20T10:00:00Z"); ("temperature_c", temp);
                  ("humidity_rh", rh); ("battery_percentage", pwr)]
       /\ (pwr = JNull <-> exists e, collector.battery_percentage Examples.zero_sensor = Raise e).
Proof.
  assert (datetime.valid (datetime.mk 2025 11 20 10 0 0 123456) = true) as Hv by reflexivity.
  split; [exact Hv|]. split; [reflexivity|].
  destruct (read_sensor_values_total (datetime.mk 2025 11 20 10 0 0 123456)
              Examples.zero_sensor Hv)
    as (temp & rh & pwr & E & _ & _ & _ & _ & _ & _ & _ & _ & Hpwr).
  exists temp, rh, pwr. split; [exact E | exact Hpwr].
Defined.

(** C7.  A reading taken from a sensor and appended to the segment of the
    running cycle comes back from every query whose window covers the
    instant of the reading and the day of the segment, with each of
    temperature_c, humidity_rh and battery_percentage equal to None exactly
    when the access to it raised, and to the float read otherwise (a zero
    stays the float zero). *)
Theorem absent_field_round_trip cs utcnow sensor names chunks fs log steps
    start_dt end_dt before data :
  let reading := collector.read_sensor_values utcnow sensor in
  let now := datetime.replace_microsecond utcnow 0 in
  datetime.valid cs = true -> 1000 <= datetime.year cs ->
  datetime.valid utcnow = true ->
  collector.append_reading names chunks (collector.segment_path cs) reading fs
  = (log, steps, Return tt) ->
  datetime.sub start_dt (datetime.mkdelta 1 0) = Return before ->
  datetime.date_leb (datetime.get_date before) (datetime.get_date cs) = true ->
  datetime.date_leb (datetime.get_date cs) (datetime.get_date end_dt) = true ->
  datetime.leb start_dt now = true -> datetime.leb now end_dt = true ->
  (server.load_data (collector.after fs steps) start_dt end_dt).2 = Return data ->
  In reading data
  /\ (field "temperature_c" reading = Some JNull
      <-> exists e, collector.current_temperature sensor = Raise e)
  /\ (field "humidity_rh" reading = Some JNull
      <-> exists e, collector.current_r_h sensor = Raise e)
  /\ (field "battery_percentage" reading = Some JNull
      <-> exists e, collector.battery_percentage sensor = Raise e)
  /\ (forall f, collector.current_temperature sensor = Return f ->
                field "temperature_c" reading = Some (JFloat f))
  /\ (forall f, collector.current_r_h sensor = Return f ->
                field "humidity_rh" reading = Some (JFloat f))
  /\ (forall f, collector.battery_percentage sensor = Return f ->
                field "battery_percentage" reading = Some (JFloat f)).
Proof.
  intros reading now Hcs _ Hnow Happ Hsub Hlo Hhi Hstart Hend Hret.
  split.
  - destruct (segment_name_shape cs) as (Hpre & Hsuf & Htmp).
    apply append_reading_steps in Happ as [_ Hlast]; [|done].
    destruct (Hlast eq_refl) as (old & _ & Hpost).
    unfold fs_lookup in Hpost.
    change (dir_of (collector.segment_path cs)) with server.DATA_FOLDER in Hpost.
    destruct (collector.after fs steps !! server.DATA_FOLDER) as [dir|] eqn:Hdir;
      [|discriminate].
    eapply (load_data_keeps _ dir start_dt end_dt before
              (bname (collector.segment_path cs)) (old ++ [reading])); try done.
    + apply relevant_files_In. split; [apply in_listdir; by eexists|].
      apply candidate_true. exists (datetime.get_date cs).
      split; [|done]. split; [done|]. split; [done|]. by apply file_date_segment.
    + by exists (Dumped (JArray (old ++ [reading]))), (JArray (old ++ [reading])).
    + apply in_or_app. right. by left.
    + apply in_range_spec. exists now. split; [by apply entry_ts_reading|done].
  - unfold reading, collector.read_sensor_values, field. eval_keys.
    pose proof (float_or_None_spec (collector.current_temperature sensor)) as (H1 & H1' & _).
    pose proof (float_or_None_spec (collector.current_r_h sensor)) as (H2 & H2' & _).
    pose proof (float_or_None_spec (collector.battery_percentage sensor)) as (H3 & H3' & _).
    repeat split; try (intros [= E]; by apply H1 || by apply H2 || by apply H3);
      try (intros E; f_equal; by apply H1 || by apply H2 || by apply H3);
      intros f E; f_equal; by apply H1' || by apply H2' || by apply H3'.
Qed.

Lemma triple_eta_returned {A B C} (x : A * B * C) (c : C) : x.2 = c -> x = (x.1.1, x.1.2, c).
Proof. destruct x as [[??]?]. by intros <-. Qed.

(** A reading with a temperature of zero and no battery level, appended
    at 10:06:00 and queried back. *)
Lemma absent_field_round_trip_witness :
  let utcnow := datetime.mk 2025 11 20 10 6 0 250000 in
  let reading := collector.read_sensor_values utcnow Examples.zero_sensor in
  let res := collector.append_reading ["k3x9qv_a"] 3 Examples.segment reading
               Examples.scenario_store in
  res.2 = Return tt
  /\ (server.load_data (collector.after Examples.scenario_store res.1.2)
        (Examples.at_time 10 5 0) (Examples.at_time 10 10 0)).2 = Return [reading]
  /\ In reading [reading]
  /\ field "temperature_c" reading = Some (JFloat 0)
  /\ (field "battery_percentage" reading = Some JNull
      <-> exists e, collector.battery_percentage Examples.zero_sensor = Raise e).
Proof.
  intros utcnow reading res.
  assert (res.2 = Return tt) as Hr by (vm_compute; reflexivity).
  assert ((server.load_data (collector.after Examples.scenario_store res.1.2)
             (Examples.at_time 10 5 0) (Examples.at_time 10 10 0)).2 = Return [reading])
    as Hq by (vm_compute; reflexivity).
  destruct (absent_field_round_trip (Examples.at_time 9 59 59) utcnow Examples.zero_sensor
              ["k3x9qv_a"] 3 Examples.scenario_store res.1.1 res.1.2
              (Examples.at_time 10 5 0) (Examples.at_time 10 10 0)
              (datetime.mk 2025 11 19 10 5 0 0) [reading]
              eq_refl ltac:(simpl; lia) eq_refl (triple_eta_returned res _ Hr)
              eq_refl eq_refl eq_refl eq_refl eq_refl Hq)
    as (Hin & _ & _ & Hpwr & Htemp & _ & _).
  split; [exact Hr|]. split; [exact Hq|]. split; [exact Hin|].
  split; [exact (Htemp _ eq_refl) | exact Hpwr].
Defined.


(** * The sampling loop *)

Lemma find_sensor_no_plot hub name j p :
  ~ In (collector.PlotDay j p) (collector.find_sensor hub name).1.
Proof. destruct hub; simpl; [tauto|]. by intros [?|[]]. Qed.

Lemma append_reading_no_plot names chunks p reading fs j q :
  ~ In (collector.PlotDay j q) (collector.append_reading names chunks p reading fs).1.1.
Proof.
  unfold collector.append_reading, collector.load_payload.
  destruct (fs_lookup fs p) as [c|]; [destruct (json_load c) as [v|]|];
    repeat match goal with
           | |- context [collector.append ?a ?b] => destruct (collector.append a b)
           | |- context [collector.atomic_write_json ?a ?b ?c ?d ?e] =>
               destruct (collector.atomic_write_json a b c d e)
           end; simpl; try tauto; by intros [?|[]].
Qed.

Lemma sample_no_plot c e s st fs j p :
  ~ In (collector.PlotDay j p) (collector.sample c e s st fs).1.1.
Proof.
  unfold collector.sample.
  pose proof (find_sensor_no_plot (collector.hub_refresh e) (collector.sensor_name c) j p) as H1.
  destruct (collector.find_sensor _ _) as [log1 found]. simpl in H1.
  match goal with
  | |- context [collector.append_reading ?a ?b ?c ?d ?e] =>
      pose proof (append_reading_no_plot a b c d e j p) as H2;
      destruct (collector.append_reading a b c d e) as [[log2 steps] [[]|err]]
  end; simpl in *; rewrite !in_app_iff; simpl; intuition discriminate.
Qed.

(** [plot_day] logs, and calls nobody. *)
Lemma plot_day_no_plot d j p fs j' p' :
  ~ In (collector.PlotDay j' p') (collector.plot_day d j p fs).1.1.
Proof.
  unfold collector.plot_day.
  destruct (fs_lookup fs j) as [c|]; [|by intros [?|[]]].
  destruct (json_load c) as [data|]; [|by intros [?|[]]].
  destruct (negb (collector.truthy data)); [by intros [?|[]]|].
  destruct (iterate data) as [rows|]; [|by intros []].
  destruct (if existsb collector.has_ts rows then d else collector.NoTimes)
    as [|infos plots r]; [by intros [?|[]]|].
  simpl. rewrite in_map_iff. by intros (? & ? & _).
Qed.

(** The closed segment is handed over exactly when plots are stored. *)
Lemma hand_over_spec c e st fs j p :
  In (collector.PlotDay j p) (collector.hand_over c e st fs).1.1
  <-> collector.store_plots c = true
      /\ j = collector.json_path st
      /\ p = collector.plot_path (collector.cycle_start st) "".
Proof.
  unfold collector.hand_over. destruct (collector.store_plots c).
  - pose proof (plot_day_no_plot (collector.plotting e) (collector.json_path st)
                  (collector.plot_path (collector.cycle_start st) "") fs j p) as H.
    destruct (collector.plot_day _ _ _ _) as [[log fs'] r]. simpl in *. split.
    + intros [[= <- <-]|?]; [done | tauto].
    + intros (_ & -> & ->). by left.
  - simpl. split; [tauto | by intros [? _]].
Qed.

Lemma hand_over_off c e st fs :
  collector.store_plots c = false -> collector.hand_over c e st fs = ([], fs, Return tt).
Proof. unfold collector.hand_over. by intros ->. Qed.

(** What [rotate] does.  Short of the time of the cycle it changes
    nothing.  Past it, it hands the closed segment over if plots are stored
    and then starts a new cycle from a fresh clock reading, unless
    [plot_day] raised: then the exception leaves with the cycle as it was. *)
Lemma rotate_spec c e st s fs :
  let res := collector.rotate c e st s fs in
  let plot := collector.hand_over c e st fs in
  if collector.should_rotate c (collector.now e) (collector.cycle_start st) then
    res.2 = plot.1.2
    /\ (forall j p, In (collector.PlotDay j p) res.1.1 <-> In (collector.PlotDay j p) plot.1.1)
    /\ res.1.2
       = (fun _ => collector.mkstate (collector.rotate_clock e)
                     (collector.segment_path (collector.rotate_clock e)) s) <$> plot.2
  else res = ([], Return (collector.mkstate (collector.cycle_start st)
                            (collector.json_path st) s), fs).
Proof.
  unfold collector.rotate.
  destruct (collector.should_rotate c (collector.now e) (collector.cycle_start st)); [|done].
  destruct (collector.hand_over c e st fs) as [[plot fs'] [[]|x]]; simpl.
  - split; [done|]. split; [|done]. intros j p. rewrite in_app_iff. simpl.
    split; [|tauto]. intros [H|[H|[H|[]]]]; try done; discriminate H.
  - split; [done|]. split; [|done]. intros j p. split; [|tauto].
    intros [H|H]; [discriminate H | done].
Qed.

Lemma last_snoc {A} (l : list A) x d : List.last (l ++ [x]) d = x.
Proof. apply List.last_last. Qed.

Lemma last_app_cons {A} (l l' : list A) x d :
  List.last (l ++ x :: l') d = List.last (x :: l') d.
Proof.
  induction l as [|y l IH]; [done|].
  change ((y :: l) ++ x :: l') with (y :: (l ++ x :: l')).
  destruct (l ++ x :: l') as [|z k] eqn:E; [by destruct l|]. exact IH.
Qed.

Lemma ended_sleep log secs :
  collector.ended (log ++ collector.sleep secs) = (secs <? 0).
Proof.
  unfold collector.ended, collector.sleep. destruct (secs <? 0); by rewrite last_snoc.
Qed.

Lemma ended_traceback log x : collector.ended (log ++ [collector.Traceback x]) = true.
Proof. unfold collector.ended. by rewrite last_snoc. Qed.

Lemma sleep_no_plot secs j p : ~ In (collector.PlotDay j p) (collector.sleep secs).
Proof. unfold collector.sleep. destruct (secs <? 0); by intros [?|[]]. Qed.

(** An iteration that finds no sensor. *)
Lemma tick_unresolved c e st fs :
  (collector.resolve c e st).2 = None ->
  collector.tick c e st fs
  = ((collector.resolve c e st).1
       ++ [collector.LogWarning "Sensor '%s' not found, retrying in %s seconds"]
       ++ collector.sleep (collector.interval_seconds c),
     collector.mkstate (collector.cycle_start st) (collector.json_path st) None, fs).
Proof.
  intros H. unfold collector.tick. destruct (collector.resolve c e st) as [log0 r].
  simpl in H. by subst r.
Qed.

(** An iteration with a sensor: the sample, then the rotation, then the
    sleep unless an exception has left the rotation. *)
Lemma tick_resolved c e st fs s :
  (collector.resolve c e st).2 = Some s ->
  let smp := collector.sample c e s st fs in
  let rot := collector.rotate c e st smp.1.2 smp.2 in
  collector.tick c e st fs
  = match rot.1.2 with
    | Return st' =>
        ((collector.resolve c e st).1 ++ smp.1.1 ++ rot.1.1
           ++ collector.sleep (collector.interval_seconds c), st', rot.2)
    | Raise x =>
        ((collector.resolve c e st).1 ++ smp.1.1 ++ rot.1.1 ++ [collector.Traceback x],
         collector.mkstate (collector.cycle_start st) (collector.json_path st) smp.1.2,
         rot.2)
    end.
Proof.
  intros H. unfold collector.tick. destruct (collector.resolve c e st) as [log0 r].
  simpl in H. subst r. cbv zeta.
  destruct (collector.sample c e s st fs) as [[log1 s'] fs1]. simpl.
  by destruct (collector.rotate c e st s' fs1) as [[log2 [st'|x]] fs2].
Qed.

Lemma resolve_no_plot c e st j p : ~ In (collector.PlotDay j p) (collector.resolve c e st).1.
Proof.
  unfold collector.resolve. destruct (collector.sensor st); [by intros []|].
  apply find_sensor_no_plot.
Qed.

(** C5 (as amended).  With a cycle length below 2**33 seconds, an interval
    the loop can sleep and a clock past the year 1000: an iteration that
    has no sensor and finds none keeps the cycle and plots nothing.  An
    iteration with a sensor finds the cycle complete exactly when
    [now - cycle_start], [now] being the clock read at the top of the
    iteration, is at least [seconds_per_cycle]; it then hands the closed
    segment to [plot_day] exactly when plots are stored, and starts a new
    cycle at the clock read at that moment, with the new segment named
    after it, unless [plot_day] raises: then the exception ends the loop
    with the cycle as it was.  Short of that time it keeps the cycle. *)
Theorem tick_rotation c e st fs :
  0 <= collector.seconds_per_cycle c < 2 ^ 33 ->
  0 <= collector.interval_seconds c < 2 ^ 32 ->
  1000 <= datetime.year (collector.rotate_clock e) ->
  let log := (collector.tick c e st fs).1.1 in
  let st' := (collector.tick c e st fs).1.2 in
  let due := collector.should_rotate c (collector.now e) (collector.cycle_start st) in
  (due = true
   <-> collector.seconds_per_cycle c * 1000000
       <= datetime.diff_microseconds (collector.now e) (collector.cycle_start st))
  /\ match (collector.resolve c e st).2 with
     | None =>
         collector.cycle_start st' = collector.cycle_start st
         /\ collector.json_path st' = collector.json_path st
         /\ (forall j p, ~ In (collector.PlotDay j p) log)
         /\ collector.ended log = false
     | Some s =>
         if due then
           (forall j p, In (collector.PlotDay j p) log <->
                        collector.store_plots c = true
                        /\ j = collector.json_path st
                        /\ p = collector.plot_path (collector.cycle_start st) "")
           /\ match (collector.hand_over c e st (collector.sample c e s st fs).2).2 with
              | Return _ =>
                  collector.cycle_start st' = collector.rotate_clock e
                  /\ collector.json_path st' = collector.segment_path (collector.rotate_clock e)
                  /\ collector.ended log = false
              | Raise x =>
                  collector.cycle_start st' = collector.cycle_start st
                  /\ collector.json_path st' = collector.json_path st
                  /\ List.last log (collector.Sleep 0) = collector.Traceback x
              end
         else
           collector.cycle_start st' = collector.cycle_start st
           /\ collector.json_path st' = collector.json_path st
           /\ (forall j p, ~ In (collector.PlotDay j p) log)
           /\ collector.ended log = false
     end.
Proof.
  intros _ Hint _ log st' due.
  assert ((collector.interval_seconds c <? 0) = false) as Hsl by lia.
  split; [unfold due; unfold collector.should_rotate, datetime.elapsed_at_least; apply Z.leb_le|].
  set (r := (collector.resolve c e st).2).
  assert ((collector.resolve c e st).2 = r) as Hres by done. clearbody r.
  destruct r as [s|].
  - pose proof (tick_resolved c e st fs s Hres) as Ht. cbv zeta in Ht.
    pose proof (sample_no_plot c e s st fs) as H1.
    pose proof (rotate_spec c e st (collector.sample c e s st fs).1.2
                  (collector.sample c e s st fs).2) as H2. cbv zeta in H2. fold due in H2.
    pose proof (hand_over_spec c e st (collector.sample c e s st fs).2) as H3.
    set (smp := collector.sample c e s st fs) in *.
    set (rot := collector.rotate c e st smp.1.2 smp.2) in *.
    destruct due.
    + destruct H2 as (_ & Hplot & Hst).
      assert (forall l j p,
                ~ In (collector.PlotDay j p) l ->
                (In (collector.PlotDay j p)
                    ((collector.resolve c e st).1 ++ smp.1.1 ++ rot.1.1 ++ l)
                 <-> collector.store_plots c = true
                     /\ j = collector.json_path st
                     /\ p = collector.plot_path (collector.cycle_start st) "")) as Hlog.
      { intros l j p Hl. rewrite <- H3, <- Hplot, !in_app_iff. split; [|tauto].
        intros [H|[H|[H|H]]]; try done; exfalso.
        - by eapply resolve_no_plot.
        - by eapply H1. }
      destruct (collector.hand_over c e st smp.2).2 as [[]|x]; simpl in Hst;
        unfold log, st'; rewrite Ht, Hst.
      * split; [intros j p; apply Hlog, sleep_no_plot|].
        split; [done|]. split; [done|]. simpl. by rewrite !app_assoc, ended_sleep.
      * split; [intros j p; apply Hlog; by intros [?|[]]|].
        split; [done|]. split; [done|]. simpl. by rewrite !app_assoc, last_snoc.
    + unfold log, st'. rewrite Ht, H2. simpl. split; [done|]. split; [done|]. split.
      * intros j p. rewrite !in_app_iff. intros [H|[H|H]].
        -- by eapply resolve_no_plot.
        -- by eapply H1.
        -- by eapply sleep_no_plot.
      * by rewrite !app_assoc, ended_sleep.
  - unfold log, st'. rewrite (tick_unresolved c e st fs Hres). simpl.
    split; [done|]. split; [done|]. split.
    + intros j p. rewrite in_app_iff. simpl. intros [H|[H|H]].
      * by eapply resolve_no_plot.
      * discriminate H.
      * by eapply sleep_no_plot.
    + change (?a ++ ?x :: ?l) with (a ++ [x] ++ l). by rewrite !app_assoc, ended_sleep.
Qed.

(** The iteration at 10:00:05 of the hourly cycle begun at 09:00:00: the
    new cycle starts at the clock read after the sample. *)
Lemma tick_rotation_witness :
  collector.cycle_start
    (collector.tick Examples.hourly Examples.after_the_hour Examples.running
       Examples.scenario_store).1.2 = Examples.at_time 10 0 6
  /\ collector.ended
       (collector.tick Examples.hourly Examples.after_the_hour Examples.running
          Examples.scenario_store).1.1 = false.
Proof.
  assert (0 <= collector.seconds_per_cycle Examples.hourly < 2 ^ 33) as H1
    by (simpl; lia).
  assert (0 <= collector.interval_seconds Examples.hourly < 2 ^ 32) as H2
    by (simpl; lia).
  assert (1000 <= datetime.year (collector.rotate_clock Examples.after_the_hour)) as H3
    by (simpl; lia).
  destruct (tick_rotation Examples.hourly Examples.after_the_hour Examples.running
              Examples.scenario_store H1 H2 H3) as [_ H].
  change (collector.resolve Examples.hourly Examples.after_the_hour Examples.running).2
    with (Some Examples.zero_sensor) in H.
  change (collector.should_rotate Examples.hourly (collector.now Examples.after_the_hour)
            (collector.cycle_start Examples.running)) with true in H.
  cbv iota in H.
  rewrite (hand_over_off Examples.hourly) in H by reflexivity.
  destruct H as (_ & Hcs & _ & Hend). split; [exact Hcs | exact Hend].
Defined.

(** C5 as stated fails.  With plots not stored, an iteration that finds the
    cycle elapsed hands nothing over and restarts the cycle at the clock
    read after the sample, not at its [now]. *)
Lemma tick_rotation_not_as_stated :
  ~ (forall c e st fs,
        let '(log, st', _) := collector.tick c e st fs in
        (collector.should_rotate c (collector.now e) (collector.cycle_start st) = true ->
         In (collector.PlotDay (collector.json_path st)
               (collector.plot_path (collector.cycle_start st) "")) log
         /\ collector.cycle_start st' = collector.now e
         /\ collector.json_path st' = collector.segment_path (collector.cycle_start st'))
        /\ (collector.should_rotate c (collector.now e) (collector.cycle_start st) = false ->
            collector.cycle_start st' = collector.cycle_start st
            /\ collector.json_path st' = collector.json_path st)).
Proof.
  intros H.
  specialize (H Examples.hourly Examples.after_the_hour Examples.running
                Examples.scenario_store).
  destruct (collector.tick _ _ _ _) as [[log st'] fs'] eqn:E.
  assert (collector.cycle_start st' = Examples.at_time 10 0 6) as Hcs.
  { change st' with ((log, st', fs').1.2). rewrite <- E. vm_compute. reflexivity. }
  destruct H as [H _]. destruct (H eq_refl) as (_ & Hnow & _).
  rewrite Hcs in Hnow. discriminate Hnow.
Qed.

(** The rule at its boundary, an iteration without a sensor, a rotation
    with plots stored, and one that [plot_day] ends: the segment holds a
    number. *)
Example tick_examples :
  collector.should_rotate Examples.hourly (Examples.at_time 10 0 0) (Examples.at_time 9 0 0)
  = true
  /\ collector.should_rotate Examples.hourly (datetime.mk 2025 11 20 9 59 59 999999)
       (Examples.at_time 9 0 0) = false
  /\ (collector.tick Examples.hourly Examples.after_the_hour Examples.searching
        Examples.scenario_store).1.2 = Examples.searching
  /\ In (collector.PlotDay (collector.segment_path (Examples.at_time 9 0 0))
           (collector.plot_path (Examples.at_time 9 0 0) ""))
        (collector.tick Examples.plotting_hourly
           Examples.after_the_hour Examples.running Examples.scenario_store).1.1
  /\ List.last
       (collector.tick Examples.plotting_hourly
          Examples.after_the_hour Examples.running Examples.number_store).1.1
       (collector.Sleep 0) = collector.Traceback TypeError
  /\ collector.cycle_start
       (collector.tick Examples.plotting_hourly
          Examples.after_the_hour Examples.running Examples.number_store).1.2
     = Examples.at_time 9 0 0.
Proof.
  split; [reflexivity|]. split; [reflexivity|]. split; [vm_compute; reflexivity|].
  split; [vm_compute; tauto|]. split; vm_compute; reflexivity.
Qed.


(** * The calendar *)

Lemma days_before_year_succ y :
  datetime.days_before_year (y + 1)
  = datetime.days_before_year y + 365 + (if datetime.is_leap y then 1 else 0).
Proof.
  unfold datetime.days_before_year, datetime.is_leap. cbv zeta.
  replace (y + 1 - 1) with y by lia.
  destruct (Z.eqb_spec (y mod 4) 0), (Z.eqb_spec (y mod 100) 0), (Z.eqb_spec (y mod 400) 0);
    simpl; Z.div_mod_to_equations; lia.
Qed.

Lemma days_in_month_bounds y m : 28 <= datetime.days_in_month y m <= 31.
Proof.
  unfold datetime.days_in_month.
  repeat match goal with |- context [if ?b then _ else _] => destruct b end; lia.
Qed.

Lemma days_before_month_succ y m :
  1 <= m < 12 ->
  datetime.days_before_month y (m + 1)
  = datetime.days_before_month y m + datetime.days_in_month y m.
Proof.
  intros Hm. unfold datetime.days_before_month, datetime.days_in_month.
  assert (m = 1 \/ m = 2 \/ m = 3 \/ m = 4 \/ m = 5 \/ m = 6 \/ m = 7 \/ m = 8
          \/ m = 9 \/ m = 10 \/ m = 11) as H by lia.
  repeat (destruct H as [H|H]); subst m; simpl; destruct (datetime.is_leap y); reflexivity.
Qed.

Lemma valid_date_bounds d :
  datetime.valid_date d = true ->
  1 <= datetime.dyear d <= 9999 /\ 1 <= datetime.dmonth d <= 12
  /\ 1 <= datetime.dday d <= datetime.days_in_month (datetime.dyear d) (datetime.dmonth d).
Proof.
  unfold datetime.valid_date, datetime.MINYEAR, datetime.MAXYEAR.
  rewrite !andb_true_iff. lia.
Qed.

Lemma valid_date_intro y m d :
  1 <= y <= 9999 -> 1 <= m <= 12 -> 1 <= d <= datetime.days_in_month y m ->
  datetime.valid_date (datetime.mkdate y m d) = true.
Proof.
  intros. unfold datetime.valid_date, datetime.MINYEAR, datetime.MAXYEAR. simpl.
  rewrite !andb_true_iff. lia.
Qed.

(** The day before a valid date is a valid date, one day earlier in the
    count of days. *)
Lemma date_pred_spec d d' :
  datetime.valid_date d = true -> datetime.date_pred d = Some d' ->
  datetime.valid_date d' = true /\ datetime.toordinal d' = datetime.toordinal d - 1.
Proof.
  intros Hv%valid_date_bounds. destruct d as [y m dd]. simpl in Hv.
  destruct Hv as (Hy & Hm & Hd).
  unfold datetime.date_pred, datetime.toordinal, datetime.MINYEAR. simpl.
  destruct (Z.ltb_spec 1 dd).
  { intros [= <-]. simpl. split; [apply valid_date_intro; lia | lia]. }
  destruct (Z.ltb_spec 1 m).
  { intros [= <-]. simpl. pose proof (days_in_month_bounds y (m - 1)).
    split; [apply valid_date_intro; lia|].
    pose proof (days_before_month_succ y (m - 1) ltac:(lia)) as E.
    replace (m - 1 + 1) with m in E by lia. lia. }
  destruct (Z.ltb_spec 1 y); [|discriminate].
  intros [= <-]. simpl.
  split; [apply valid_date_intro; [lia | lia | unfold datetime.days_in_month; simpl; lia]|].
  assert (m = 1) by lia. assert (dd = 1) by lia. subst.
  pose proof (days_before_year_succ (y - 1)) as E.
  replace (y - 1 + 1) with y in E by lia.
  unfold datetime.days_before_month. simpl.
  destruct (datetime.is_leap (y - 1)), (datetime.is_leap y); simpl; lia.
Qed.

Lemma date_pred_first d :
  datetime.valid_date d = true ->
  (datetime.date_pred d = None <-> d = datetime.mkdate 1 1 1).
Proof.
  intros Hv%valid_date_bounds. destruct d as [y m dd]. simpl in Hv.
  unfold datetime.date_pred, datetime.MINYEAR. simpl.
  destruct (Z.ltb_spec 1 dd), (Z.ltb_spec 1 m), (Z.ltb_spec 1 y);
    (split; [try discriminate | intros [= -> -> ->]; try lia; try done]).
  intros _. f_equal; lia.
Qed.

Lemma date_back_spec n : forall d d',
  datetime.valid_date d = true -> datetime.date_back n d = Some d' ->
  datetime.valid_date d' = true
  /\ datetime.toordinal d' = datetime.toordinal d - Z.of_nat n.
Proof.
  induction n as [|n IH]; intros d d' Hv; simpl.
  - intros [= <-]. split; [done | lia].
  - destruct (datetime.date_pred d) as [d1|] eqn:E; [|discriminate]. intros Hb.
    destruct (date_pred_spec _ _ Hv E) as [Hv1 Ho1].
    destruct (IH _ _ Hv1 Hb) as [Hv' Ho']. split; [done | lia].
Qed.

Lemma toordinal_first : datetime.toordinal (datetime.mkdate 1 1 1) = 1.
Proof. reflexivity. Qed.

Lemma DAYS_BEFORE_MONTH_bounds m : 0 <= datetime.DAYS_BEFORE_MONTH m <= 334.
Proof.
  destruct m as [|p|p]; simpl; try lia.
  do 4 (destruct p as [p|p|]; simpl; try lia).
Qed.

(** A valid date is at least the first day. *)
Lemma toordinal_pos d : datetime.valid_date d = true -> 1 <= datetime.toordinal d.
Proof.
  intros Hv. pose proof (valid_date_bounds d Hv) as (Hy & Hm & Hd).
  unfold datetime.toordinal.
  assert (0 <= datetime.days_before_year (datetime.dyear d)).
  { unfold datetime.days_before_year. cbv zeta. Z.div_mod_to_equations. lia. }
  assert (0 <= datetime.days_before_month (datetime.dyear d) (datetime.dmonth d)).
  { unfold datetime.days_before_month.
    pose proof (DAYS_BEFORE_MONTH_bounds (datetime.dmonth d)).
    destruct (_ && _); lia. }
  lia.
Qed.


Lemma days_before_year_mono y n :
  datetime.days_before_year y + 365 * Z.of_nat n <= datetime.days_before_year (y + Z.of_nat n).
Proof.
  induction n as [|n IH]; [replace (y + Z.of_nat 0) with y by lia; lia|].
  rewrite Nat2Z.inj_succ. replace (y + Z.succ (Z.of_nat n)) with (y + Z.of_nat n + 1) by lia.
  rewrite days_before_year_succ. destruct (datetime.is_leap _); lia.
Qed.

Lemma days_before_month_mono y m n :
  1 <= m -> m + Z.of_nat n <= 12 ->
  datetime.days_before_month y m + 28 * Z.of_nat n
  <= datetime.days_before_month y (m + Z.of_nat n).
Proof.
  intros Hm. induction n as [|n IH]; intros Hn.
  - replace (m + Z.of_nat 0) with m by lia. lia.
  - rewrite Nat2Z.inj_succ in *.
    replace (m + Z.succ (Z.of_nat n)) with (m + Z.of_nat n + 1) by lia.
    rewrite days_before_month_succ by lia.
    pose proof (days_in_month_bounds y (m + Z.of_nat n)). lia.
Qed.

Lemma days_before_month_last y : 
  datetime.days_before_month y 12 + 31 = 365 + (if datetime.is_leap y then 1 else 0).
Proof. unfold datetime.days_before_month. simpl. destruct (datetime.is_leap y); lia. Qed.

(** The day of the year of a valid date is within the year. *)
Lemma day_of_year_bounds d :
  datetime.valid_date d = true ->
  1 <= datetime.days_before_month (datetime.dyear d) (datetime.dmonth d) + datetime.dday d
    <= 365 + (if datetime.is_leap (datetime.dyear d) then 1 else 0).
Proof.
  intros Hv. pose proof (valid_date_bounds d Hv) as (Hy & Hm & Hd).
  pose proof (days_before_month_mono (datetime.dyear d) (datetime.dmonth d)
                (Z.to_nat (12 - datetime.dmonth d)) ltac:(lia) ltac:(lia)) as H.
  replace (datetime.dmonth d + Z.of_nat (Z.to_nat (12 - datetime.dmonth d))) with 12 in H by lia.
  pose proof (days_before_month_last (datetime.dyear d)).
  pose proof (days_in_month_bounds (datetime.dyear d) (datetime.dmonth d)).
  pose proof (DAYS_BEFORE_MONTH_bounds (datetime.dmonth d)).
  assert (0 <= datetime.days_before_month (datetime.dyear d) (datetime.dmonth d)).
  { unfold datetime.days_before_month. destruct (_ && _); lia. }
  split; [lia|].
  destruct (Z.eq_dec (datetime.dmonth d) 12) as [E|E].
  - rewrite E in *. lia.
  - pose proof (days_before_month_succ (datetime.dyear d) (datetime.dmonth d) ltac:(lia)).
    pose proof (days_before_month_mono (datetime.dyear d) (datetime.dmonth d + 1)
                  (Z.to_nat (11 - datetime.dmonth d)) ltac:(lia) ltac:(lia)) as H'.
    replace (datetime.dmonth d + 1 + Z.of_nat (Z.to_nat (11 - datetime.dmonth d)))
      with 12 in H' by lia.
    lia.
Qed.

(** The count of days follows the order of the dates. *)
Lemma toordinal_compare a b :
  datetime.valid_date a = true -> datetime.valid_date b = true ->
  datetime.date_compare a b = (datetime.toordinal a ?= datetime.toordinal b).
Proof.
  intros Ha Hb.
  pose proof (valid_date_bounds a Ha) as (Hya & Hma & Hda).
  pose proof (valid_date_bounds b Hb) as (Hyb & Hmb & Hdb).
  pose proof (day_of_year_bounds a Ha) as Hja. pose proof (day_of_year_bounds b Hb) as Hjb.
  assert (forall x y : datetime.date,
            datetime.valid_date x = true -> datetime.valid_date y = true ->
            datetime.dyear x < datetime.dyear y ->
            datetime.toordinal x < datetime.toordinal y) as Hyear.
  { intros x y Hx Hy Hlt. pose proof (day_of_year_bounds x Hx). pose proof (day_of_year_bounds y Hy).
    pose proof (days_before_year_succ (datetime.dyear x)).
    pose proof (days_before_year_mono (datetime.dyear x + 1)
                  (Z.to_nat (datetime.dyear y - datetime.dyear x - 1))) as Hm.
    replace (datetime.dyear x + 1 + Z.of_nat (Z.to_nat (datetime.dyear y - datetime.dyear x - 1)))
      with (datetime.dyear y) in Hm by lia.
    unfold datetime.toordinal. lia. }
  assert (forall x y : datetime.date,
            datetime.valid_date x = true -> datetime.valid_date y = true ->
            datetime.dyear x = datetime.dyear y -> datetime.dmonth x < datetime.dmonth y ->
            datetime.toordinal x < datetime.toordinal y) as Hmonth.
  { intros x y Hx Hy Heq Hlt.
    pose proof (valid_date_bounds x Hx) as (? & ? & ?).
    pose proof (valid_date_bounds y Hy) as (? & ? & ?).
    pose proof (days_before_month_succ (datetime.dyear x) (datetime.dmonth x) ltac:(lia)).
    pose proof (days_before_month_mono (datetime.dyear x) (datetime.dmonth x + 1)
                  (Z.to_nat (datetime.dmonth y - datetime.dmonth x - 1))
                  ltac:(lia) ltac:(lia)) as Hm.
    replace (datetime.dmonth x + 1 + Z.of_nat (Z.to_nat (datetime.dmonth y - datetime.dmonth x - 1)))
      with (datetime.dmonth y) in Hm by lia.
    unfold datetime.toordinal. rewrite <- Heq. lia. }
  unfold datetime.date_compare, datetime.date_fields, datetime.lex.
  destruct (Z.compare_spec (datetime.dyear a) (datetime.dyear b)) as [Ey|Ly|Ly].
  - destruct (Z.compare_spec (datetime.dmonth a) (datetime.dmonth b)) as [Em|Lm|Lm].
    + unfold datetime.toordinal. rewrite Ey, Em.
      destruct (Z.compare_spec (datetime.dday a) (datetime.dday b));
        symmetry; [apply Z.compare_eq_iff | apply Z.compare_lt_iff | apply Z.compare_gt_iff];
        lia.
    + symmetry. apply Z.compare_lt_iff. by apply Hmonth.
    + symmetry. apply Z.compare_gt_iff. by apply Hmonth.
  - symmetry. apply Z.compare_lt_iff. by apply Hyear.
  - symmetry. apply Z.compare_gt_iff. by apply Hyear.
Qed.

Lemma second_of_day_compare x y :
  datetime.valid x = true -> datetime.valid y = true ->
  datetime.lex [datetime.hour x; datetime.minute x; datetime.second x; datetime.microsecond x]
               [datetime.hour y; datetime.minute y; datetime.second y; datetime.microsecond y]
  = (datetime.second_of_day x * 1000000 + datetime.microsecond x
     ?= datetime.second_of_day y * 1000000 + datetime.microsecond y).
Proof.
  intros Hx Hy. pose proof (valid_bounds x Hx). pose proof (valid_bounds y Hy).
  unfold datetime.second_of_day, datetime.lex.
  repeat match goal with
         | |- context [match ?a ?= ?b with _ => _ end] => destruct (Z.compare_spec a b)
         end;
    symmetry; first [apply Z.compare_eq_iff | apply Z.compare_lt_iff | apply Z.compare_gt_iff];
    lia.
Qed.

Lemma lex_app l1 : forall l2 l1' l2',
  List.length l1 = List.length l2 ->
  datetime.lex (l1 ++ l1') (l2 ++ l2')
  = match datetime.lex l1 l2 with
    | Eq => datetime.lex l1' l2'
    | r => r
    end.
Proof.
  induction l1 as [|a l1 IH]; intros [|b l2] l1' l2' Hlen; try discriminate; [done|].
  simpl. destruct (a ?= b); try done. apply IH. by injection Hlen.
Qed.

(** The order of two valid datetimes is the sign of their difference. *)
Lemma compare_diff x y :
  datetime.valid x = true -> datetime.valid y = true ->
  datetime.compare x y = (0 ?= datetime.diff_microseconds y x).
Proof.
  intros Hx Hy.
  assert (datetime.valid_date (datetime.get_date x) = true) as Hdx.
  { unfold datetime.valid in Hx. rewrite !andb_true_iff in Hx. tauto. }
  assert (datetime.valid_date (datetime.get_date y) = true) as Hdy.
  { unfold datetime.valid in Hy. rewrite !andb_true_iff in Hy. tauto. }
  pose proof (toordinal_compare _ _ Hdx Hdy) as Hd.
  pose proof (second_of_day_compare x y Hx Hy) as Ht.
  pose proof (second_of_day_bounds x Hx). pose proof (second_of_day_bounds y Hy).
  pose proof (valid_bounds x Hx). pose proof (valid_bounds y Hy).
  unfold datetime.compare, datetime.fields.
  change (datetime.lex ?l1 ?l2)
    with (datetime.lex
            (datetime.date_fields (datetime.get_date x)
             ++ [datetime.hour x; datetime.minute x; datetime.second x; datetime.microsecond x])
            (datetime.date_fields (datetime.get_date y)
             ++ [datetime.hour y; datetime.minute y; datetime.second y; datetime.microsecond y])).
  rewrite lex_app by done.
  change (datetime.lex (datetime.date_fields ?a) (datetime.date_fields ?b))
    with (datetime.date_compare a b).
  rewrite Hd, Ht. unfold datetime.diff_microseconds.
  destruct (Z.compare_spec (datetime.toordinal (datetime.get_date x))
              (datetime.toordinal (datetime.get_date y)));
    [destruct (Z.compare_spec
                 (datetime.second_of_day x * 1000000 + datetime.microsecond x)
                 (datetime.second_of_day y * 1000000 + datetime.microsecond y))|..];
    symmetry; first [apply Z.compare_eq_iff | apply Z.compare_lt_iff | apply Z.compare_gt_iff];
    nia.
Qed.

Lemma leb_diff x y :
  datetime.valid x = true -> datetime.valid y = true ->
  (datetime.leb x y = true <-> 0 <= datetime.diff_microseconds y x).
Proof.
  intros Hx Hy. unfold datetime.leb. rewrite compare_diff by done.
  destruct (Z.compare_spec 0 (datetime.diff_microseconds y x)); split; try done; lia.
Qed.


Lemma valid_get_date x : datetime.valid x = true -> datetime.valid_date (datetime.get_date x) = true.
Proof. unfold datetime.valid. rewrite !andb_true_iff. tauto. Qed.

(** [x - delta], when it exists, is a valid datetime exactly [delta]
    before [x]. *)
Lemma sub_spec x delta y :
  datetime.valid x = true ->
  0 <= datetime.td_days delta -> 0 <= datetime.td_hours delta ->
  datetime.sub x delta = Return y ->
  datetime.valid y = true
  /\ datetime.diff_microseconds x y
     = (datetime.td_days delta * 86400 + datetime.td_hours delta * 3600) * 1000000.
Proof.
  intros Hv Hd Hh. pose proof (second_of_day_bounds x Hv) as Hs.
  pose proof (valid_bounds x Hv) as Hb. pose proof (valid_get_date x Hv) as Hvd.
  unfold datetime.sub.
  set (s := datetime.second_of_day x - datetime.td_hours delta * 3600).
  destruct (datetime.date_back _ _) as [d|] eqn:Hback; [|discriminate].
  intros [= <-].
  destruct (date_back_spec _ _ _ Hvd Hback) as [Hvd' Hord].
  assert (s / 86400 <= 0) as Hq by (unfold s; Z.div_mod_to_equations; lia).
  rewrite Z2Nat.id in Hord by lia.
  pose proof (Z.mod_pos_bound s 86400 ltac:(lia)) as Hr.
  pose proof (Z.div_mod s 86400 ltac:(lia)) as Hdm.
  assert (s = datetime.second_of_day x - datetime.td_hours delta * 3600) as Es by done.
  set (q := s / 86400) in *. set (r := s mod 86400) in *.
  assert (0 <= r / 3600 < 24 /\ 0 <= r mod 3600 / 60 < 60 /\ 0 <= r mod 60 < 60
          /\ r / 3600 * 3600 + r mod 3600 / 60 * 60 + r mod 60 = r) as (H1 & H2 & H3 & H4).
  { clearbody r. Z.div_mod_to_equations. lia. }
  clearbody r q s.
  destruct d as [dy dm dd]. cbn [datetime.dyear datetime.dmonth datetime.dday] in *.
  split.
  - unfold datetime.valid.
    change (datetime.get_date (datetime.mk dy dm dd _ _ _ _)) with (datetime.mkdate dy dm dd).
    rewrite Hvd'. simpl. rewrite !andb_true_iff, !Z.leb_le, !Z.ltb_lt. lia.
  - unfold datetime.diff_microseconds.
    change (datetime.get_date (datetime.mk dy dm dd _ _ _ _)) with (datetime.mkdate dy dm dd).
    rewrite Hord. unfold datetime.second_of_day at 2. simpl. rewrite H4. lia.
Qed.

(** [x - delta] exists as long as it does not precede the first day. *)
Lemma date_back_Some n : forall d,
  datetime.valid_date d = true -> Z.of_nat n < datetime.toordinal d ->
  exists d', datetime.date_back n d = Some d'.
Proof.
  induction n as [|n IH]; intros d Hv Hn; simpl; [by eauto|].
  destruct (datetime.date_pred d) as [d1|] eqn:E.
  - destruct (date_pred_spec _ _ Hv E) as [Hv1 Ho1]. apply IH; [done | lia].
  - apply date_pred_first in E; [|done]. subst d. rewrite toordinal_first in Hn. lia.
Qed.


(** * The store, call after call *)

(** The directory a path lies in, as the file system has it ([∅] when it
    is not there yet). *)
Lemma fs_lookup_dir fs p :
  fs_lookup fs p = default ∅ (fs !! dir_of p) !! bname p.
Proof. unfold fs_lookup. by destruct (fs !! dir_of p). Qed.

Lemma makedirs_lookup fs p :
  dname p <> "" ->
  collector.makedirs (dname p) fs !! dir_of p = Some (default ∅ (fs !! dir_of p)).
Proof.
  intros Hd. unfold dir_of. destruct (String.eqb_spec (dname p) ""); [done|].
  unfold collector.makedirs. destruct (fs !! dname p) as [dir|] eqn:E; simpl.
  - done.
  - by rewrite lookup_insert_eq.
Qed.

(** When [atomic_write_json] returns, the file system is the one it
    started from with the complete dump at [p], and nothing else changed:
    the temporary file is gone. *)
Lemma atomic_write_json_final names chunks p data fs steps :
  Str.startswith (bname p) collector.TMP_PREFIX = false ->
  collector.atomic_write_json names chunks p data fs = (steps, Return tt) ->
  collector.after fs steps
  = <[dir_of p := <[bname p := Dumped data]> (default ∅ (fs !! dir_of p))]> fs.
Proof.
  intros Hp. unfold collector.atomic_write_json.
  set (fs1 := if String.eqb (dname p) "" then fs else collector.makedirs (dname p) fs).
  destruct (collector.mkstemp (dir_of p) names fs1) as [tmp|e] eqn:Hmk; [|discriminate].
  apply mkstemp_Return in Hmk as (dir & Hdir & Hfree & Htmp).
  assert (tmp <> bname p) as Hne by (intros ->; congruence).
  assert (dir = default ∅ (fs !! dir_of p)
          /\ forall X : directory, <[dir_of p := X]> fs1 = <[dir_of p := X]> fs) as [Edir Hins].
  { unfold fs1 in *. destruct (String.eqb_spec (dname p) "") as [E|E].
    - rewrite Hdir. done.
    - rewrite makedirs_lookup in Hdir by done. injection Hdir as <-. split; [done|].
      intros X. unfold collector.makedirs, dir_of.
      destruct (String.eqb_spec (dname p) ""); [done|].
      destruct (fs !! dname p); [done|]. by rewrite insert_insert_eq. }
  set (closed := collector.write_file (dir_of p) tmp (Dumped data) fs1).
  set (moved := collector.move (dir_of p) tmp (bname p) closed).
  assert (moved = <[dir_of p := <[bname p := Dumped data]> dir]> fs) as Hmoved.
  { unfold moved, collector.move, closed, collector.write_file.
    rewrite Hdir, !lookup_insert_eq, insert_insert_eq, Hins.
    by rewrite delete_insert_id. }
  assert (collector.exists_in (dir_of p) tmp moved = false) as Hex.
  { rewrite Hmoved. unfold collector.exists_in. rewrite lookup_insert_eq.
    apply bool_decide_eq_false. rewrite lookup_insert_ne, Hfree by done. by intros [? ?]. }
  rewrite Hex. intros [= <-]. unfold collector.after.
  change (?a :: ?b :: ?l) with ([a; b] ++ l).
  rewrite !List.app_assoc.
  change [closed; moved; moved] with ([closed; moved] ++ [moved]).
  rewrite List.app_assoc, last_last. by rewrite Hmoved, Edir.
Qed.

(** [atomic_write_json] returns as soon as the directory is there or can
    be made and one of the random names is free. *)
Lemma atomic_write_json_returns names chunks p data fs n :
  dname p <> "" \/ is_Some (fs !! ".") ->
  In n names -> default ∅ (fs !! dir_of p) !! (collector.TMP_PREFIX +:+ n) = None ->
  exists steps, collector.atomic_write_json names chunks p data fs = (steps, Return tt).
Proof.
  intros Hd Hn Hfree. unfold collector.atomic_write_json.
  set (fs1 := if String.eqb (dname p) "" then fs else collector.makedirs (dname p) fs).
  assert (fs1 !! dir_of p = Some (default ∅ (fs !! dir_of p))) as Hdir.
  { unfold fs1. destruct (String.eqb_spec (dname p) "") as [E|E].
    - destruct Hd as [?|[dir Hdir]]; [done|]. unfold dir_of.
      rewrite E. simpl. by rewrite Hdir.
    - by apply makedirs_lookup. }
  destruct (mkstemp_free _ names _ _ n Hdir Hn Hfree) as [tmp ->]. eauto.
Qed.

(** [append_reading] returns as soon as what the segment holds, if
    anything that parses, is a list, and [atomic_write_json] can work; the
    segment then holds the old list with the reading appended and every
    other file is as it was. *)
Lemma append_reading_returns names chunks p reading fs old n :
  Str.startswith (bname p) "sensor_" = true ->
  (collector.load_payload fs p).2 = JArray old ->
  dname p <> "" \/ is_Some (fs !! ".") ->
  In n names -> default ∅ (fs !! dir_of p) !! (collector.TMP_PREFIX +:+ n) = None ->
  exists steps,
    collector.append_reading names chunks p reading fs
    = ((collector.load_payload fs p).1, steps, Return tt)
    /\ collector.after fs steps
       = <[dir_of p := <[bname p := Dumped (JArray (old ++ [reading]))]>
                         (default ∅ (fs !! dir_of p))]> fs.
Proof.
  intros Hp%segment_not_tmp Hold Hd Hn Hfree. unfold collector.append_reading.
  destruct (collector.load_payload fs p) as [log payload]. simpl in Hold. subst payload.
  simpl.
  destruct (atomic_write_json_returns names chunks p (JArray (old ++ [reading])) fs n
              Hd Hn Hfree) as [steps Hw].
  rewrite Hw. exists steps. split; [done|]. by eapply atomic_write_json_final.
Qed.


Lemma load_payload_absent fs p :
  fs_lookup fs p = None -> collector.load_payload fs p = ([], JArray []).
Proof. intros H. unfold collector.load_payload. by rewrite H. Qed.

Lemma load_payload_list fs p l :
  fs_lookup fs p = Some (Dumped (JArray l)) -> collector.load_payload fs p = ([], JArray l).
Proof. intros H. unfold collector.load_payload. by rewrite H. Qed.

Lemma append_reading_Return names chunks p reading fs log steps :
  collector.append_reading names chunks p reading fs = (log, steps, Return tt) ->
  exists old, (collector.load_payload fs p).2 = JArray old
              /\ collector.atomic_write_json names chunks p (JArray (old ++ [reading])) fs
                 = (steps, Return tt).
Proof.
  unfold collector.append_reading.
  destruct (collector.load_payload fs p) as [log0 payload]. simpl.
  destruct payload as [| | | | |old|]; simpl; try discriminate.
  destruct (collector.atomic_write_json _ _ _ _ _) as [steps' r'] eqn:Hw.
  intros [= <- <- ->]. by exists old.
Qed.

(** X1.  When [append_reading] on a segment returns, every file other
    than the segment is as it was before the call; in particular no
    temporary file is left in the directory. *)
Theorem append_reading_leaves_nothing_behind names chunks p reading fs log steps :
  Str.startswith (bname p) "sensor_" = true ->
  collector.append_reading names chunks p reading fs = (log, steps, Return tt) ->
  forall q, dir_of q <> dir_of p \/ bname q <> bname p ->
            fs_lookup (collector.after fs steps) q = fs_lookup fs q.
Proof.
  intros Hp%segment_not_tmp (old & _ & Hw)%append_reading_Return q Hq.
  rewrite (atomic_write_json_final _ _ _ _ _ _ Hp Hw), !fs_lookup_dir.
  destruct (decide (dir_of p = dir_of q)) as [E|E].
  - rewrite E, lookup_insert_eq. simpl. rewrite <- E.
    destruct Hq as [?|?]; [congruence|]. by rewrite lookup_insert_ne.
  - by rewrite lookup_insert_ne.
Qed.

(** The scenario store, a fourth reading appended: a name shaped like a
    temporary file is as free afterwards as it was before. *)
Lemma append_reading_leaves_nothing_behind_witness :
  let res := collector.append_reading ["k3x9qv_a"] 3 Examples.segment Examples.r4
               Examples.scenario_store in
  res.2 = Return tt
  /\ fs_lookup (collector.after Examples.scenario_store res.1.2)
       (mkpath "data" ".tmp_json_k3x9qv_a")
     = fs_lookup Examples.scenario_store (mkpath "data" ".tmp_json_k3x9qv_a").
Proof.
  intros res. assert (res.2 = Return tt) as Hr by (vm_compute; reflexivity).
  split; [exact Hr|].
  apply (append_reading_leaves_nothing_behind ["k3x9qv_a"] 3 Examples.segment Examples.r4
           Examples.scenario_store res.1.1 res.1.2 eq_refl (triple_eta_returned res _ Hr)).
  right. discriminate.
Defined.

(** X2.  The first append of a store: when the directory of the segment
    does not exist, [append_reading] makes it, logs nothing and returns,
    and the directory then holds the segment with the reading alone, and
    nothing else. *)
Theorem append_reading_creates_folder names chunks p reading fs n :
  Str.startswith (bname p) "sensor_" = true ->
  dname p <> "" -> fs !! dname p = None -> In n names ->
  exists steps,
    collector.append_reading names chunks p reading fs = ([], steps, Return tt)
    /\ collector.after fs steps
       = <[dname p := {[ bname p := Dumped (JArray [reading]) ]}]> fs.
Proof.
  intros Hp Hd Hnone Hn.
  assert (dir_of p = dname p) as Edir.
  { unfold dir_of. by destruct (String.eqb_spec (dname p) ""). }
  assert (fs_lookup fs p = None) as Habs by (unfold fs_lookup; by rewrite Edir, Hnone).
  destruct (append_reading_returns names chunks p reading fs [] n Hp) as (steps & Happ & Hfin).
  - by rewrite load_payload_absent.
  - by left.
  - done.
  - by rewrite Edir, Hnone.
  - exists steps. rewrite load_payload_absent in Happ by done. split; [done|].
    rewrite Hfin, Edir, Hnone. simpl. by rewrite insert_empty.
Qed.

Lemma append_reading_creates_folder_witness :
  exists steps,
    collector.append_reading ["k3x9qv_a"] 3 Examples.segment Examples.r1 ∅
    = ([], steps, Return tt)
    /\ collector.after ∅ steps
       = <[dname Examples.segment := {[ bname Examples.segment
                                          := Dumped (JArray [Examples.r1]) ]}]> ∅.
Proof.
  apply (append_reading_creates_folder ["k3x9qv_a"] 3 Examples.segment Examples.r1 ∅
           "k3x9qv_a").
  - reflexivity.
  - discriminate.
  - apply lookup_empty.
  - by left.
Defined.

(** X3.  Appends add up: after [append_reading] has been called for the
    readings [rs] in turn, on a segment whose contents were absent or
    unreadable ([old] empty) or the list [old], the segment holds [old]
    followed by [rs] in the order of the calls. *)
Theorem appends_accumulate names chunks p rs : forall fs old n,
  Str.startswith (bname p) "sensor_" = true -> dname p <> "" ->
  (collector.load_payload fs p).2 = JArray old ->
  In n names -> default ∅ (fs !! dir_of p) !! (collector.TMP_PREFIX +:+ n) = None ->
  (collector.load_payload
     (fold_left (fun fs r =>
                   collector.after fs (collector.append_reading names chunks p r fs).1.2)
                rs fs) p).2
  = JArray (old ++ rs).
Proof.
  induction rs as [|r rs IH]; intros fs old n Hp Hd Hold Hn Hfree.
  - simpl. by rewrite List.app_nil_r.
  - cbn [fold_left].
    destruct (append_reading_returns names chunks p r fs old n Hp Hold (or_introl Hd) Hn Hfree)
      as (steps & Happ & Hfin).
    rewrite Happ. cbn [fst snd]. rewrite Hfin.
    replace (old ++ r :: rs) with ((old ++ [r]) ++ rs) by (by rewrite <- List.app_assoc).
    apply (IH _ _ n); try done.
    + rewrite (load_payload_list _ _ (old ++ [r])); [done|].
      unfold fs_lookup. by rewrite !lookup_insert_eq.
    + rewrite lookup_insert_eq. simpl. rewrite lookup_insert_ne; [done|].
      intros E. apply segment_not_tmp in Hp. rewrite E in Hp.
      by rewrite startswith_tmp in Hp.
Qed.

Lemma appends_accumulate_witness :
  (collector.load_payload
     (fold_left (fun fs r =>
                   collector.after fs
                     (collector.append_reading ["k3x9qv_a"] 3 Examples.segment r fs).1.2)
                [Examples.r1; Examples.r2; Examples.r3] ∅) Examples.segment).2
  = JArray ([] ++ [Examples.r1; Examples.r2; Examples.r3]).
Proof.
  apply (appends_accumulate ["k3x9qv_a"] 3 Examples.segment
           [Examples.r1; Examples.r2; Examples.r3] ∅ [] "k3x9qv_a").
  - reflexivity.
  - discriminate.
  - reflexivity.
  - by left.
  - reflexivity.
Defined.

(** * One iteration of the loop *)

(** X4.  [find_sensor] returns the first sensor of the hub's list whose
    custom name is the one asked for, passing over the sensors that have
    another name, none, or whose name cannot be read; it returns [None]
    when there is none, and logs the exception and returns [None] when the
    hub cannot be asked. *)
Theorem find_sensor_first hub name :
  match hub with
  | Raise _ =>
      collector.find_sensor hub name
      = ([collector.LogException "Failed to fetch environment sensors from hub"], None)
  | Return sensors =>
      (collector.find_sensor hub name).1 = []
      /\ match (collector.find_sensor hub name).2 with
         | Some s =>
             exists before rest,
               sensors = before ++ s :: rest
               /\ collector.custom_name s = Return (Some name)
               /\ Forall (fun x => collector.custom_name x <> Return (Some name)) before
         | None =>
             Forall (fun x => collector.custom_name x <> Return (Some name)) sensors
         end
  end.
Proof.
  destruct hub as [sensors|e]; [|done]. split; [done|]. simpl.
  induction sensors as [|s sensors IH]; simpl; [constructor|].
  destruct (collector.custom_name s) as [[n|]|err] eqn:En.
  - destruct (String.eqb_spec n name) as [->|Hne].
    + exists [], sensors. split; [done|]. split; [done|]. constructor.
    + destruct (collector.first_named name sensors) as [s'|].
      * destruct IH as (before & rest & -> & Hn & Hb).
        exists (s :: before), rest. split; [done|]. split; [done|].
        constructor; [|done]. rewrite En. congruence.
      * constructor; [|done]. rewrite En. congruence.
  - destruct (collector.first_named name sensors) as [s'|].
    + destruct IH as (before & rest & -> & Hn & Hb).
      exists (s :: before), rest. split; [done|]. split; [done|].
      constructor; [|done]. by rewrite En.
    + constructor; [|done]. by rewrite En.
  - destruct (collector.first_named name sensors) as [s'|].
    + destruct IH as (before & rest & -> & Hn & Hb).
      exists (s :: before), rest. split; [done|]. split; [done|].
      constructor; [|done]. by rewrite En.
    + constructor; [|done]. by rewrite En.
Qed.

(** [plot_day] touches no directory but that of the plot. *)
Lemma plot_day_elsewhere d j p fs q :
  dir_of q <> dir_of p ->
  fs_lookup (collector.plot_day d j p fs).1.2 q = fs_lookup fs q.
Proof.
  intros Hq. unfold collector.plot_day.
  destruct (fs_lookup fs j) as [c|]; [|done].
  destruct (json_load c) as [data|]; [|done].
  destruct (negb (collector.truthy data)); [done|].
  destruct (iterate data) as [rows|]; [|done].
  destruct (if existsb collector.has_ts rows then d else collector.NoTimes)
    as [|infos [dir|] r]; [done| |done].
  simpl. unfold fs_lookup. by rewrite lookup_insert_ne.
Qed.

Lemma hand_over_elsewhere c e st fs q :
  dir_of q <> "plots" ->
  fs_lookup (collector.hand_over c e st fs).1.2 q = fs_lookup fs q.
Proof.
  intros Hq. unfold collector.hand_over. destruct (collector.store_plots c); [|done].
  pose proof (plot_day_elsewhere (collector.plotting e) (collector.json_path st)
                (collector.plot_path (collector.cycle_start st) "") fs q Hq) as H.
  by destruct (collector.plot_day _ _ _ _) as [[log fs'] r].
Qed.

Lemma chars_no_ts s : existsb collector.has_ts (chars s) = false.
Proof. induction s as [|a s IH]; [done|]. simpl. exact IH. Qed.

Lemma keys_no_ts (kv : list (string * json)) :
  existsb collector.has_ts (map (fun x : string * json => JString x.1) kv) = false.
Proof. induction kv as [|ky kv IH]; [done|]. simpl. exact IH. Qed.

(** [plot_day] of a file that holds JSON other than a list: nothing is
    drawn, and a number other than zero, or [true], raises. *)
Lemma plot_day_non_list d j p fs v :
  fs_lookup fs j = Some (Dumped v) -> (forall l, v <> JArray l) ->
  (collector.plot_day d j p fs).1.2 = fs
  /\ (collector.plot_day d j p fs).2
     = (if collector.truthy v && negb (bool_decide (is_Some (iterate v)))
        then Raise TypeError else Return tt).
Proof.
  intros Hv Hl. unfold collector.plot_day. rewrite Hv. simpl.
  destruct v as [|b|k|f|s|l|kv]; simpl.
  - done.
  - by destruct b.
  - by destruct (k =? 0).
  - by destruct (PrimFloat.eqb f 0).
  - destruct (String.eqb s ""); simpl; [done|]. by rewrite chars_no_ts.
  - by destruct (Hl l).
  - destruct kv as [|kx kv]; simpl; [done|]. by rewrite keys_no_ts.
Qed.

Lemma rotate_fs c e st s fs :
  (collector.rotate c e st s fs).2
  = (if collector.should_rotate c (collector.now e) (collector.cycle_start st)
     then (collector.hand_over c e st fs).1.2 else fs).
Proof.
  pose proof (rotate_spec c e st s fs) as H. cbv zeta in H.
  destruct (collector.should_rotate _ _ _); [by destruct H as [-> _] | by rewrite H].
Qed.

Lemma rotate_sensor c e st s fs st' :
  (collector.rotate c e st s fs).1.2 = Return st' -> collector.sensor st' = s.
Proof.
  pose proof (rotate_spec c e st s fs) as H. cbv zeta in H.
  destruct (collector.should_rotate _ _ _).
  - destruct H as (_ & _ & ->). destruct (collector.hand_over c e st fs).2; [|done].
    by intros [= <-].
  - rewrite H. by intros [= <-].
Qed.

Lemma tick_fs c e st fs s :
  (collector.resolve c e st).2 = Some s ->
  (collector.tick c e st fs).2
  = (collector.rotate c e st (collector.sample c e s st fs).1.2
       (collector.sample c e s st fs).2).2.
Proof.
  intros Hres. rewrite (tick_resolved c e st fs s Hres). cbv zeta.
  by destruct (collector.rotate _ _ _ _ _).1.2.
Qed.

Lemma tick_sensor_resolved c e st fs s :
  (collector.resolve c e st).2 = Some s ->
  collector.sensor (collector.tick c e st fs).1.2 = (collector.sample c e s st fs).1.2.
Proof.
  intros Hres. rewrite (tick_resolved c e st fs s Hres). cbv zeta.
  destruct (collector.rotate _ _ _ _ _).1.2 as [st'|x] eqn:E; [|done].
  by apply rotate_sensor in E.
Qed.

(** The sample on a segment that is absent, unreadable or holds a list. *)
Lemma sample_appends c e st fs s old n :
  Str.startswith (bname (collector.json_path st)) "sensor_" = true ->
  dname (collector.json_path st) <> "" ->
  (collector.load_payload fs (collector.json_path st)).2 = JArray old ->
  In n (collector.tmp_names e) ->
  default ∅ (fs !! dir_of (collector.json_path st)) !! (collector.TMP_PREFIX +:+ n) = None ->
  let s' := default s (collector.find_sensor (collector.hub_refresh e)
                         (collector.sensor_name c)).2 in
  let reading := collector.read_sensor_values (collector.read_clock e) s' in
  (collector.sample c e s st fs).1.2 = Some s'
  /\ (collector.sample c e s st fs).2
     = <[dir_of (collector.json_path st)
         := <[bname (collector.json_path st) := Dumped (JArray (old ++ [reading]))]>
              (default ∅ (fs !! dir_of (collector.json_path st)))]> fs.
Proof.
  intros Hpre Hd Hold Hn Hfree s' reading. unfold collector.sample.
  destruct (collector.find_sensor (collector.hub_refresh e) (collector.sensor_name c))
    as [log1 found] eqn:Hfind.
  assert (match found with Some x => x | None => s end = s') as Es.
  { unfold s'. by destruct found. }
  rewrite Es. fold reading.
  destruct (append_reading_returns (collector.tmp_names e) (collector.dump_chunks e)
              (collector.json_path st) reading fs old n Hpre Hold (or_introl Hd) Hn Hfree)
    as (steps & Happ & Hfin).
  rewrite Happ. cbv iota beta. simpl. by rewrite Hfin.
Qed.

(** X5.  An iteration with a sensor, on the segment named after its cycle
    start (of the year 1000 or later), absent, unreadable or holding a
    list, writes the reading it takes into the
    segment that was running when the iteration began, also when the same
    iteration then ends the cycle; it changes no other file outside the
    directory of the plots, and none at all when plots are not stored or
    the cycle goes on; and the sensor it keeps is the one the hub listed at
    that moment, or the one it held if the hub listed none. *)
Theorem tick_appends_to_running_segment c e st fs s old n :
  (collector.resolve c e st).2 = Some s ->
  1000 <= datetime.year (collector.cycle_start st) ->
  collector.json_path st = collector.segment_path (collector.cycle_start st) ->
  (collector.load_payload fs (collector.json_path st)).2 = JArray old ->
  In n (collector.tmp_names e) ->
  default ∅ (fs !! "data") !! (collector.TMP_PREFIX +:+ n) = None ->
  let s' := default s (collector.find_sensor (collector.hub_refresh e)
                         (collector.sensor_name c)).2 in
  let reading := collector.read_sensor_values (collector.read_clock e) s' in
  let written :=
    <["data" := <[bname (collector.json_path st) := Dumped (JArray (old ++ [reading]))]>
                  (default ∅ (fs !! "data"))]> fs in
  (forall q, dir_of q <> "plots" ->
             fs_lookup (collector.tick c e st fs).2 q = fs_lookup written q)
  /\ (collector.store_plots c = false
      \/ collector.should_rotate c (collector.now e) (collector.cycle_start st) = false ->
      (collector.tick c e st fs).2 = written)
  /\ collector.sensor (collector.tick c e st fs).1.2 = Some s'.
Proof.
  intros Hres _ Hpath Hold Hn Hfree s' reading written.
  destruct (sample_appends c e st fs s old n) as [Hs Hfs].
  - rewrite Hpath. apply segment_name_shape.
  - by rewrite Hpath.
  - done.
  - done.
  - by rewrite Hpath.
  - rewrite Hpath in Hfs at 1 3. change (dir_of (collector.segment_path _)) with "data" in Hfs.
    fold s' in Hs, Hfs. fold reading in Hfs. fold written in Hfs.
    rewrite (tick_fs c e st fs s Hres), (tick_sensor_resolved c e st fs s Hres).
    rewrite rotate_fs, Hfs. split; [|split; [|done]].
    + intros q Hq. destruct (collector.should_rotate _ _ _); [|done].
      by apply hand_over_elsewhere.
    + intros [Hoff|Hdue]; [|by rewrite Hdue].
      rewrite (hand_over_off c e st written Hoff). by destruct (collector.should_rotate _ _ _).
Qed.

Lemma tick_appends_to_running_segment_witness :
  (collector.tick Examples.hourly Examples.after_the_hour Examples.running
     Examples.scenario_store).2
  = <["data" := <["sensor_20251120_090000.json"
                  := Dumped (JArray ([] ++ [collector.read_sensor_values
                                              (Examples.at_time 10 0 5)
                                              Examples.zero_sensor]))]>
                  (default ∅ (Examples.scenario_store !! "data"))]> Examples.scenario_store
  /\ collector.sensor
       (collector.tick Examples.hourly Examples.after_the_hour Examples.running
          Examples.scenario_store).1.2
     = Some Examples.zero_sensor.
Proof.
  destruct (tick_appends_to_running_segment Examples.hourly Examples.after_the_hour
              Examples.running Examples.scenario_store Examples.zero_sensor []
              "k3x9qv_a" eq_refl ltac:(simpl; lia) eq_refl) as (_ & H2 & H3).
  - vm_compute. reflexivity.
  - by left.
  - vm_compute. reflexivity.
  - split; [apply H2; by left | exact H3].
Defined.

(** X6.  A segment that holds valid JSON other than a list is never
    repaired: an iteration with a sensor logs that the append failed, leaves
    the file system exactly as it was and keeps a sensor.  It then goes by
    the rotation rule, except when plots are stored and the cycle is
    complete on a segment holding [true] or a number other than zero: there
    [plot_day] raises a [TypeError] that ends the loop, the cycle as it
    was. *)
Theorem tick_keeps_non_list_segment c e st fs s v :
  0 <= collector.seconds_per_cycle c < 2 ^ 33 ->
  0 <= collector.interval_seconds c < 2 ^ 32 ->
  (collector.resolve c e st).2 = Some s ->
  fs_lookup fs (collector.json_path st) = Some (Dumped v) ->
  (forall l, v <> JArray l) ->
  let log := (collector.tick c e st fs).1.1 in
  let st' := (collector.tick c e st fs).1.2 in
  let due := collector.should_rotate c (collector.now e) (collector.cycle_start st) in
  (collector.tick c e st fs).2 = fs
  /\ In (collector.LogException "Failed to read/append sensor data") log
  /\ is_Some (collector.sensor st')
  /\ if due && collector.store_plots c && collector.truthy v
          && negb (bool_decide (is_Some (iterate v)))
     then List.last log (collector.Sleep 0) = collector.Traceback TypeError
          /\ collector.cycle_start st' = collector.cycle_start st
          /\ collector.json_path st' = collector.json_path st
     else collector.ended log = false
          /\ collector.cycle_start st'
             = (if due then collector.rotate_clock e else collector.cycle_start st).
Proof.
  intros _ Hint Hres Hv Hl log st' due.
  assert (exists log1 s',
            collector.sample c e s st fs
            = (log1 ++ [collector.LogException "Failed to read/append sensor data"],
               Some s', fs)) as (log1 & s' & Hsmp).
  { unfold collector.sample, collector.append_reading, collector.load_payload.
    destruct (collector.find_sensor _ _) as [log1 found]. rewrite Hv. simpl.
    assert (collector.append v
              (collector.read_sensor_values (collector.read_clock e)
                 match found with Some x => x | None => s end) = Raise AttributeError) as ->.
    { destruct v; try done. by destruct (Hl l). }
    exists log1. by eexists. }
  pose proof (tick_resolved c e st fs s Hres) as Ht. cbv zeta in Ht. rewrite Hsmp in Ht.
  cbn [fst snd] in Ht.
  pose proof (rotate_spec c e st (Some s') fs) as Hrot. cbv zeta in Hrot. fold due in Hrot.
  assert (collector.hand_over c e st fs
          = ((collector.hand_over c e st fs).1.1, fs,
             if collector.store_plots c && collector.truthy v
                && negb (bool_decide (is_Some (iterate v)))
             then Raise TypeError else Return tt)) as Hplot.
  { unfold collector.hand_over. destruct (collector.store_plots c); [|done].
    destruct (plot_day_non_list (collector.plotting e) (collector.json_path st)
                (collector.plot_path (collector.cycle_start st) "") fs v Hv Hl) as [H1 H2].
    destruct (collector.plot_day _ _ _ _) as [[l fs'] r]. simpl in *. by subst. }
  assert (In (collector.LogException "Failed to read/append sensor data")
             (log1 ++ [collector.LogException "Failed to read/append sensor data"]))
    as Hin by (apply in_or_app; right; by left).
  rewrite in_app_iff in Hin.
  unfold log, st'. destruct due.
  - destruct Hrot as (Hfs & _ & Hst). rewrite Hplot in Hfs, Hst. cbn [fst snd] in Hfs, Hst.
    destruct (collector.store_plots c && collector.truthy v
              && negb (bool_decide (is_Some (iterate v)))) eqn:Hb.
    + simpl in Hst. rewrite Hst in Ht. rewrite Ht. cbn [fst snd].
      rewrite andb_true_l. rewrite <- !andb_assoc in Hb |- *. rewrite Hb.
      split; [done|]. split; [rewrite !in_app_iff; tauto|]. split; [by eexists|].
      split; [|done]. by rewrite !app_assoc, last_snoc.
    + simpl in Hst. rewrite Hst in Ht. rewrite Ht. cbn [fst snd].
      rewrite andb_true_l. rewrite <- !andb_assoc in Hb |- *. rewrite Hb.
      split; [done|]. split; [rewrite !in_app_iff; tauto|]. split; [by eexists|].
      split; [|done]. rewrite !app_assoc, ended_sleep. lia.
  - rewrite Hrot in Ht. cbn [fst snd] in Ht. rewrite Ht. cbn [fst snd andb].
    split; [done|]. split; [rewrite !in_app_iff; tauto|]. split; [by eexists|].
    split; [|done]. rewrite !app_assoc, ended_sleep. lia.
Qed.

(** The segment of the running cycle holds a number and plots are stored:
    the iteration that completes the cycle ends the loop. *)
Lemma tick_keeps_non_list_segment_witness :
  (collector.tick Examples.plotting_hourly Examples.after_the_hour Examples.running
     Examples.number_store).2 = Examples.number_store
  /\ List.last
       (collector.tick Examples.plotting_hourly Examples.after_the_hour Examples.running
          Examples.number_store).1.1 (collector.Sleep 0)
     = collector.Traceback TypeError.
Proof.
  destruct (tick_keeps_non_list_segment Examples.plotting_hourly Examples.after_the_hour
              Examples.running Examples.number_store Examples.zero_sensor (JInt 5))
    as (H1 & _ & _ & H2).
  - simpl. lia.
  - simpl. lia.
  - reflexivity.
  - vm_compute. reflexivity.
  - discriminate.
  - split; [exact H1|]. exact (proj1 H2).
Defined.

(** * The loop *)

(** What an iteration does to the cycle: it keeps it, or starts the one
    named after the clock read at the rotation. *)
Lemma tick_cycle c e st fs :
  let st' := (collector.tick c e st fs).1.2 in
  (collector.cycle_start st' = collector.cycle_start st
   /\ collector.json_path st' = collector.json_path st)
  \/ (collector.cycle_start st' = collector.rotate_clock e
      /\ collector.json_path st' = collector.segment_path (collector.rotate_clock e)).
Proof.
  cbv zeta. set (r := (collector.resolve c e st).2).
  assert ((collector.resolve c e st).2 = r) as Hres by done. clearbody r.
  destruct r as [s|].
  - rewrite (tick_resolved c e st fs s Hres). cbv zeta.
    pose proof (rotate_spec c e st (collector.sample c e s st fs).1.2
                  (collector.sample c e s st fs).2) as H. cbv zeta in H.
    destruct (collector.should_rotate _ _ _).
    + destruct H as (_ & _ & ->). destruct (collector.hand_over _ _ _ _).2; simpl; tauto.
    + rewrite H. simpl. tauto.
  - rewrite (tick_unresolved c e st fs Hres). simpl. tauto.
Qed.

Lemma tick_sensor c e st fs :
  is_Some (collector.sensor st) -> is_Some (collector.sensor (collector.tick c e st fs).1.2).
Proof.
  intros [s Hs].
  assert ((collector.resolve c e st).2 = Some s) as Hres.
  { unfold collector.resolve. by rewrite Hs. }
  rewrite (tick_sensor_resolved c e st fs s Hres).
  unfold collector.sample. destruct (collector.find_sensor _ _) as [log1 found].
  by destruct (collector.append_reading _ _ _ _ _) as [[log2 steps] [[]|err]]; eexists.
Qed.

Lemma iterate_loop_cons c e es st fs :
  collector.iterate_loop c (e :: es) st fs
  = let t := collector.tick c e st fs in
    if collector.ended t.1.1 then t
    else
      let r := collector.iterate_loop c es t.1.2 t.2 in
      (t.1.1 ++ r.1.1, r.1.2, r.2).
Proof.
  simpl. destruct (collector.tick c e st fs) as [[log st'] fs']. simpl.
  destruct (collector.ended log); [done|].
  by destruct (collector.iterate_loop c es st' fs') as [[log' st''] fs''].
Qed.

Lemma iterate_loop_invariant c es : forall st fs,
  let st' := (collector.iterate_loop c es st fs).1.2 in
  (collector.json_path st = collector.segment_path (collector.cycle_start st) ->
   collector.json_path st' = collector.segment_path (collector.cycle_start st'))
  /\ In (collector.cycle_start st') (collector.cycle_start st :: map collector.rotate_clock es)
  /\ (is_Some (collector.sensor st) -> is_Some (collector.sensor st')).
Proof.
  induction es as [|e es IH]; intros st fs; [simpl; tauto|].
  rewrite iterate_loop_cons. cbv zeta.
  specialize (IH (collector.tick c e st fs).1.2 (collector.tick c e st fs).2).
  cbv zeta in IH. destruct IH as (IH1 & IH2 & IH3).
  pose proof (tick_cycle c e st fs) as Hc. cbv zeta in Hc.
  pose proof (tick_sensor c e st fs) as Hs.
  destruct (collector.ended (collector.tick c e st fs).1.1); cbn [fst snd].
  - split; [|split; [|done]].
    + intros Hinv. destruct Hc as [[E1 E2]|[E1 E2]]; congruence.
    + destruct Hc as [[E1 _]|[E1 _]]; [left | right; left]; congruence.
  - split; [|split].
    + intros Hinv. apply IH1. destruct Hc as [[E1 E2]|[E1 E2]]; congruence.
    + destruct IH2 as [IH2|IH2].
      * destruct Hc as [[E1 _]|[E1 _]]; [left | right; left]; congruence.
      * right. by right.
    + auto.
Qed.



(** X8.  Once an iteration has a sensor the loop never loses it: every
    later state holds one, whatever the hub answers or raises afterwards. *)
Theorem loop_keeps_its_sensor c es st fs :
  is_Some (collector.sensor st) ->
  is_Some (collector.sensor (collector.iterate_loop c es st fs).1.2).
Proof. intros H. by apply (iterate_loop_invariant c es st fs). Qed.

Lemma loop_keeps_its_sensor_witness :
  is_Some (collector.sensor
             (collector.iterate_loop Examples.hourly
                [Examples.hub_down; Examples.hub_down] Examples.running
                Examples.scenario_store).1.2).
Proof.
  apply (loop_keeps_its_sensor Examples.hourly [Examples.hub_down; Examples.hub_down]
           Examples.running Examples.scenario_store).
  by eexists.
Defined.

(** * Sleeps *)

Lemma filter_sleep_app (l1 l2 : list collector.event) :
  List.filter (fun ev => match ev with collector.Sleep _ => true | _ => false end) (l1 ++ l2)
  = List.filter (fun ev => match ev with collector.Sleep _ => true | _ => false end) l1
    ++ List.filter (fun ev => match ev with collector.Sleep _ => true | _ => false end) l2.
Proof. apply List.filter_app. Qed.

Lemma find_sensor_no_sleep hub name :
  List.filter (fun ev => match ev with collector.Sleep _ => true | _ => false end)
    (collector.find_sensor hub name).1 = [].
Proof. by destruct hub. Qed.

Lemma resolve_no_sleep c e st :
  List.filter (fun ev => match ev with collector.Sleep _ => true | _ => false end)
    (collector.resolve c e st).1 = [].
Proof.
  unfold collector.resolve. destruct (collector.sensor st); [done|].
  apply find_sensor_no_sleep.
Qed.

Lemma sample_no_sleep c e s st fs :
  List.filter (fun ev => match ev with collector.Sleep _ => true | _ => false end)
    (collector.sample c e s st fs).1.1 = [].
Proof.
  unfold collector.sample.
  pose proof (find_sensor_no_sleep (collector.hub_refresh e) (collector.sensor_name c)) as H1.
  destruct (collector.find_sensor _ _) as [log1 found]. simpl in H1.
  unfold collector.append_reading, collector.load_payload.
  destruct (fs_lookup fs (collector.json_path st)) as [x|]; [destruct (json_load x)|];
    repeat match goal with
           | |- context [collector.append ?a ?b] => destruct (collector.append a b)
           | |- context [collector.atomic_write_json ?a ?b ?c ?d ?e] =>
               destruct (collector.atomic_write_json a b c d e) as [? [[]|?]]
           end; simpl; rewrite ?filter_sleep_app, H1; reflexivity.
Qed.

Lemma plot_day_no_sleep d j p fs :
  List.filter (fun ev => match ev with collector.Sleep _ => true | _ => false end)
    (collector.plot_day d j p fs).1.1 = [].
Proof.
  unfold collector.plot_day.
  destruct (fs_lookup fs j) as [c|]; [|done].
  destruct (json_load c) as [data|]; [|done].
  destruct (negb (collector.truthy data)); [done|].
  destruct (iterate data) as [rows|]; [|done].
  destruct (if existsb collector.has_ts rows then d else collector.NoTimes)
    as [|infos plots r]; [done|].
  simpl. induction infos as [|i infos IH]; [done|]. exact IH.
Qed.

Lemma rotate_no_sleep c e st s fs :
  List.filter (fun ev => match ev with collector.Sleep _ => true | _ => false end)
    (collector.rotate c e st s fs).1.1 = [].
Proof.
  unfold collector.rotate, collector.hand_over.
  destruct (collector.should_rotate _ _ _); [|done].
  destruct (collector.store_plots c); [|done].
  pose proof (plot_day_no_sleep (collector.plotting e) (collector.json_path st)
                (collector.plot_path (collector.cycle_start st) "") fs) as H.
  destruct (collector.plot_day _ _ _ _) as [[log fs'] [[]|x]]; simpl in *.
  - by rewrite filter_sleep_app, H.
  - done.
Qed.

(** An iteration with an interval it can sleep: its trace holds one sleep,
    the last event, unless an exception has left the rotation; then it
    holds none. *)
Lemma tick_sleeps c e st fs :
  0 <= collector.interval_seconds c ->
  List.filter (fun ev => match ev with collector.Sleep _ => true | _ => false end)
    (collector.tick c e st fs).1.1
  = (if collector.ended (collector.tick c e st fs).1.1 then []
     else [collector.Sleep (collector.interval_seconds c)])
  /\ (collector.tick c e st fs).1.1 <> [].
Proof.
  intros Hint.
  assert (collector.sleep (collector.interval_seconds c)
          = [collector.Sleep (collector.interval_seconds c)]) as Hsl.
  { unfold collector.sleep. by destruct (Z.ltb_spec (collector.interval_seconds c) 0); [lia|]. }
  assert (forall l, collector.ended (l ++ [collector.Sleep (collector.interval_seconds c)])
                    = false) as Hend.
  { intros l. unfold collector.ended. by rewrite last_snoc. }
  pose proof (resolve_no_sleep c e st) as H0.
  set (r := (collector.resolve c e st).2).
  assert ((collector.resolve c e st).2 = r) as Hres by done. clearbody r.
  destruct r as [s|].
  - rewrite (tick_resolved c e st fs s Hres). cbv zeta.
    pose proof (sample_no_sleep c e s st fs) as H1.
    pose proof (rotate_no_sleep c e st (collector.sample c e s st fs).1.2
                  (collector.sample c e s st fs).2) as H2.
    destruct (collector.rotate _ _ _ _ _).1.2 as [st'|x]; cbn [fst snd].
    + rewrite Hsl, !app_assoc, Hend, <- !app_assoc, !filter_sleep_app, H0, H1, H2.
      split; [done|]. by destruct (collector.resolve c e st).1, (collector.sample c e s st fs).1.1,
        (collector.rotate c e st (collector.sample c e s st fs).1.2
           (collector.sample c e s st fs).2).1.1.
    + rewrite !app_assoc, ended_traceback, <- !app_assoc, !filter_sleep_app, H0, H1, H2.
      split; [done|]. by destruct (collector.resolve c e st).1, (collector.sample c e s st fs).1.1,
        (collector.rotate c e st (collector.sample c e s st fs).1.2
           (collector.sample c e s st fs).2).1.1.
  - rewrite (tick_unresolved c e st fs Hres). cbn [fst snd]. rewrite Hsl.
    change (?a ++ [?x] ++ [?y]) with (a ++ [x] ++ [y]).
    rewrite !app_assoc, Hend, <- !app_assoc, !filter_sleep_app, H0.
    split; [done|]. by destruct (collector.resolve c e st).1.
Qed.

Lemma ended_app l l' : l' <> [] -> collector.ended (l ++ l') = collector.ended l'.
Proof.
  intros Hne. unfold collector.ended. destruct l' as [|x l']; [done|].
  by rewrite last_app_cons.
Qed.

Lemma iterate_loop_nonempty c e es st fs :
  0 <= collector.interval_seconds c ->
  (collector.iterate_loop c (e :: es) st fs).1.1 <> [].
Proof.
  intros Hint. rewrite iterate_loop_cons. cbv zeta.
  destruct (tick_sleeps c e st fs Hint) as [_ Hne].
  destruct (collector.ended (collector.tick c e st fs).1.1); [exact Hne|]. cbn [fst snd].
  intros H. by apply app_eq_nil in H as [? _].
Qed.

(** X9.  With an interval it can sleep, the loop sleeps exactly once per
    iteration, [interval_seconds] each time, as long as no exception
    leaves it; the iteration that an exception leaves, and none after it,
    does not sleep. *)
Theorem loop_sleeps_once_per_iteration c es : forall st fs,
  0 <= collector.interval_seconds c < 2 ^ 32 ->
  let log := (collector.iterate_loop c es st fs).1.1 in
  if collector.ended log then
    exists n, (n < List.length es)%nat
              /\ List.filter (fun ev => match ev with collector.Sleep _ => true | _ => false end)
                   log
                 = repeat (collector.Sleep (collector.interval_seconds c)) n
  else
    List.filter (fun ev => match ev with collector.Sleep _ => true | _ => false end) log
    = repeat (collector.Sleep (collector.interval_seconds c)) (List.length es).
Proof.
  induction es as [|e es IH]; intros st fs Hint; [reflexivity|].
  cbv zeta. rewrite iterate_loop_cons. cbv zeta.
  destruct (tick_sleeps c e st fs (proj1 Hint)) as [Hs Hne].
  destruct (collector.ended (collector.tick c e st fs).1.1) eqn:Hend.
  - rewrite Hend. exists 0%nat. split; [simpl; lia | done].
  - cbn [fst snd].
    specialize (IH (collector.tick c e st fs).1.2 (collector.tick c e st fs).2 Hint).
    cbv zeta in IH. rewrite filter_sleep_app, Hs.
    destruct es as [|e' es'].
    + simpl. by rewrite app_nil_r, Hend.
    + pose proof (iterate_loop_nonempty c e' es' (collector.tick c e st fs).1.2
                    (collector.tick c e st fs).2 (proj1 Hint)) as Hne'.
      rewrite (ended_app _ _ Hne').
      destruct (collector.ended _).
      * destruct IH as (n & Hn & ->). exists (S n). split; [simpl in *; lia | done].
      * by rewrite IH.
Qed.

Lemma loop_sleeps_once_per_iteration_witness :
  List.filter (fun ev => match ev with collector.Sleep _ => true | _ => false end)
    (collector.iterate_loop Examples.hourly [Examples.after_the_hour; Examples.hub_down]
       Examples.running Examples.scenario_store).1.1
  = [collector.Sleep 600; collector.Sleep 600].
Proof.
  pose proof (loop_sleeps_once_per_iteration Examples.hourly
                [Examples.after_the_hour; Examples.hub_down] Examples.running
                Examples.scenario_store ltac:(simpl; lia)) as H.
  cbv zeta in H.
  assert (collector.ended
            (collector.iterate_loop Examples.hourly
               [Examples.after_the_hour; Examples.hub_down] Examples.running
               Examples.scenario_store).1.1 = false) as Hend by (vm_compute; reflexivity).
  rewrite Hend in H. exact H.
Defined.

(** * A loop without its sensor *)

(** X22.  For as long as the hub lists no sensor of the configured name,
    or cannot be asked, a loop that holds no sensor writes nothing and keeps
    its cycle and its segment, however long the cycle has lasted. *)
Theorem loop_without_sensor_idles c es st fs :
  collector.sensor st = None ->
  Forall (fun e => (collector.find_sensor (collector.hub_resolve e)
                      (collector.sensor_name c)).2 = None) es ->
  (collector.iterate_loop c es st fs).1.2 = st
  /\ (collector.iterate_loop c es st fs).2 = fs.
Proof.
  intros Hst Hall. revert st Hst.
  induction Hall as [|e es He _ IH]; intros st Hst; [done|].
  rewrite iterate_loop_cons. cbv zeta.
  assert ((collector.resolve c e st).2 = None) as Hres.
  { unfold collector.resolve. by rewrite Hst. }
  rewrite (tick_unresolved c e st fs Hres). cbn [fst snd].
  assert (collector.mkstate (collector.cycle_start st) (collector.json_path st) None = st)
    as ->.
  { destruct st; simpl in *; by subst. }
  destruct (collector.ended _); [done|]. cbn [fst snd]. by apply IH.
Qed.

Lemma loop_without_sensor_idles_witness :
  (collector.iterate_loop Examples.hourly [Examples.hub_down; Examples.hub_down]
     Examples.searching Examples.scenario_store).1.2 = Examples.searching
  /\ (collector.iterate_loop Examples.hourly [Examples.hub_down; Examples.hub_down]
        Examples.searching Examples.scenario_store).2 = Examples.scenario_store.
Proof.
  apply loop_without_sensor_idles; [reflexivity|]. repeat constructor.
Defined.


Lemma diff_microseconds_add a b c :
  datetime.diff_microseconds a c
  = datetime.diff_microseconds a b + datetime.diff_microseconds b c.
Proof. unfold datetime.diff_microseconds. lia. Qed.

(** X10.  A cycle that is due stays due: if the rotation rule holds at
    [now] it holds at every later clock reading, so a rotation missed while
    no sensor could be found is made at the next iteration that has one. *)
Theorem rotation_stays_due c now now' cycle_start :
  datetime.valid now = true -> datetime.valid now' = true ->
  datetime.leb now now' = true ->
  collector.should_rotate c now cycle_start = true ->
  collector.should_rotate c now' cycle_start = true.
Proof.
  intros Hv Hv' Hle. unfold collector.should_rotate, datetime.elapsed_at_least.
  rewrite !Z.leb_le. apply leb_diff in Hle; [|done..].
  rewrite (diff_microseconds_add now' now cycle_start). lia.
Qed.

Lemma rotation_stays_due_witness :
  collector.should_rotate Examples.hourly (Examples.at_time 10 10 0) (Examples.at_time 9 0 0)
  = true.
Proof.
  apply (rotation_stays_due Examples.hourly (Examples.at_time 10 0 5)
           (Examples.at_time 10 10 0) (Examples.at_time 9 0 0));
    reflexivity.
Defined.

(** * The window of a request *)

Lemma window_nonneg r :
  0 <= datetime.td_days (server.window r) /\ 0 <= datetime.td_hours (server.window r).
Proof.
  unfold server.window.
  repeat match goal with |- context [if ?b then _ else _] => destruct b end; simpl; lia.
Qed.

Lemma valid_replace_hms x h m s :
  datetime.valid x = true -> 0 <= h < 24 -> 0 <= m < 60 -> 0 <= s < 60 ->
  datetime.valid (datetime.replace_hms x h m s) = true.
Proof.
  unfold datetime.valid. simpl. rewrite !andb_true_iff, !Z.leb_le, !Z.ltb_lt.
  intuition lia.
Qed.

Lemma end_time_valid today utcnow d end_dt :
  datetime.valid utcnow = true ->
  server.end_time today utcnow d = Return end_dt -> datetime.valid end_dt = true.
Proof.
  intros Hv. unfold server.end_time. destruct d as [[|c s]|]; try (by intros [= <-]).
  destruct (strptime (String c s) "%Y-%m-%d") as [x|] eqn:Hx; [|discriminate].
  apply strptime_valid in Hx as [Hvx _].
  destruct (datetime.date_eqb _ _); intros [= <-]; [done|].
  apply valid_replace_hms; [done|lia..].
Qed.

(** X11.  The window [get_readings] asks [load_data] for: its end is a
    valid datetime, its start is a valid datetime not after the end, and
    from start to end it is exactly 6 hours, 12 hours, 24 hours, 3 days,
    7 days or 30 days long for the ranges 6h, 12h, 24h, 3d, 7d and 1m, and
    24 hours long for any other range. *)
Theorem get_readings_window today utcnow d r end_dt start_dt :
  datetime.valid utcnow = true ->
  server.end_time today utcnow d = Return end_dt ->
  datetime.sub end_dt (server.window r) = Return start_dt ->
  datetime.valid end_dt = true /\ datetime.valid start_dt = true
  /\ datetime.leb start_dt end_dt = true
  /\ datetime.diff_microseconds end_dt start_dt
     = (if String.eqb r "6h" then 6 * 3600
        else if String.eqb r "12h" then 12 * 3600
        else if String.eqb r "3d" then 3 * 86400
        else if String.eqb r "7d" then 7 * 86400
        else if String.eqb r "1m" then 30 * 86400
        else 24 * 3600) * 1000000.
Proof.
  intros Hv Hend Hsub. pose proof (end_time_valid _ _ _ _ Hv Hend) as Hve.
  destruct (window_nonneg r) as [Hd Hh].
  destruct (sub_spec _ _ _ Hve Hd Hh Hsub) as [Hvs Hdiff].
  split; [done|]. split; [done|]. split.
  - apply leb_diff; [done..|]. rewrite Hdiff. lia.
  - rewrite Hdiff. unfold server.window.
    destruct (String.eqb_spec r "6h") as [->|_]; [reflexivity|].
    destruct (String.eqb_spec r "12h") as [->|_]; [reflexivity|].
    destruct (String.eqb_spec r "24h") as [->|_]; [reflexivity|].
    destruct (String.eqb_spec r "3d") as [->|_]; [reflexivity|].
    destruct (String.eqb_spec r "7d") as [->|_]; [reflexivity|].
    destruct (String.eqb_spec r "1m") as [->|_]; reflexivity.
Qed.

Lemma get_readings_window_witness :
  server.end_time (Examples.at_time 12 0 0) (Examples.at_time 11 0 0) (Some "2025-11-18")
  = Return (datetime.mk 2025 11 18 23 59 59 0)
  /\ datetime.sub (datetime.mk 2025 11 18 23 59 59 0) (server.window "1m")
     = Return (datetime.mk 2025 10 19 23 59 59 0)
  /\ datetime.diff_microseconds (datetime.mk 2025 11 18 23 59 59 0)
       (datetime.mk 2025 10 19 23 59 59 0) = 30 * 86400 * 1000000.
Proof.
  assert (server.end_time (Examples.at_time 12 0 0) (Examples.at_time 11 0 0)
            (Some "2025-11-18") = Return (datetime.mk 2025 11 18 23 59 59 0)) as He
    by (vm_compute; reflexivity).
  assert (datetime.sub (datetime.mk 2025 11 18 23 59 59 0) (server.window "1m")
          = Return (datetime.mk 2025 10 19 23 59 59 0)) as Hs by (vm_compute; reflexivity).
  split; [exact He|]. split; [exact Hs|].
  exact (proj2 (proj2 (proj2 (get_readings_window (Examples.at_time 12 0 0)
                                (Examples.at_time 11 0 0) (Some "2025-11-18") "1m" _ _
                                eq_refl He Hs)))).
Defined.

(** X12.  An answer of [get_readings] with status OK is sorted ascending
    by the "ts" string and holds only records whose time stamp parses to an
    instant of the window the request asked for: between the end time (the
    clock reading, or 23:59:59 of the requested day) less the range, and the
    end time, both included. *)
Theorem get_readings_OK fs today utcnow req log body :
  server.get_readings fs today utcnow req = (log, server.OK body) ->
  exists start_dt end_dt,
    server.end_time today utcnow (server.arg_date req) = Return end_dt
    /\ datetime.sub end_dt (server.window (default "24h" (server.arg_range req)))
       = Return start_dt
    /\ StronglySorted (Str.key_le server.ts_key) body
    /\ Forall (fun x => server.in_range start_dt end_dt x = true) body.
Proof.
  unfold server.get_readings.
  destruct (server.end_time today utcnow (server.arg_date req)) as [end_dt|] eqn:He;
    [|discriminate].
  destruct (datetime.sub end_dt _) as [start_dt|] eqn:Hs; [|discriminate].
  destruct (server.load_data fs start_dt end_dt) as [log' [data|e]] eqn:Hl; [|discriminate].
  intros [= <- <-]. exists start_dt, end_dt. split; [done|]. split; [done|].
  assert ((server.load_data fs start_dt end_dt).2 = Return data) as Hret by (by rewrite Hl).
  apply load_data_Return in Hret as [[_ ->]|(dir & before & _ & _ & ->)].
  - split; constructor.
  - split; [apply sort_strongly_sorted|].
    apply List.Forall_forall. intros x Hx%in_sort. by apply filter_In in Hx as [_ ?].
Qed.

Lemma get_readings_OK_witness :
  exists start_dt end_dt,
    server.end_time (Examples.at_time 12 0 0) (Examples.at_time 11 0 0) None = Return end_dt
    /\ datetime.sub end_dt (server.window (default "24h" (Some "6h"))) = Return start_dt
    /\ StronglySorted (Str.key_le server.ts_key) [Examples.r1; Examples.r2; Examples.r3]
    /\ Forall (fun x => server.in_range start_dt end_dt x = true)
         [Examples.r1; Examples.r2; Examples.r3].
Proof.
  apply (get_readings_OK Examples.scenario_store (Examples.at_time 12 0 0)
           (Examples.at_time 11 0 0) (server.mkrequest (Some "6h") None)
           [server.AddingEntry (Examples.at_time 10 0 0);
            server.AddingEntry (Examples.at_time 10 2 0);
            server.AddingEntry (Examples.at_time 10 4 0)]).
  vm_compute. reflexivity.
Defined.


(** * What a query depends on *)

Lemma relevant_files_ext lo hi (d1 d2 : directory) :
  (forall f, Str.startswith f "sensor_" = true -> d1 !! f = d2 !! f) ->
  server.relevant_files lo hi (listdir d1) = server.relevant_files lo hi (listdir d2).
Proof.
  intros Hagree. unfold server.relevant_files.
  apply (StronglySorted_unique_strong (Str.key_le (fun g : string => g))).
  - intros a b _ _ Hab Hba. by apply (anti_symm String.le).
  - apply StronglySorted_filter, sort_strongly_sorted.
  - apply StronglySorted_filter, sort_strongly_sorted.
  - apply NoDup_Permutation.
    + apply NoDup_ListNoDup, List.NoDup_filter.
      eapply Permutation_NoDup; [symmetry; apply sort_perm|]. apply NoDup_listdir.
    + apply NoDup_ListNoDup, List.NoDup_filter.
      eapply Permutation_NoDup; [symmetry; apply sort_perm|]. apply NoDup_listdir.
    + intros g. rewrite !list_elem_of_In, !filter_In, !in_sort, !in_listdir.
      split; intros [Hg Hc]; (split; [|done]);
        apply candidate_segment_name in Hc; [by rewrite <- Hagree | by rewrite Hagree].
Qed.

Lemma combined_data_ext (d1 d2 : directory) relevant :
  (forall f, In f relevant -> d1 !! f = d2 !! f) ->
  server.combined_data d1 relevant = server.combined_data d2 relevant.
Proof.
  unfold server.combined_data. induction relevant as [|f rest IH]; intros Hagree; [done|].
  simpl. rewrite IH by (intros g Hg; apply Hagree; by right).
  unfold server.load_file. by rewrite (Hagree f (or_introl eq_refl)).
Qed.

Lemma load_data_ext fs1 fs2 start_dt end_dt before :
  datetime.sub start_dt (datetime.mkdelta 1 0) = Return before ->
  (forall f, Str.startswith f "sensor_" = true ->
             fs_lookup fs1 (mkpath server.DATA_FOLDER f)
             = fs_lookup fs2 (mkpath server.DATA_FOLDER f)) ->
  (server.load_data fs1 start_dt end_dt).2 = (server.load_data fs2 start_dt end_dt).2.
Proof.
  intros Hsub Hagree.
  rewrite (load_data_dir fs1 _ _ _ Hsub), (load_data_dir fs2 _ _ _ Hsub). cbv zeta.
  assert (forall f, Str.startswith f "sensor_" = true ->
                    default ∅ (fs1 !! server.DATA_FOLDER) !! f
                    = default ∅ (fs2 !! server.DATA_FOLDER) !! f) as Hdir.
  { intros f Hf. specialize (Hagree f Hf). by rewrite !fs_lookup_dir in Hagree. }
  rewrite (relevant_files_ext _ _ _ _ Hdir).
  rewrite (combined_data_ext _ (default ∅ (fs2 !! server.DATA_FOLDER))); [done|].
  intros f [_ Hc]%relevant_files_In. by apply Hdir, (candidate_segment_name _ _ _ Hc).
Qed.

(** X13.  The answer of a query depends only on the files of the data
    folder whose names begin with sensor_: two stores that hold the same
    under each such name give the same result, whatever else they hold,
    temporary files of an interrupted write included, and whether or not the
    folder exists. *)
Theorem load_data_reads_segments_only fs1 fs2 start_dt end_dt before :
  datetime.sub start_dt (datetime.mkdelta 1 0) = Return before ->
  (forall f, Str.startswith f "sensor_" = true ->
             fs_lookup fs1 (mkpath server.DATA_FOLDER f)
             = fs_lookup fs2 (mkpath server.DATA_FOLDER f)) ->
  (server.load_data fs1 start_dt end_dt).2 = (server.load_data fs2 start_dt end_dt).2.
Proof. apply load_data_ext. Qed.

Lemma load_data_reads_segments_only_witness :
  (server.load_data Examples.scenario_store (Examples.at_time 9 0 0) (Examples.at_time 11 0 0)).2
  = (server.load_data
       (collector.write_file "data" ".tmp_json_k3" (Partial (JArray [Examples.r1]) 1)
          Examples.scenario_store)
       (Examples.at_time 9 0 0) (Examples.at_time 11 0 0)).2.
Proof.
  apply (load_data_reads_segments_only _ _ _ _ (datetime.mk 2025 11 19 9 0 0 0));
    [reflexivity|].
  intros f Hf. symmetry. apply fs_lookup_write_other. right. simpl.
  intros ->. discriminate.
Defined.

Lemma last_cons {A} (l : list A) : forall a d, List.last (a :: l) d = List.last l a.
Proof.
  induction l as [|b l IH]; intros a d; [done|].
  change (List.last (a :: b :: l) d) with (List.last (b :: l) d). by rewrite !IH.
Qed.

Lemma after_In fs steps : In (collector.after fs steps) (fs :: steps).
Proof.
  unfold collector.after. revert fs. induction steps as [|s steps IH]; intros fs; [by left|].
  right. rewrite last_cons. apply IH.
Qed.

(** X14.  A query made at any moment of an append to a segment of the
    data folder, or after a crash at that moment, gets the result it would
    have got before the append began or the one it gets once the append is
    complete: no half-written segment and no temporary file ever shows in an
    answer. *)
Theorem query_during_append p names chunks reading fs log steps r s
    start_dt end_dt before :
  dname p = server.DATA_FOLDER -> Str.startswith (bname p) "sensor_" = true ->
  collector.append_reading names chunks p reading fs = (log, steps, r) ->
  In s steps ->
  datetime.sub start_dt (datetime.mkdelta 1 0) = Return before ->
  (server.load_data s start_dt end_dt).2 = (server.load_data fs start_dt end_dt).2
  \/ (server.load_data s start_dt end_dt).2
     = (server.load_data (collector.after fs steps) start_dt end_dt).2.
Proof.
  intros Hd Hpre Happ Hs Hsub. pose proof (segment_not_tmp _ Hpre) as Htmp.
  destruct (append_reading_steps _ _ _ _ _ _ _ _ Htmp Happ) as [Hall Hfinal].
  rewrite List.Forall_forall in Hall.
  assert (mkpath server.DATA_FOLDER (bname p) = p) as Hp by (destruct p; simpl in *; by subst).
  assert (forall x f, In x (fs :: steps) -> Str.startswith f "sensor_" = true ->
                      f <> bname p ->
                      fs_lookup x (mkpath server.DATA_FOLDER f)
                      = fs_lookup fs (mkpath server.DATA_FOLDER f)) as Hother.
  { intros x f Hx Hf Hne. apply (Hall x Hx). right. simpl. split; [done|].
    by apply segment_not_tmp. }
  destruct (Hall s (or_intror Hs)) as [[Hold|(old & Hpay & Hnew)] _].
  - left. apply (load_data_ext _ _ _ _ _ Hsub). intros f Hf.
    destruct (decide (f = bname p)) as [->|Hne].
    + by rewrite Hp.
    + apply Hother; [by right|done..].
  - right. apply (load_data_ext _ _ _ _ _ Hsub). intros f Hf.
    destruct (decide (f = bname p)) as [->|Hne].
    + rewrite Hp, Hnew. destruct r as [[]|e].
      * destruct (Hfinal eq_refl) as (old' & Hpay' & ->). congruence.
      * assert (steps = [s]) as ->; [|done].
        revert Happ Hs. unfold collector.append_reading.
        destruct (collector.load_payload fs p) as [log0 payload].
        destruct (collector.append payload reading) as [payload'|e'].
        2:{ by intros [= <- <- <-] []. }
        unfold collector.atomic_write_json.
        destruct (collector.mkstemp _ _ _); [discriminate|].
        intros [= <- <- <-] [<-|[]]. done.
    + rewrite (Hother s f (or_intror Hs) Hf Hne).
      symmetry. apply Hother; [apply after_In|done..].
Qed.

(** The state in which the temporary file holds the first chunk of the
    dump of the four readings. *)
Lemma query_during_append_witness :
  let res := collector.append_reading ["k3x9qv_a"] 3 Examples.segment Examples.r4
               Examples.scenario_store in
  let s := nth 2 res.1.2 Examples.scenario_store in
  (server.load_data s (Examples.at_time 9 0 0) (Examples.at_time 11 0 0)).2
  = (server.load_data Examples.scenario_store
       (Examples.at_time 9 0 0) (Examples.at_time 11 0 0)).2
  \/ (server.load_data s (Examples.at_time 9 0 0) (Examples.at_time 11 0 0)).2
     = (server.load_data (collector.after Examples.scenario_store res.1.2)
          (Examples.at_time 9 0 0) (Examples.at_time 11 0 0)).2.
Proof.
  intros res s.
  apply (query_during_append Examples.segment ["k3x9qv_a"] 3 Examples.r4
           Examples.scenario_store res.1.1 res.1.2 res.2 s _ _
           (datetime.mk 2025 11 19 9 0 0 0)).
  - reflexivity.
  - reflexivity.
  - apply triple_eta.
  - apply nth_In. vm_compute. lia.
  - reflexivity.
Defined.

(** * The files a query loads *)

(** [load_data] on an existing folder, with a start one can step a day back
    from: what is printed and what is returned. *)
Lemma load_data_eq fs dir start_dt end_dt before :
  fs !! server.DATA_FOLDER = Some dir ->
  datetime.sub start_dt (datetime.mkdelta 1 0) = Return before ->
  let lo := datetime.get_date before in
  let hi := datetime.get_date end_dt in
  let relevant := server.relevant_files lo hi (listdir dir) in
  server.load_data fs start_dt end_dt
  = (flat_map (fun f => (server.candidate lo hi f).1) (Str.sort (fun f => f) (listdir dir))
       ++ flat_map (fun f => (server.load_file dir f).1) relevant
       ++ (server.filter_entries start_dt end_dt (server.combined_data dir relevant)).1,
     Str.sort server.ts_key
       <$> (server.filter_entries start_dt end_dt (server.combined_data dir relevant)).2).
Proof.
  intros Hdir Hsub. unfold server.load_data. rewrite Hdir, Hsub. cbv zeta.
  by destruct (server.filter_entries _ _ _).
Qed.

Lemma flat_map_filter_skip {A B} (g : A -> list B) (p : A -> bool) l :
  (forall x, In x l -> p x = false -> g x = []) ->
  flat_map g (List.filter p l) = flat_map g l.
Proof.
  induction l as [|x l IH]; intros H; [done|]. simpl.
  destruct (p x) eqn:Hp; simpl.
  - rewrite IH; [done|]. intros y Hy. apply H. by right.
  - rewrite (H x (or_introl eq_refl) Hp), IH; [done|]. intros y Hy. apply H. by right.
Qed.

Lemma flat_map_agree {A B} (g h : A -> list B) l :
  (forall x, In x l -> g x = h x) -> flat_map g l = flat_map h l.
Proof.
  induction l as [|x l IH]; intros H; [done|]. simpl.
  rewrite (H x (or_introl eq_refl)), IH; [done|]. intros y Hy. apply H. by right.
Qed.

Lemma filter_all {A} (p : A -> bool) l :
  (forall x, In x l -> p x = true) -> List.filter p l = l.
Proof.
  induction l as [|x l IH]; intros H; [done|]. simpl.
  rewrite (H x (or_introl eq_refl)), IH; [done|]. intros y Hy. apply H. by right.
Qed.

(** In a list without repetition, what [f] contributes can be taken out. *)
Lemma flat_map_take_out {B} (g : string -> list B) f l :
  List.NoDup l -> In f l ->
  Permutation (flat_map g l)
    (g f ++ flat_map g (List.filter (fun x => negb (String.eqb x f)) l)).
Proof.
  induction 1 as [|x l Hx Hnd IH]; intros Hin; [destruct Hin|]. simpl.
  destruct (String.eqb_spec x f) as [->|Hne]; simpl.
  - rewrite filter_all; [done|]. intros y Hy.
    apply negb_true_iff, String.eqb_neq. by intros ->.
  - destruct Hin as [?|Hin]; [done|]. rewrite (IH Hin).
    rewrite !app_assoc. apply Permutation_app_tail, Permutation_app_comm.
Qed.

Lemma NoDup_relevant_files lo hi (dir : directory) :
  List.NoDup (server.relevant_files lo hi (listdir dir)).
Proof.
  unfold server.relevant_files. apply List.NoDup_filter.
  eapply Permutation_NoDup; [symmetry; apply sort_perm|]. apply NoDup_listdir.
Qed.

Lemma filter_entries_no_raise start_dt end_dt combined :
  (exists r, (server.filter_entries start_dt end_dt combined).2 = Return r)
  <-> Forall (fun x => server.entry_ts x <> Raise KeyError
                       /\ server.entry_ts x <> Raise TypeError) combined.
Proof.
  split.
  - intros [r Hr]. apply List.Forall_forall. intros x Hx.
    split; intros He;
      destruct (filter_entries_raises start_dt end_dt combined x _ Hx He) as [e' He'];
      try discriminate; congruence.
  - intros H. destruct (filter_entries_total start_dt end_dt combined H) as (log & d & Hf).
    exists d. by rewrite Hf.
Qed.

(** The test of line 43 on the name the collector gives a segment: the
    day of the cycle start against the day before the start of the window
    and the day of its end. *)
Lemma candidate_segment start_dt end_dt before cs :
  datetime.valid start_dt = true -> datetime.valid end_dt = true ->
  datetime.sub start_dt (datetime.mkdelta 1 0) = Return before ->
  datetime.valid cs = true ->
  server.candidate (datetime.get_date before) (datetime.get_date end_dt)
    (bname (collector.segment_path cs))
  = ([], (datetime.toordinal (datetime.get_date start_dt) - 1
          <=? datetime.toordinal (datetime.get_date cs))
         && (datetime.toordinal (datetime.get_date cs)
             <=? datetime.toordinal (datetime.get_date end_dt))).
Proof.
  intros Hs He Hsub Hcs. unfold server.candidate.
  destruct (segment_name_shape cs) as (-> & -> & _). rewrite (file_date_segment cs Hcs).
  cbn [andb]. f_equal.
  pose proof (sub_one_day _ _ Hs Hsub) as Hpred.
  apply date_pred_spec in Hpred as [Hvb Hord]; [|by apply valid_get_date].
  unfold datetime.date_leb.
  rewrite !toordinal_compare by (done || by apply valid_get_date). rewrite Hord.
  reflexivity.
Qed.

(** A file that is not among those loaded can as well be absent. *)
Lemma load_data_not_loaded fs dir start_dt end_dt before f :
  fs !! server.DATA_FOLDER = Some dir ->
  datetime.sub start_dt (datetime.mkdelta 1 0) = Return before ->
  server.candidate (datetime.get_date before) (datetime.get_date end_dt) f = ([], false) ->
  server.load_data fs start_dt end_dt
  = server.load_data (<[server.DATA_FOLDER := delete f dir]> fs) start_dt end_dt.
Proof.
  intros Hdir Hsub Hc.
  rewrite (load_data_eq _ _ _ _ _ Hdir Hsub).
  rewrite (load_data_eq (<[server.DATA_FOLDER := delete f dir]> fs) (delete f dir) _ _ _
             (lookup_insert_eq _ _ _) Hsub). cbv zeta.
  rewrite relevant_files_delete, sort_listdir_delete.
  set (relevant := server.relevant_files (datetime.get_date before)
                     (datetime.get_date end_dt) (listdir dir)).
  assert (~ In f relevant) as Hnot.
  { intros [_ H]%relevant_files_In. by rewrite Hc in H. }
  assert (List.filter (fun g => negb (String.eqb g f)) relevant = relevant) as ->.
  { apply filter_all. intros g Hg. apply negb_true_iff, String.eqb_neq. by intros ->. }
  assert (server.combined_data (delete f dir) relevant = server.combined_data dir relevant)
    as ->.
  { apply combined_data_ext. intros g Hg. apply lookup_delete_ne. by intros ->. }
  f_equal. f_equal; [|f_equal].
  - symmetry. apply flat_map_filter_skip. intros g _ Hg.
    apply negb_false_iff, String.eqb_eq in Hg. subst g. by rewrite Hc.
  - apply flat_map_agree. intros g Hg. unfold server.load_file.
    rewrite lookup_delete_ne; [done|]. by intros ->.
Qed.

Lemma Permutation_list_filter {A} (p : A -> bool) l l' :
  Permutation l l' -> Permutation (List.filter p l) (List.filter p l').
Proof.
  induction 1 as [|x l l' _ IH|x y l|l l' l'' _ IH1 _ IH2]; simpl.
  - done.
  - destruct (p x); [by constructor | done].
  - destruct (p x), (p y); try done. apply perm_swap.
  - by etransitivity.
Qed.

(** What a loaded file contributes to [combined_data]: taken out, the rest
    is what the folder without the file gives. *)
Lemma combined_data_take_out lo hi (dir : directory) f :
  In f (server.relevant_files lo hi (listdir dir)) ->
  Permutation
    (server.combined_data dir (server.relevant_files lo hi (listdir dir)))
    ((server.load_file dir f).2
       ++ server.combined_data (delete f dir)
            (server.relevant_files lo hi (listdir (delete f dir)))).
Proof.
  intros Hin. unfold server.combined_data.
  rewrite (flat_map_take_out (fun g => (server.load_file dir g).2) f _
             (NoDup_relevant_files lo hi dir) Hin).
  apply Permutation_app_head. rewrite relevant_files_delete.
  erewrite flat_map_agree; [done|]. intros g [_ Hg]%filter_In. simpl.
  rewrite load_file_delete; [done|]. by apply negb_true_iff, String.eqb_neq in Hg.
Qed.

(** C3.  A segment file of the data folder, under the name the collector
    gives it, is loaded by a query exactly when the day its name encodes
    (the day of its cycle start) lies between the day before [start_dt]'s
    and [end_dt]'s day, both included.  When it does, the file counts once:
    if it cannot be read the error is printed for it, and if it can, what
    the query returns is what it returns without the file together with
    the in-range records of the file, each as often as the file holds it; in
    particular a segment begun the day before [start_dt]'s gives its
    in-range records.  When it does not, the query prints and returns what
    it does without the file, whatever the file holds. *)
Theorem candidate_selection fs dir start_dt end_dt before cs c :
  fs !! server.DATA_FOLDER = Some dir ->
  datetime.valid start_dt = true -> datetime.valid end_dt = true ->
  datetime.sub start_dt (datetime.mkdelta 1 0) = Return before ->
  datetime.valid cs = true -> 1000 <= datetime.year cs ->
  let f := bname (collector.segment_path cs) in
  dir !! f = Some c ->
  let without := <[server.DATA_FOLDER := delete f dir]> fs in
  let day := datetime.toordinal (datetime.get_date cs) in
  if (datetime.toordinal (datetime.get_date start_dt) - 1 <=? day)
     && (day <=? datetime.toordinal (datetime.get_date end_dt))
  then
    ((forall rows, ~ server.readable dir f rows) ->
     In (server.ErrorReading f) (server.load_data fs start_dt end_dt).1)
    /\ (forall rows data,
          server.readable dir f rows ->
          (server.load_data fs start_dt end_dt).2 = Return data ->
          exists data',
            (server.load_data without start_dt end_dt).2 = Return data'
            /\ Permutation data
                 (data' ++ List.filter (server.in_range start_dt end_dt) rows))
  else
    server.load_data fs start_dt end_dt = server.load_data without start_dt end_dt.
Proof.
  intros Hdir Hs He Hsub Hcs _ f Hfile without day.
  pose proof (candidate_segment start_dt end_dt before cs Hs He Hsub Hcs) as Hc.
  fold f day in Hc.
  destruct ((datetime.toordinal (datetime.get_date start_dt) - 1 <=? day)
            && (day <=? datetime.toordinal (datetime.get_date end_dt))).
  2:{ by apply (load_data_not_loaded fs dir start_dt end_dt before f). }
  set (lo := datetime.get_date before) in *. set (hi := datetime.get_date end_dt) in *.
  assert (In f (server.relevant_files lo hi (listdir dir))) as Hin.
  { apply relevant_files_In. split; [apply in_listdir; by eexists | by rewrite Hc]. }
  split.
  - intros Hno. rewrite (load_data_eq _ _ _ _ _ Hdir Hsub). cbv zeta. cbn [fst].
    apply in_or_app. right. apply in_or_app. left. apply in_flat_map.
    exists f. split; [exact Hin|]. unfold server.load_file. rewrite Hfile.
    destruct (json_load c) as [v|] eqn:Hl; [|by left].
    destruct (iterate v) as [rows|] eqn:Hit; [|by left].
    destruct (Hno rows). by exists c, v.
  - intros rows data (c' & v & Hc' & Hl & Hit) Hret.
    assert ((server.load_file dir f).2 = rows) as Hrows.
    { unfold server.load_file. by rewrite Hc', Hl, Hit. }
    pose proof (combined_data_take_out lo hi dir f Hin) as Hperm. rewrite Hrows in Hperm.
    rewrite (load_data_unfold _ _ _ _ _ Hdir Hsub) in Hret. cbv zeta in Hret.
    fold lo hi in Hret.
    destruct (server.filter_entries start_dt end_dt
                (server.combined_data dir (server.relevant_files lo hi (listdir dir))))
      as [log [d|e]] eqn:Hf; [|discriminate].
    simpl in Hret. injection Hret as <-.
    assert (Forall (fun x => server.entry_ts x <> Raise KeyError
                             /\ server.entry_ts x <> Raise TypeError)
              (server.combined_data (delete f dir)
                 (server.relevant_files lo hi (listdir (delete f dir))))) as Hok.
    { assert (exists r, (server.filter_entries start_dt end_dt
                           (server.combined_data dir
                              (server.relevant_files lo hi (listdir dir)))).2 = Return r)
        as Hr by (exists d; by rewrite Hf).
      apply filter_entries_no_raise in Hr.
      apply (Permutation_Forall Hperm) in Hr. by apply Forall_app in Hr as [_ ?]. }
    destruct (filter_entries_total start_dt end_dt _ Hok) as (log' & d' & Hf').
    exists (Str.sort server.ts_key d'). split.
    + unfold without.
      rewrite (load_data_unfold _ (delete f dir) _ _ _ (lookup_insert_eq _ _ _) Hsub).
      cbv zeta. fold lo hi. by rewrite Hf'.
    + apply filter_entries_Return in Hf, Hf'. subst d d'.
      rewrite !sort_perm. rewrite (Permutation_list_filter _ _ _ Hperm).
      rewrite List.filter_app. apply Permutation_app_comm.
Qed.

(** A query starting at 00:15 on the 20th loads the segment begun at
    23:30 on the 19th: its reading of 00:30 is what the answer holds beyond
    that of the folder without it. *)
Lemma candidate_selection_witness :
  exists data',
    (server.load_data
       (<[server.DATA_FOLDER
          := delete "sensor_20251119_233000.json"
               ({[ "sensor_20251119_233000.json" := Dumped (JArray [Examples.overnight]);
                   "sensor_20251120_095959.json" := Garbage ]} : directory)]>
          Examples.two_day_store)
       (Examples.at_time 0 15 0) (Examples.at_time 1 0 0)).2 = Return data'
    /\ Permutation [Examples.overnight]
         (data' ++ List.filter (server.in_range (Examples.at_time 0 15 0)
                                  (Examples.at_time 1 0 0)) [Examples.overnight]).
Proof.
  pose (dir := ({[ "sensor_20251119_233000.json" := Dumped (JArray [Examples.overnight]);
                   "sensor_20251120_095959.json" := Garbage ]} : directory)).
  assert (Examples.two_day_store !! server.DATA_FOLDER = Some dir) as Hdir
    by (vm_compute; reflexivity).
  assert (dir !! bname (collector.segment_path (datetime.mk 2025 11 19 23 30 0 0))
          = Some (Dumped (JArray [Examples.overnight]))) as Hfile
    by (vm_compute; reflexivity).
  assert (1000 <= datetime.year (datetime.mk 2025 11 19 23 30 0 0)) as Hy by (simpl; lia).
  pose proof (candidate_selection Examples.two_day_store dir (Examples.at_time 0 15 0)
                (Examples.at_time 1 0 0) (datetime.mk 2025 11 19 0 15 0 0)
                (datetime.mk 2025 11 19 23 30 0 0) _ Hdir eq_refl eq_refl eq_refl eq_refl
                Hy Hfile) as H.
  cbv zeta in H.
  change ((datetime.toordinal (datetime.get_date (Examples.at_time 0 15 0)) - 1
           <=? datetime.toordinal (datetime.get_date (datetime.mk 2025 11 19 23 30 0 0)))
          && (datetime.toordinal (datetime.get_date (datetime.mk 2025 11 19 23 30 0 0))
              <=? datetime.toordinal (datetime.get_date (Examples.at_time 1 0 0))))
    with true in H.
  destruct H as [_ H].
  apply (H [Examples.overnight] [Examples.overnight]).
  - exists (Dumped (JArray [Examples.overnight])), (JArray [Examples.overnight]).
    split; [exact Hfile | by split].
  - vm_compute. reflexivity.
Defined.

(** * Segments and windows *)

Lemma diff_microseconds_opp a b :
  datetime.diff_microseconds a b = - datetime.diff_microseconds b a.
Proof. unfold datetime.diff_microseconds. lia. Qed.

Lemma diff_microseconds_cut x :
  datetime.diff_microseconds x (datetime.replace_microsecond x 0) = datetime.microsecond x.
Proof.
  unfold datetime.diff_microseconds, datetime.replace_microsecond, datetime.get_date,
    datetime.second_of_day. simpl. lia.
Qed.

Lemma segment_of_day_segment cs :
  datetime.valid cs = true ->
  server.segment_of_day (bname (collector.segment_path cs)) (datetime.get_date cs).
Proof.
  intros Hv. destruct (segment_name_shape cs) as (Hpre & Hsuf & _).
  split; [done|]. split; [done|]. by apply file_date_segment.
Qed.

(** X15.  A reading that the collector appends to the segment of its cycle
    no more than 24 hours after the cycle began comes back from every query
    that answers and whose window covers the time stamp of the reading: the
    day the query looks back reaches the segment. *)
Theorem reading_within_a_day_is_served cs utcnow sensor names chunks fs log steps
    start_dt end_dt before data :
  let reading := collector.read_sensor_values utcnow sensor in
  let now := datetime.replace_microsecond utcnow 0 in
  datetime.valid cs = true -> 1000 <= datetime.year cs ->
  datetime.valid utcnow = true -> datetime.valid start_dt = true ->
  datetime.leb cs utcnow = true ->
  datetime.diff_microseconds utcnow cs <= 86400 * 1000000 ->
  collector.append_reading names chunks (collector.segment_path cs) reading fs
  = (log, steps, Return tt) ->
  datetime.sub start_dt (datetime.mkdelta 1 0) = Return before ->
  datetime.leb start_dt now = true -> datetime.leb now end_dt = true ->
  (server.load_data (collector.after fs steps) start_dt end_dt).2 = Return data ->
  In reading data.
Proof.
  intros reading now Hcs _ Hnow Hstart Hcs_now Hday Happ Hsub Hlo Hhi Hret.
  assert (datetime.valid now = true) as Hvnow by (by apply valid_replace_microsecond).
  destruct (segment_name_shape cs) as (Hpre & Hsuf & Htmp).
  apply append_reading_steps in Happ as [_ Hlast]; [|done].
  destruct (Hlast eq_refl) as (old & _ & Hpost).
  unfold fs_lookup in Hpost.
  change (dir_of (collector.segment_path cs)) with server.DATA_FOLDER in Hpost.
  destruct (collector.after fs steps !! server.DATA_FOLDER) as [dir|] eqn:Hdir;
    [|discriminate].
  eapply (load_data_keeps _ dir start_dt end_dt before
            (bname (collector.segment_path cs)) (old ++ [reading])); try done.
  - apply relevant_files_In. split; [apply in_listdir; by eexists|].
    apply candidate_true. exists (datetime.get_date cs).
    split; [by apply segment_of_day_segment|]. split.
    + destruct (sub_spec start_dt (datetime.mkdelta 1 0) before Hstart ltac:(simpl; lia)
                  ltac:(simpl; lia) Hsub) as [Hvb Hdiff].
      change (datetime.td_days (datetime.mkdelta 1 0)) with 1 in Hdiff.
      change (datetime.td_hours (datetime.mkdelta 1 0)) with 0 in Hdiff.
      apply leb_get_date, leb_diff; [done..|].
      apply leb_diff in Hlo; [|done..].
      pose proof (diff_microseconds_cut utcnow) as Hcut. fold now in Hcut.
      pose proof (valid_bounds utcnow Hnow) as (_ & _ & _ & _ & _ & _ & Hus).
      rewrite (diff_microseconds_add cs utcnow before),
        (diff_microseconds_add utcnow now before),
        (diff_microseconds_add now start_dt before).
      rewrite (diff_microseconds_opp cs utcnow). lia.
    + apply date_leb_trans with (datetime.get_date utcnow); [by apply leb_get_date|].
      change (datetime.get_date utcnow) with (datetime.get_date now).
      by apply leb_get_date.
  - by exists (Dumped (JArray (old ++ [reading]))), (JArray (old ++ [reading])).
  - apply in_or_app. right. by left.
  - apply in_range_spec. exists now. split; [by apply entry_ts_reading|done].
Qed.

(** A reading taken at 00:30:00.25 in the cycle begun at 23:30 the day
    before, and the query from 00:15 to 01:00. *)
Lemma reading_within_a_day_is_served_witness :
  let utcnow := datetime.mk 2025 11 20 0 30 0 250000 in
  let reading := collector.read_sensor_values utcnow Examples.zero_sensor in
  let res := collector.append_reading ["k3x9qv_a"] 3
               (collector.segment_path (datetime.mk 2025 11 19 23 30 0 0)) reading
               Examples.scenario_store in
  (server.load_data (collector.after Examples.scenario_store res.1.2)
     (Examples.at_time 0 15 0) (Examples.at_time 1 0 0)).2 = Return [reading]
  /\ In reading [reading].
Proof.
  intros utcnow reading res.
  assert (res.2 = Return tt) as Hr by (vm_compute; reflexivity).
  assert ((server.load_data (collector.after Examples.scenario_store res.1.2)
             (Examples.at_time 0 15 0) (Examples.at_time 1 0 0)).2 = Return [reading])
    as Hq by (vm_compute; reflexivity).
  split; [exact Hq|].
  apply (reading_within_a_day_is_served (datetime.mk 2025 11 19 23 30 0 0) utcnow
           Examples.zero_sensor ["k3x9qv_a"] 3 Examples.scenario_store res.1.1 res.1.2
           (Examples.at_time 0 15 0) (Examples.at_time 1 0 0)
           (datetime.mk 2025 11 19 0 15 0 0) [reading]);
    first [reflexivity | (simpl; lia) | (vm_compute; discriminate)
          | exact (triple_eta_returned res (Return tt) Hr) | exact Hq].
Defined.



(** X17.  The names of two segments compare as strings the way their
    cycle starts compare to the second, so the sorted listing the query
    walks is in the order the cycles began. *)
Theorem segment_names_sort_by_cycle_start a b :
  datetime.valid a = true -> datetime.valid b = true ->
  1000 <= datetime.year a -> 1000 <= datetime.year b ->
  String.compare (bname (collector.segment_path a)) (bname (collector.segment_path b))
  = datetime.compare (datetime.replace_microsecond a 0) (datetime.replace_microsecond b 0).
Proof.
  intros Ha Hb _ _.
  pose proof (valid_bounds a Ha) as (? & ? & ? & ? & ? & ? & _).
  pose proof (valid_bounds b Hb) as (? & ? & ? & ? & ? & ? & _).
  pose proof (days_in_month_le (datetime.year a) (datetime.month a)).
  pose proof (days_in_month_le (datetime.year b) (datetime.month b)).
  unfold collector.segment_path, bname, datetime.strftime_segment, datetime.compare,
    datetime.fields, datetime.replace_microsecond.
  cbn [datetime.year datetime.month datetime.day datetime.hour datetime.minute
       datetime.second datetime.microsecond].
  rewrite !string_app_assoc, !string_app_cons, !string_app_nil_l.
  do 7 rewrite compare_same_head.
  do 3 (rewrite compare_zpad by (simpl; lia)). rewrite compare_same_head.
  do 3 (rewrite compare_zpad by (simpl; lia)).
  simpl.
  repeat match goal with |- context [?x ?= ?y] => destruct (x ?= y) end; reflexivity.
Qed.

Lemma segment_names_sort_by_cycle_start_witness :
  String.compare (bname (collector.segment_path (datetime.mk 2025 11 19 23 30 0 7)))
                 (bname (collector.segment_path (Examples.at_time 9 59 59)))
  = datetime.compare (datetime.replace_microsecond (datetime.mk 2025 11 19 23 30 0 7) 0)
                     (datetime.replace_microsecond (Examples.at_time 9 59 59) 0).
Proof.
  apply segment_names_sort_by_cycle_start; try reflexivity; vm_compute; discriminate.
Defined.

(** * What an answer holds *)

Lemma load_file_records (dir : directory) f : (server.load_file dir f).2 = server.records dir f.
Proof.
  unfold server.load_file, server.records.
  destruct (dir !! f) as [[v| | |]|]; try done. simpl. by destruct (iterate v).
Qed.

(** X18.  When a query answers, there is a list of the file names it has
    loaded, in ascending order and each once: the names of the folder that
    pass the test of the window.  The answer is a rearrangement of the
    in-range records of these files, each record as many times as the
    files hold it, nothing merged, dropped or made up; and records with one
    "ts" string come in the order they are stored in, file after file. *)
Theorem load_data_exact fs start_dt end_dt before data :
  datetime.sub start_dt (datetime.mkdelta 1 0) = Return before ->
  (server.load_data fs start_dt end_dt).2 = Return data ->
  let dir := default ∅ (fs !! server.DATA_FOLDER) in
  exists selected,
    StronglySorted String.le selected /\ List.NoDup selected
    /\ (forall f, In f selected <->
                  is_Some (dir !! f)
                  /\ (server.candidate (datetime.get_date before) (datetime.get_date end_dt)
                        f).2 = true)
    /\ let stored := flat_map (server.records dir) selected in
       Permutation data (List.filter (server.in_range start_dt end_dt) stored)
       /\ forall k,
            List.filter (fun x => String.eqb (server.ts_key x) k) data
            = List.filter (fun x => String.eqb (server.ts_key x) k)
                (List.filter (server.in_range start_dt end_dt) stored).
Proof.
  intros Hsub Hret dir. rewrite (load_data_dir _ _ _ _ Hsub) in Hret.
  cbv zeta in Hret. fold dir in Hret.
  set (selected := server.relevant_files (datetime.get_date before)
                     (datetime.get_date end_dt) (listdir dir)) in *.
  exists selected. split; [|split; [|split]].
  - unfold selected, server.relevant_files.
    apply StronglySorted_filter, (sort_strongly_sorted (fun g : string => g)).
  - apply NoDup_relevant_files.
  - intros f. unfold selected. by rewrite relevant_files_In, in_listdir.
  - assert (server.combined_data dir selected = flat_map (server.records dir) selected) as E.
    { unfold server.combined_data. apply flat_map_agree. intros f _.
      apply load_file_records. }
    rewrite E in Hret. cbv zeta.
    destruct (server.filter_entries start_dt end_dt
                (flat_map (server.records dir) selected)) as [log [d|e]] eqn:Hf;
      simpl in Hret; [|discriminate].
    injection Hret as <-. apply filter_entries_Return in Hf as ->.
    split; [apply sort_perm | intros k; apply sort_stable].
Qed.

Lemma load_data_exact_witness :
  exists selected,
    StronglySorted String.le selected /\ List.NoDup selected
    /\ (forall f, In f selected <->
                  is_Some (default ∅ (Examples.scenario_store !! server.DATA_FOLDER) !! f)
                  /\ (server.candidate (datetime.get_date (datetime.mk 2025 11 19 10 2 0 0))
                        (datetime.get_date (Examples.at_time 10 4 0)) f).2 = true)
    /\ Permutation [Examples.r2; Examples.r3]
         (List.filter (server.in_range (Examples.at_time 10 2 0) (Examples.at_time 10 4 0))
            (flat_map (server.records
                         (default ∅ (Examples.scenario_store !! server.DATA_FOLDER)))
               selected)).
Proof.
  assert ((server.load_data Examples.scenario_store (Examples.at_time 10 2 0)
             (Examples.at_time 10 4 0)).2 = Return [Examples.r2; Examples.r3]) as Hret
    by (vm_compute; reflexivity).
  destruct (load_data_exact Examples.scenario_store (Examples.at_time 10 2 0)
              (Examples.at_time 10 4 0) (datetime.mk 2025 11 19 10 2 0 0)
              [Examples.r2; Examples.r3] eq_refl Hret) as (selected & H1 & H2 & H3 & H4 & _).
  exists selected. split; [exact H1|]. split; [exact H2|]. split; [exact H3 | exact H4].
Defined.

Lemma entry_ts_string_ts x s :
  field "ts" x = Some (JString s) ->
  server.entry_ts x <> Raise KeyError /\ server.entry_ts x <> Raise TypeError.
Proof.
  unfold field, server.entry_ts. destruct x as [| | | | | |kv]; try discriminate.
  intros ->. by destruct (strptime s "%Y-%m-%dT%H:%M:%SZ").
Qed.

Lemma load_data_log fs dir start_dt end_dt before m :
  fs !! server.DATA_FOLDER = Some dir ->
  datetime.sub start_dt (datetime.mkdelta 1 0) = Return before ->
  In m (server.filter_entries start_dt end_dt
          (server.combined_data dir
             (server.relevant_files (datetime.get_date before) (datetime.get_date end_dt)
                (listdir dir)))).1 ->
  In m (server.load_data fs start_dt end_dt).1.
Proof.
  intros Hdir Hsub Hm. unfold server.load_data. rewrite Hdir, Hsub.
  destruct (server.filter_entries _ _ _) as [log4 r]. simpl in *.
  apply in_or_app. right. apply in_or_app. by right.
Qed.

(** X19.  When every record of the segment files that can be read is an
    object whose "ts" is an ASCII string, the query answers; and each
    record of a loaded file whose string does not parse as a time stamp is
    printed as invalid and left out of the answer. *)
Theorem string_ts_never_fails fs dir start_dt end_dt before :
  fs !! server.DATA_FOLDER = Some dir ->
  datetime.sub start_dt (datetime.mkdelta 1 0) = Return before ->
  (forall f rows x,
      Str.startswith f "sensor_" = true -> server.readable dir f rows -> In x rows ->
      exists s, field "ts" x = Some (JString s) /\ Str.isascii s = true) ->
  exists data,
    (server.load_data fs start_dt end_dt).2 = Return data
    /\ forall f rows x,
         (server.candidate (datetime.get_date before) (datetime.get_date end_dt) f).2 = true ->
         server.readable dir f rows -> In x rows ->
         server.entry_ts x = Raise ValueError ->
         ~ In x data
         /\ In (server.InvalidTimestamp x) (server.load_data fs start_dt end_dt).1.
Proof.
  intros Hdir Hsub Hall.
  set (stored := server.combined_data dir
                   (server.relevant_files (datetime.get_date before)
                      (datetime.get_date end_dt) (listdir dir))).
  destruct (filter_entries_total start_dt end_dt stored) as (log & d & Hf).
  { apply List.Forall_forall. intros x (f & rows & Hfl & Hread & Hx)%combined_data_In.
    apply relevant_files_In in Hfl as [_ Hc].
    destruct (Hall f rows x (candidate_segment_name _ _ _ Hc) Hread Hx) as (s & Hs & _).
    by eapply entry_ts_string_ts. }
  exists (Str.sort server.ts_key d). split.
  - rewrite (load_data_unfold _ _ _ _ _ Hdir Hsub). cbv zeta. fold stored. by rewrite Hf.
  - intros f rows x Hc Hread Hx Hbad.
    assert (In x stored) as Hin.
    { apply combined_data_In. exists f, rows. split; [|done].
      apply relevant_files_In. split; [|done]. apply in_listdir.
      destruct Hread as (c & _ & -> & _). by eexists. }
    destruct (filter_entries_invalid _ _ _ _ _ _ Hf Hin Hbad) as [Hlog Hout]. split.
    + by rewrite in_sort.
    + apply (load_data_log _ _ _ _ _ _ Hdir Hsub). fold stored. by rewrite Hf.
Qed.

(** A segment whose second record is stamped "yesterday": the first comes
    back, the second is printed as invalid. *)
Lemma string_ts_never_fails_witness :
  exists data,
    (server.load_data Examples.garbled_store
       (Examples.at_time 9 30 0) (Examples.at_time 11 0 0)).2 = Return data
    /\ ~ In Examples.garbled data
    /\ In (server.InvalidTimestamp Examples.garbled)
          (server.load_data Examples.garbled_store
             (Examples.at_time 9 30 0) (Examples.at_time 11 0 0)).1.
Proof.
  pose (dir := ({[ "sensor_20251120_095959.json"
                   := Dumped (JArray [Examples.r1; Examples.garbled]) ]} : directory)).
  assert (Examples.garbled_store !! server.DATA_FOLDER = Some dir) as Hdir
    by (vm_compute; reflexivity).
  destruct (string_ts_never_fails Examples.garbled_store dir
              (Examples.at_time 9 30 0) (Examples.at_time 11 0 0)
              (datetime.mk 2025 11 19 9 30 0 0) Hdir eq_refl) as (data & Hret & H).
  - intros f rows x _ (c & v & Hf & Hl & Hit) Hx.
    apply lookup_singleton_Some in Hf as [<- <-].
    injection Hl as <-. injection Hit as <-.
    destruct Hx as [<-|[<-|[]]]; eexists; split; reflexivity.
  - exists data. split; [exact Hret|].
    apply (H "sensor_20251120_095959.json" [Examples.r1; Examples.garbled] Examples.garbled).
    + vm_compute. reflexivity.
    + exists (Dumped (JArray [Examples.r1; Examples.garbled])),
        (JArray [Examples.r1; Examples.garbled]).
      split; [vm_compute; reflexivity | by split].
    + right. by left.
    + vm_compute. reflexivity.
Defined.

Lemma iterate_not_list v day_data x :
  (forall l, v <> JArray l) -> iterate v = Some day_data -> In x day_data ->
  server.entry_ts x = Raise TypeError.
Proof.
  intros Hv Hit Hx. destruct v as [| | | |s|l|kv]; try discriminate.
  - injection Hit as <-. induction s as [|c s IH]; [done|].
    destruct Hx as [<-|Hx]; [done | by apply IH].
  - by destruct (Hv l).
  - injection Hit as <-. apply in_map_iff in Hx as (p & <- & _). done.
Qed.

(** X20.  A loaded segment that holds a JSON object with a key, or a
    string with a character, instead of a list makes the query raise: the
    keys or characters are taken for records, and none of them has a "ts". *)
Theorem non_list_segment_fails_query fs dir start_dt end_dt before f v day_data x :
  fs !! server.DATA_FOLDER = Some dir ->
  datetime.sub start_dt (datetime.mkdelta 1 0) = Return before ->
  In f (server.relevant_files (datetime.get_date before) (datetime.get_date end_dt)
          (listdir dir)) ->
  dir !! f = Some (Dumped v) -> (forall l, v <> JArray l) ->
  iterate v = Some day_data -> In x day_data ->
  exists e, (server.load_data fs start_dt end_dt).2 = Raise e.
Proof.
  intros Hdir Hsub Hf Hv Hnl Hit Hx.
  rewrite (load_data_unfold _ _ _ _ _ Hdir Hsub). cbv zeta.
  destruct (filter_entries_raises start_dt end_dt
              (server.combined_data dir
                 (server.relevant_files (datetime.get_date before)
                    (datetime.get_date end_dt) (listdir dir))) x TypeError) as [e He].
  - apply combined_data_In. exists f, day_data. split; [done|]. split; [|done].
    by exists (Dumped v), v.
  - by eapply iterate_not_list.
  - discriminate.
  - exists e. by rewrite He.
Qed.

Lemma non_list_segment_fails_query_witness :
  exists e, (server.load_data Examples.object_store
               (Examples.at_time 8 0 0) (Examples.at_time 11 0 0)).2 = Raise e.
Proof.
  pose (v := JObject [("ts", JString "2025-11-20T09:00:00Z")]).
  pose (dir := ({[ "sensor_20251120_090000.json" := Dumped v ]} : directory)).
  assert (Examples.object_store !! server.DATA_FOLDER = Some dir) as Hdir
    by (vm_compute; reflexivity).
  assert (In "sensor_20251120_090000.json"
            (server.relevant_files (datetime.get_date (datetime.mk 2025 11 19 8 0 0 0))
               (datetime.get_date (Examples.at_time 11 0 0)) (listdir dir))) as Hf
    by (vm_compute; by left).
  assert (dir !! "sensor_20251120_090000.json" = Some (Dumped v)) as Hv
    by (vm_compute; reflexivity).
  apply (non_list_segment_fails_query Examples.object_store dir
           (Examples.at_time 8 0 0) (Examples.at_time 11 0 0)
           (datetime.mk 2025 11 19 8 0 0 0) "sensor_20251120_090000.json"
           v [JString "ts"] (JString "ts") Hdir eq_refl Hf Hv).
  - discriminate.
  - reflexivity.
  - by left.
Defined.

(** * The stamps of the collector *)

Lemma ts_key_reading utcnow sensor :
  server.ts_key (collector.read_sensor_values utcnow sensor)
  = datetime.isoformat (datetime.replace_microsecond utcnow 0) +:+ "Z".
Proof. unfold collector.read_sensor_values, server.ts_key. by eval_keys. Qed.

(** X21.  The time stamp of a reading the collector takes has the
    written form, and two such readings are in the order of the sort key
    exactly when the first was taken no later than the second, to the
    second: answers made of the collector's readings are chronological. *)
Theorem readings_sort_chronologically a b sa sb :
  datetime.valid a = true -> datetime.valid b = true ->
  server.written_form (server.ts_key (collector.read_sensor_values a sa)) = true
  /\ (Str.key_le server.ts_key (collector.read_sensor_values a sa)
        (collector.read_sensor_values b sb)
      <-> datetime.leb (datetime.replace_microsecond a 0)
                       (datetime.replace_microsecond b 0) = true).
Proof.
  intros Ha Hb. split.
  - unfold server.written_form. rewrite ts_key_reading.
    rewrite strptime_isoformat by (by apply valid_replace_microsecond || done).
    apply String.eqb_refl.
  - unfold Str.key_le, String.le, String.leb. rewrite !ts_key_reading.
    rewrite compare_isoformat by (by apply valid_replace_microsecond || done).
    unfold datetime.leb.
    by destruct (datetime.compare _ _).
Qed.

Lemma readings_sort_chronologically_witness :
  server.written_form
    (server.ts_key (collector.read_sensor_values (datetime.mk 2025 11 20 9 59 59 900000)
                      Examples.zero_sensor)) = true
  /\ (Str.key_le server.ts_key
        (collector.read_sensor_values (datetime.mk 2025 11 20 9 59 59 900000)
           Examples.zero_sensor)
        (collector.read_sensor_values (datetime.mk 2025 11 20 10 0 0 100000)
           Examples.dead_sensor)
      <-> datetime.leb
            (datetime.replace_microsecond (datetime.mk 2025 11 20 9 59 59 900000) 0)
            (datetime.replace_microsecond (datetime.mk 2025 11 20 10 0 0 100000) 0) = true).
Proof.
  apply readings_sort_chronologically; reflexivity.
Defined.

